(** * Maneuver: match validation engine and smart-merge lookups

    A shallow embedding of
      - [src/lib/matchValidationUtils.ts]  (aggregation, severity
        classification, alliance comparison, match verdict),
      - the 2025 game-constants module     (point tables and [calculateMatchPoints]),
      - the upload handlers                (record lookups used while merging),
    together with the properties the design document states about them.

    Numbers.  The TypeScript code works on [number].  Piece counts and point
    totals are integers and are embedded as [Z]; thresholds and percentages
    may be fractional and are embedded as exact rationals [Q].  The two
    comparisons the code uses on them are [>=] and [<].  [NaN] and missing
    numeric fields are outside the embedding.

    Strings.  Record keys are [string]s; [toLowerCase] and [trim] are
    embedded on ASCII letters and ASCII white space. *)

From Stdlib Require Import ZArith QArith Qround List String Ascii Bool Lia Lqa.
From Stdlib Require Import DecimalString.
Import ListNotations.

Local Open Scope Z_scope.

(* ================================================================== *)
(** ** Numbers as the code compares them                               *)
(* ================================================================== *)

(** [a >= b] on rationals. *)
Definition Qgeb (a b : Q) : bool := Qle_bool b a.

(** [a < b] on rationals. *)
Definition Qltb (a b : Q) : bool := negb (Qle_bool b a).

(** [Math.round]: the nearest integer, halves going up. *)
Definition Math_round (x : Q) : Z := Qfloor (x + (1 # 2)).

(** [Math.round(x * 10) / 10]: one decimal place. *)
Definition round1 (x : Q) : Q := Qred (inject_Z (Math_round (x * 10)) / 10).

(** A number inside a template literal. *)
Definition showZ (z : Z) : string := NilZero.string_of_int (Z.to_int z).

(* ================================================================== *)
(** ** Validation types ([matchValidationTypes])                        *)
(* ================================================================== *)

Inductive DiscrepancySeverity : Type := none | minor | warning | critical.

Inductive ValidationStatus : Type := passed | flagged | failed.

Inductive ConfidenceLevel : Type := high | medium | low.

Inductive DataCategory : Type :=
  | auto_coral | teleop_coral | algae | endgame | mobility | fouls | total_score.

Inductive AllianceColor : Type := red | blue.

(** One threshold set.  The percentage fields are called [critical],
    [warning] and [minor] in the TypeScript interface; they carry a [Pct]
    suffix here because those names are the severity constructors. *)
Record Thresholds : Type := mkThresholds {
  criticalPct : Q;
  warningPct : Q;
  minorPct : Q;
  criticalAbsolute : Q;
  warningAbsolute : Q;
  minorAbsolute : Q
}.

Record ValidationConfig : Type := mkValidationConfig {
  thresholds : Thresholds;
  categoryThresholds : option (DataCategory -> option Thresholds);
  checkAutoScoring : bool;
  checkTeleopScoring : bool;
  checkEndgame : bool;
  autoFlagThreshold : Z;
  requireReScoutThreshold : Z
}.

Record Discrepancy : Type := mkDiscrepancy {
  category : DataCategory;
  field : string;
  scoutedValue : Z;
  tbaValue : Z;
  difference : Z;
  percentDiff : Q;
  severity : DiscrepancySeverity;
  message : string
}.

Definition severity_eqb (a b : DiscrepancySeverity) : bool :=
  match a, b with
  | none, none | minor, minor | warning, warning | critical, critical => true
  | _, _ => false
  end.

(** The ordinal of a severity: none < minor < warning < critical. *)
Definition severityOrdinal (s : DiscrepancySeverity) : Z :=
  match s with none => 0 | minor => 1 | warning => 2 | critical => 3 end.

(* ================================================================== *)
(** ** Severity classification                                          *)
(* ================================================================== *)

(** [(category && config.categoryThresholds?.[category]) || config.thresholds] *)
Definition thresholdsFor (config : ValidationConfig)
                         (cat : option DataCategory) : Thresholds :=
  match cat with
  | Some c =>
      match categoryThresholds config with
      | Some table =>
          match table c with
          | Some t => t
          | None => thresholds config
          end
      | None => thresholds config
      end
  | None => thresholds config
  end.

Definition calculateSeverity (difference percentDiff : Q)
                             (config : ValidationConfig)
                             (cat : option DataCategory) : DiscrepancySeverity :=
  let thresholds := thresholdsFor config cat in
  (* Check absolute thresholds first *)
  if Qgeb difference (criticalAbsolute thresholds) then critical
  else if Qgeb difference (warningAbsolute thresholds) then warning
  else if Qgeb difference (minorAbsolute thresholds) then minor
  (* For very small absolute differences, no escalation by percentage *)
  else if Qltb difference (warningAbsolute thresholds) then none
  (* For larger absolute differences, use percentage thresholds *)
  else if Qgeb percentDiff (criticalPct thresholds) then critical
  else if Qgeb percentDiff (warningPct thresholds) then warning
  else if Qgeb percentDiff (minorPct thresholds) then minor
  else none.

Definition createDiscrepancy (category : DataCategory) (field : string)
                             (scoutedValue tbaValue : Z)
                             (config : ValidationConfig) : option Discrepancy :=
  let difference := Z.abs (scoutedValue - tbaValue) in
  (* percentage difference, guarding the division by zero *)
  let max := Z.max scoutedValue tbaValue in
  let percentDiff :=
    if max =? 0 then 0%Q else (inject_Z difference / inject_Z max * 100)%Q in
  let severity :=
    calculateSeverity (inject_Z difference) percentDiff config (Some category) in
  match severity with
  | none => None
  | _ =>
      let sign := if scoutedValue >? tbaValue then "+"%string else "-"%string in
      Some {| category := category;
              field := field;
              scoutedValue := scoutedValue;
              tbaValue := tbaValue;
              difference := difference;
              percentDiff := round1 percentDiff;
              severity := severity;
              message :=
                (field ++ ": Scouted " ++ showZ scoutedValue ++ ", TBA "
                   ++ showZ tbaValue ++ " (" ++ sign ++ showZ difference ++ ", "
                   ++ showZ (Math_round percentDiff) ++ "%)")%string |}
  end.

(** The severity a comparison ends with: [null] stands for 'none'. *)
Definition severityOf (d : option Discrepancy) : DiscrepancySeverity :=
  match d with
  | Some x => severity x
  | None => none
  end.

Definition sampleThresholds : Thresholds :=
  {| criticalPct := 50; warningPct := 25; minorPct := 10;
     criticalAbsolute := 5; warningAbsolute := 2; minorAbsolute := 1 |}.

Definition sampleConfig : ValidationConfig :=
  {| thresholds := sampleThresholds;
     categoryThresholds := None;
     checkAutoScoring := true;
     checkTeleopScoring := true;
     checkEndgame := true;
     autoFlagThreshold := 2;
     requireReScoutThreshold := 3 |}.

(* ================================================================== *)
(** ** Scouting entries and the two aggregators                         *)
(* ================================================================== *)

(** One team's record for one match ([scoutingTypes]).  The counters are
    numbers, so [x || 0] is [x]. *)
Record ScoutingEntry : Type := mkScoutingEntry {
  matchNumber : string;
  eventName : string;
  alliance : string;
  selectTeam : string;
  scoutName : string;
  autoCoralPlaceL1Count : Z;
  autoCoralPlaceL2Count : Z;
  autoCoralPlaceL3Count : Z;
  autoCoralPlaceL4Count : Z;
  teleopCoralPlaceL1Count : Z;
  teleopCoralPlaceL2Count : Z;
  teleopCoralPlaceL3Count : Z;
  teleopCoralPlaceL4Count : Z;
  autoAlgaePlaceNetShot : Z;
  autoAlgaePlaceProcessor : Z;
  teleopAlgaePlaceNetShot : Z;
  teleopAlgaePlaceProcessor : Z;
  autoPassedStartLine : bool;
  deepClimbAttempted : bool;
  shallowClimbAttempted : bool;
  parkAttempted : bool;
  climbFailed : bool;
  brokeDown : bool;
  playedDefense : bool
}.

(** [entries.reduce((sum, e) => sum + f(e), 0)] *)
Definition reduceSum (f : ScoutingEntry -> Z) (entries : list ScoutingEntry) : Z :=
  fold_left (fun sum e => sum + f e) entries 0.

(** [entries.filter(p).length] *)
Definition filterLength (p : ScoutingEntry -> bool) (entries : list ScoutingEntry) : Z :=
  Z.of_nat (List.length (filter p entries)).

(** [cond ? 1 : 0] *)
Definition oneIf (b : bool) : Z := if b then 1 else 0.

Module Display.

(** Aggregated statistics for an alliance, as shown on the match pages. *)
Record AllianceStats : Type := mkAllianceStats {
  autoCoralL1 : Z; autoCoralL2 : Z; autoCoralL3 : Z; autoCoralL4 : Z;
  autoCoralTotal : Z;
  teleopCoralL1 : Z; teleopCoralL2 : Z; teleopCoralL3 : Z; teleopCoralL4 : Z;
  teleopCoralTotal : Z;
  totalCoralL1 : Z; totalCoralL2 : Z; totalCoralL3 : Z; totalCoralL4 : Z;
  totalCoral : Z;
  autoAlgaeNet : Z; autoAlgaeProcessor : Z; autoAlgaeTotal : Z;
  teleopAlgaeNet : Z; teleopAlgaeProcessor : Z; teleopAlgaeTotal : Z;
  totalAlgaeNet : Z; totalAlgaeProcessor : Z; totalAlgae : Z;
  deepClimbs : Z; shallowClimbs : Z; parks : Z; noEndgame : Z;
  climbFailures : Z;
  teamsPassedStartLine : Z;
  breakdowns : Z; defensePlayedCount : Z
}.

Definition createEmptyAllianceStats : AllianceStats :=
  {| autoCoralL1 := 0; autoCoralL2 := 0; autoCoralL3 := 0; autoCoralL4 := 0;
     autoCoralTotal := 0;
     teleopCoralL1 := 0; teleopCoralL2 := 0; teleopCoralL3 := 0;
     teleopCoralL4 := 0; teleopCoralTotal := 0;
     totalCoralL1 := 0; totalCoralL2 := 0; totalCoralL3 := 0; totalCoralL4 := 0;
     totalCoral := 0;
     autoAlgaeNet := 0; autoAlgaeProcessor := 0; autoAlgaeTotal := 0;
     teleopAlgaeNet := 0; teleopAlgaeProcessor := 0; teleopAlgaeTotal := 0;
     totalAlgaeNet := 0; totalAlgaeProcessor := 0; totalAlgae := 0;
     deepClimbs := 0; shallowClimbs := 0; parks := 0; noEndgame := 0;
     climbFailures := 0;
     teamsPassedStartLine := 0;
     breakdowns := 0; defensePlayedCount := 0 |}.

Definition calculateAllianceStats (entries : list ScoutingEntry) : AllianceStats :=
  match entries with
  | [] => createEmptyAllianceStats
  | _ =>
    {| autoCoralL1 := reduceSum autoCoralPlaceL1Count entries;
       autoCoralL2 := reduceSum autoCoralPlaceL2Count entries;
       autoCoralL3 := reduceSum autoCoralPlaceL3Count entries;
       autoCoralL4 := reduceSum autoCoralPlaceL4Count entries;
       autoCoralTotal :=
         reduceSum (fun e => autoCoralPlaceL1Count e + autoCoralPlaceL2Count e
                             + autoCoralPlaceL3Count e + autoCoralPlaceL4Count e)
                   entries;
       teleopCoralL1 := reduceSum teleopCoralPlaceL1Count entries;
       teleopCoralL2 := reduceSum teleopCoralPlaceL2Count entries;
       teleopCoralL3 := reduceSum teleopCoralPlaceL3Count entries;
       teleopCoralL4 := reduceSum teleopCoralPlaceL4Count entries;
       teleopCoralTotal :=
         reduceSum (fun e => teleopCoralPlaceL1Count e + teleopCoralPlaceL2Count e
                             + teleopCoralPlaceL3Count e + teleopCoralPlaceL4Count e)
                   entries;
       totalCoralL1 :=
         reduceSum (fun e => autoCoralPlaceL1Count e + teleopCoralPlaceL1Count e) entries;
       totalCoralL2 :=
         reduceSum (fun e => autoCoralPlaceL2Count e + teleopCoralPlaceL2Count e) entries;
       totalCoralL3 :=
         reduceSum (fun e => autoCoralPlaceL3Count e + teleopCoralPlaceL3Count e) entries;
       totalCoralL4 :=
         reduceSum (fun e => autoCoralPlaceL4Count e + teleopCoralPlaceL4Count e) entries;
       totalCoral :=
         reduceSum (fun e => autoCoralPlaceL1Count e + autoCoralPlaceL2Count e
                             + autoCoralPlaceL3Count e + autoCoralPlaceL4Count e
                             + teleopCoralPlaceL1Count e + teleopCoralPlaceL2Count e
                             + teleopCoralPlaceL3Count e + teleopCoralPlaceL4Count e)
                   entries;
       autoAlgaeNet := reduceSum autoAlgaePlaceNetShot entries;
       autoAlgaeProcessor := reduceSum autoAlgaePlaceProcessor entries;
       autoAlgaeTotal :=
         reduceSum (fun e => autoAlgaePlaceNetShot e + autoAlgaePlaceProcessor e) entries;
       teleopAlgaeNet := reduceSum teleopAlgaePlaceNetShot entries;
       teleopAlgaeProcessor := reduceSum teleopAlgaePlaceProcessor entries;
       teleopAlgaeTotal :=
         reduceSum (fun e => teleopAlgaePlaceNetShot e + teleopAlgaePlaceProcessor e)
                   entries;
       totalAlgaeNet :=
         reduceSum (fun e => autoAlgaePlaceNetShot e + teleopAlgaePlaceNetShot e) entries;
       totalAlgaeProcessor :=
         reduceSum (fun e => autoAlgaePlaceProcessor e + teleopAlgaePlaceProcessor e)
                   entries;
       totalAlgae :=
         reduceSum (fun e => autoAlgaePlaceNetShot e + autoAlgaePlaceProcessor e
                             + teleopAlgaePlaceNetShot e + teleopAlgaePlaceProcessor e)
                   entries;
       deepClimbs := filterLength deepClimbAttempted entries;
       shallowClimbs := filterLength shallowClimbAttempted entries;
       parks := filterLength parkAttempted entries;
       noEndgame :=
         filterLength (fun e => negb (deepClimbAttempted e)
                                && negb (shallowClimbAttempted e)
                                && negb (parkAttempted e)) entries;
       climbFailures := filterLength climbFailed entries;
       teamsPassedStartLine := filterLength autoPassedStartLine entries;
       breakdowns := filterLength brokeDown entries;
       defensePlayedCount := filterLength playedDefense entries |}
  end.

End Display.

(** Scouted alliance totals in the shape the comparison works on. *)
Record ScoutedAllianceData : Type := mkScoutedAllianceData {
  sAlliance : AllianceColor;
  sMatchNumber : string;
  sEventName : string;
  sTeams : list string;
  sScoutNames : list string;
  autoCoralL1 : Z; autoCoralL2 : Z; autoCoralL3 : Z; autoCoralL4 : Z;
  autoCoralTotal : Z;
  autoAlgaeNet : Z; autoAlgaeProcessor : Z; autoAlgaeTotal : Z;
  autoMobility : Z;
  teleopCoralL1 : Z; teleopCoralL2 : Z; teleopCoralL3 : Z; teleopCoralL4 : Z;
  teleopCoralTotal : Z;
  teleopAlgaeNet : Z; teleopAlgaeProcessor : Z; teleopAlgaeTotal : Z;
  deepClimbs : Z; shallowClimbs : Z; parks : Z; climbFails : Z;
  sBrokeDown : Z; sPlayedDefense : Z;
  missingTeams : list string;
  scoutedTeamsCount : Z
}.

(** [teams.includes(t)] *)
Definition includes (teams : list string) (t : string) : bool :=
  existsb (String.eqb t) teams.

Definition aggregateScoutedAllianceData (scoutedEntries : list ScoutingEntry)
    (alliance : AllianceColor) (matchNumber eventName : string)
    (expectedTeams : list string) : ScoutedAllianceData :=
  let teams := map selectTeam scoutedEntries in
  let scoutNames := map scoutName scoutedEntries in
  let missingTeams := filter (fun t => negb (includes teams t)) expectedTeams in
  let autoCoralL1 := reduceSum autoCoralPlaceL1Count scoutedEntries in
  let autoCoralL2 := reduceSum autoCoralPlaceL2Count scoutedEntries in
  let autoCoralL3 := reduceSum autoCoralPlaceL3Count scoutedEntries in
  let autoCoralL4 := reduceSum autoCoralPlaceL4Count scoutedEntries in
  let autoAlgaeNet := reduceSum autoAlgaePlaceNetShot scoutedEntries in
  let autoAlgaeProcessor := reduceSum autoAlgaePlaceProcessor scoutedEntries in
  let teleopCoralL1 := reduceSum teleopCoralPlaceL1Count scoutedEntries in
  let teleopCoralL2 := reduceSum teleopCoralPlaceL2Count scoutedEntries in
  let teleopCoralL3 := reduceSum teleopCoralPlaceL3Count scoutedEntries in
  let teleopCoralL4 := reduceSum teleopCoralPlaceL4Count scoutedEntries in
  let teleopAlgaeNet := reduceSum teleopAlgaePlaceNetShot scoutedEntries in
  let teleopAlgaeProcessor := reduceSum teleopAlgaePlaceProcessor scoutedEntries in
  {| sAlliance := alliance;
     sMatchNumber := matchNumber;
     sEventName := eventName;
     sTeams := teams;
     sScoutNames := scoutNames;
     autoCoralL1 := autoCoralL1;
     autoCoralL2 := autoCoralL2;
     autoCoralL3 := autoCoralL3;
     autoCoralL4 := autoCoralL4;
     (* the totals are assigned after the literal is built *)
     autoCoralTotal := autoCoralL1 + autoCoralL2 + autoCoralL3 + autoCoralL4;
     autoAlgaeNet := autoAlgaeNet;
     autoAlgaeProcessor := autoAlgaeProcessor;
     autoAlgaeTotal := autoAlgaeNet + autoAlgaeProcessor;
     autoMobility := reduceSum (fun e => oneIf (autoPassedStartLine e)) scoutedEntries;
     teleopCoralL1 := teleopCoralL1;
     teleopCoralL2 := teleopCoralL2;
     teleopCoralL3 := teleopCoralL3;
     teleopCoralL4 := teleopCoralL4;
     teleopCoralTotal := teleopCoralL1 + teleopCoralL2 + teleopCoralL3 + teleopCoralL4;
     teleopAlgaeNet := teleopAlgaeNet;
     teleopAlgaeProcessor := teleopAlgaeProcessor;
     teleopAlgaeTotal := teleopAlgaeNet + teleopAlgaeProcessor;
     deepClimbs :=
       reduceSum (fun e => oneIf (deepClimbAttempted e && negb (climbFailed e)))
                 scoutedEntries;
     shallowClimbs :=
       reduceSum (fun e => oneIf (shallowClimbAttempted e && negb (climbFailed e)))
                 scoutedEntries;
     parks := reduceSum (fun e => oneIf (parkAttempted e)) scoutedEntries;
     climbFails := reduceSum (fun e => oneIf (climbFailed e)) scoutedEntries;
     sBrokeDown := reduceSum (fun e => oneIf (brokeDown e)) scoutedEntries;
     sPlayedDefense := reduceSum (fun e => oneIf (playedDefense e)) scoutedEntries;
     missingTeams := missingTeams;
     scoutedTeamsCount := Z.of_nat (List.length scoutedEntries) |}.

(* ================================================================== *)
(** ** Official (TBA) data                                              *)
(* ================================================================== *)

Module TBA.

(** Coral rows of one reef snapshot. *)
Record Reef : Type := mkReef {
  trough : Z;
  tba_botRowCount : Z;
  tba_midRowCount : Z;
  tba_topRowCount : Z
}.

(** One alliance's entry of [score_breakdown]. *)
Record Breakdown : Type := mkBreakdown {
  autoLineRobot1 : string; autoLineRobot2 : string; autoLineRobot3 : string;
  endGameRobot1 : string; endGameRobot2 : string; endGameRobot3 : string;
  bAutoPoints : Z; bTeleopPoints : Z; bFoulPoints : Z;
  autoReef : Reef;
  teleopReef : Reef;
  autoCoralCount : Z; bAutoCoralPoints : Z;
  teleopCoralCount : Z; bTeleopCoralPoints : Z;
  netAlgaeCount : Z; wallAlgaeCount : Z; bAlgaePoints : Z;
  autoMobilityPoints : Z;
  endGameBargePoints : Z;
  bAutoBonusAchieved : bool; bCoralBonusAchieved : bool; bBargeBonusAchieved : bool;
  bFoulCount : Z; bTechFoulCount : Z
}.

Record MatchAlliance : Type := mkMatchAlliance {
  team_keys : list string;
  score : Z
}.

Record TBAMatchData : Type := mkTBAMatchData {
  key : string;
  comp_level : string;
  alliances : AllianceColor -> MatchAlliance;
  score_breakdown : option (AllianceColor -> option Breakdown)
}.

Record TBAAllianceData : Type := mkTBAAllianceData {
  alliance : AllianceColor;
  teams : list string;
  totalPoints : Z; autoPoints : Z; teleopPoints : Z; foulPoints : Z;
  autoCoralL1 : Z; autoCoralL2 : Z; autoCoralL3 : Z; autoCoralL4 : Z;
  autoCoralTotal : Z; autoCoralPoints : Z;
  teleopCoralL1 : Z; teleopCoralL2 : Z; teleopCoralL3 : Z; teleopCoralL4 : Z;
  teleopCoralTotal : Z; teleopCoralPoints : Z;
  algaeNet : Z; algaeProcessor : Z; algaeTotal : Z; algaePoints : Z;
  mobilityCount : Z; mobilityPoints : Z;
  deepClimbs : Z; shallowClimbs : Z; parks : Z; endgamePoints : Z;
  autoBonusAchieved : bool; coralBonusAchieved : bool; bargeBonusAchieved : bool;
  foulCount : Z; techFoulCount : Z
}.

End TBA.

Section Extraction.

(** [extractTeamNumber] of [tbaUtils] turns a team key into a team number;
    the extraction only maps it over the roster. *)
Variable extractTeamNumber : string -> string.

Definition extractTBAAllianceData (tbaMatch : TBA.TBAMatchData)
                                  (alliance : AllianceColor) : TBA.TBAAllianceData :=
  let allianceData := TBA.alliances tbaMatch alliance in
  let breakdown :=
    match TBA.score_breakdown tbaMatch with
    | Some sb => sb alliance
    | None => None
    end in
  match breakdown with
  | None =>
      (* No score breakdown available - minimal data *)
      {| TBA.alliance := alliance;
         TBA.teams := map extractTeamNumber (TBA.team_keys allianceData);
         TBA.totalPoints := TBA.score allianceData;
         TBA.autoPoints := 0; TBA.teleopPoints := 0; TBA.foulPoints := 0;
         TBA.autoCoralL1 := 0; TBA.autoCoralL2 := 0; TBA.autoCoralL3 := 0;
         TBA.autoCoralL4 := 0; TBA.autoCoralTotal := 0; TBA.autoCoralPoints := 0;
         TBA.teleopCoralL1 := 0; TBA.teleopCoralL2 := 0; TBA.teleopCoralL3 := 0;
         TBA.teleopCoralL4 := 0; TBA.teleopCoralTotal := 0;
         TBA.teleopCoralPoints := 0;
         TBA.algaeNet := 0; TBA.algaeProcessor := 0; TBA.algaeTotal := 0;
         TBA.algaePoints := 0;
         TBA.mobilityCount := 0; TBA.mobilityPoints := 0;
         TBA.deepClimbs := 0; TBA.shallowClimbs := 0; TBA.parks := 0;
         TBA.endgamePoints := 0;
         TBA.autoBonusAchieved := false; TBA.coralBonusAchieved := false;
         TBA.bargeBonusAchieved := false;
         TBA.foulCount := 0; TBA.techFoulCount := 0 |}
  | Some breakdown =>
      let mobilityCount :=
        fold_left (fun sum val => sum + val)
          [ oneIf (String.eqb (TBA.autoLineRobot1 breakdown) "Yes");
            oneIf (String.eqb (TBA.autoLineRobot2 breakdown) "Yes");
            oneIf (String.eqb (TBA.autoLineRobot3 breakdown) "Yes") ] 0 in
      let endgameStates :=
        [ TBA.endGameRobot1 breakdown; TBA.endGameRobot2 breakdown;
          TBA.endGameRobot3 breakdown ] in
      let deepClimbs :=
        Z.of_nat (List.length (filter (fun s => String.eqb s "DeepCage") endgameStates)) in
      let shallowClimbs :=
        Z.of_nat (List.length (filter (fun s => String.eqb s "ShallowCage") endgameStates)) in
      let parks :=
        Z.of_nat (List.length (filter (fun s => String.eqb s "Parked") endgameStates)) in
      {| TBA.alliance := alliance;
         TBA.teams := map extractTeamNumber (TBA.team_keys allianceData);
         TBA.totalPoints := TBA.score allianceData;
         TBA.autoPoints := TBA.bAutoPoints breakdown;
         TBA.teleopPoints := TBA.bTeleopPoints breakdown;
         TBA.foulPoints := TBA.bFoulPoints breakdown;
         TBA.autoCoralL1 := TBA.trough (TBA.autoReef breakdown);
         TBA.autoCoralL2 := TBA.tba_botRowCount (TBA.autoReef breakdown);
         TBA.autoCoralL3 := TBA.tba_midRowCount (TBA.autoReef breakdown);
         TBA.autoCoralL4 := TBA.tba_topRowCount (TBA.autoReef breakdown);
         TBA.autoCoralTotal := TBA.autoCoralCount breakdown;
         TBA.autoCoralPoints := TBA.bAutoCoralPoints breakdown;
         TBA.teleopCoralL1 := TBA.trough (TBA.teleopReef breakdown);
         TBA.teleopCoralL2 := TBA.tba_botRowCount (TBA.teleopReef breakdown);
         TBA.teleopCoralL3 := TBA.tba_midRowCount (TBA.teleopReef breakdown);
         TBA.teleopCoralL4 := TBA.tba_topRowCount (TBA.teleopReef breakdown);
         TBA.teleopCoralTotal := TBA.teleopCoralCount breakdown;
         TBA.teleopCoralPoints := TBA.bTeleopCoralPoints breakdown;
         (* TBA combines auto + teleop algae *)
         TBA.algaeNet := TBA.netAlgaeCount breakdown;
         TBA.algaeProcessor := TBA.wallAlgaeCount breakdown;
         TBA.algaeTotal := TBA.netAlgaeCount breakdown + TBA.wallAlgaeCount breakdown;
         TBA.algaePoints := TBA.bAlgaePoints breakdown;
         TBA.mobilityCount := mobilityCount;
         TBA.mobilityPoints := TBA.autoMobilityPoints breakdown;
         TBA.deepClimbs := deepClimbs;
         TBA.shallowClimbs := shallowClimbs;
         TBA.parks := parks;
         TBA.endgamePoints := TBA.endGameBargePoints breakdown;
         TBA.autoBonusAchieved := TBA.bAutoBonusAchieved breakdown;
         TBA.coralBonusAchieved := TBA.bCoralBonusAchieved breakdown;
         TBA.bargeBonusAchieved := TBA.bBargeBonusAchieved breakdown;
         TBA.foulCount := TBA.bFoulCount breakdown;
         TBA.techFoulCount := TBA.bTechFoulCount breakdown |}
  end.

End Extraction.

(* ================================================================== *)
(** ** 2025 game constants                                              *)
(* ================================================================== *)

Module GameConstants2025.

Record CoralPoints : Type := mkCoralPoints { L1 : Z; L2 : Z; L3 : Z; L4 : Z }.
Record AlgaePoints : Type := mkAlgaePoints { NET : Z; PROCESSOR : Z }.
Record EndgamePoints : Type :=
  mkEndgamePoints { PARK : Z; SHALLOW_CLIMB : Z; DEEP_CLIMB : Z }.

Definition AUTO_CORAL_POINTS : CoralPoints := {| L1 := 3; L2 := 4; L3 := 6; L4 := 7 |}.
Definition AUTO_ALGAE_POINTS : AlgaePoints := {| NET := 4; PROCESSOR := 6 |}.
Definition AUTO_MOBILITY_POINTS : Z := 3.
Definition TELEOP_CORAL_POINTS : CoralPoints := {| L1 := 2; L2 := 3; L3 := 4; L4 := 5 |}.
Definition TELEOP_ALGAE_POINTS : AlgaePoints := {| NET := 4; PROCESSOR := 6 |}.
Definition ENDGAME_POINTS : EndgamePoints :=
  {| PARK := 2; SHALLOW_CLIMB := 6; DEEP_CLIMB := 12 |}.

Definition calculateAutoCoralPoints (l1 l2 l3 l4 : Z) : Z :=
  l1 * L1 AUTO_CORAL_POINTS + l2 * L2 AUTO_CORAL_POINTS
  + l3 * L3 AUTO_CORAL_POINTS + l4 * L4 AUTO_CORAL_POINTS.

Definition calculateTeleopCoralPoints (l1 l2 l3 l4 : Z) : Z :=
  l1 * L1 TELEOP_CORAL_POINTS + l2 * L2 TELEOP_CORAL_POINTS
  + l3 * L3 TELEOP_CORAL_POINTS + l4 * L4 TELEOP_CORAL_POINTS.

Definition calculateAlgaePoints (net processor : Z) (isAuto : bool) : Z :=
  net * (if isAuto then NET AUTO_ALGAE_POINTS else NET TELEOP_ALGAE_POINTS)
  + processor * (if isAuto then PROCESSOR AUTO_ALGAE_POINTS
                 else PROCESSOR TELEOP_ALGAE_POINTS).

Definition calculateEndgamePoints (parks shallowClimbs deepClimbs : Z) : Z :=
  parks * PARK ENDGAME_POINTS
  + shallowClimbs * SHALLOW_CLIMB ENDGAME_POINTS
  + deepClimbs * DEEP_CLIMB ENDGAME_POINTS.

(** The argument object of [calculateMatchPoints]. *)
Record MatchPointsParams : Type := mkMatchPointsParams {
  autoCoralL1 : Z; autoCoralL2 : Z; autoCoralL3 : Z; autoCoralL4 : Z;
  autoAlgaeNet : Z; autoAlgaeProcessor : Z;
  autoMobility : Z;
  teleopCoralL1 : Z; teleopCoralL2 : Z; teleopCoralL3 : Z; teleopCoralL4 : Z;
  teleopAlgaeNet : Z; teleopAlgaeProcessor : Z;
  parks : Z; shallowClimbs : Z; deepClimbs : Z
}.

Definition calculateMatchPoints (params : MatchPointsParams) : Z :=
  let autoCoralPoints :=
    calculateAutoCoralPoints (autoCoralL1 params) (autoCoralL2 params)
                             (autoCoralL3 params) (autoCoralL4 params) in
  let teleopCoralPoints :=
    calculateTeleopCoralPoints (teleopCoralL1 params) (teleopCoralL2 params)
                               (teleopCoralL3 params) (teleopCoralL4 params) in
  let autoAlgaePoints :=
    calculateAlgaePoints (autoAlgaeNet params) (autoAlgaeProcessor params) true in
  let teleopAlgaePoints :=
    calculateAlgaePoints (teleopAlgaeNet params) (teleopAlgaeProcessor params) false in
  let mobilityPoints := autoMobility params * AUTO_MOBILITY_POINTS in
  let endgamePoints :=
    calculateEndgamePoints (parks params) (shallowClimbs params) (deepClimbs params) in
  autoCoralPoints + teleopCoralPoints + autoAlgaePoints + teleopAlgaePoints
  + mobilityPoints + endgamePoints.

End GameConstants2025.

(* ================================================================== *)
(** ** Alliance comparison                                              *)
(* ================================================================== *)

Record ScoutedPointBreakdown : Type := mkScoutedPointBreakdown {
  autoCoralPts : Z; autoAlgaePts : Z; mobilityPts : Z;
  teleopCoralPts : Z; teleopAlgaePts : Z; endgamePts : Z
}.

Record TBAPointBreakdown : Type := mkTBAPointBreakdown {
  tAutoCoralPts : Z; tTeleopCoralPts : Z; tAlgaePts : Z;
  tMobilityPts : Z; tEndgamePts : Z
}.

Record AllianceValidation : Type := mkAllianceValidation {
  vAlliance : AllianceColor;
  status : ValidationStatus;
  confidence : ConfidenceLevel;
  discrepancies : list Discrepancy;
  totalScoutedPoints : Z;
  totalTBAPoints : Z;
  scoreDifference : Z;
  scorePercentDiff : Q;
  scoutedData : ScoutedAllianceData;
  tbaData : TBA.TBAAllianceData;
  calcScouted : ScoutedPointBreakdown;
  calcTba : TBAPointBreakdown
}.

(** [if (d) discrepancies.push(d)] *)
Definition push (discrepancies : list Discrepancy) (d : option Discrepancy)
  : list Discrepancy :=
  match d with
  | Some x => discrepancies ++ [x]
  | None => discrepancies
  end.

(** [discrepancies.filter(d => d.severity === sev).length] *)
Definition countSeverity (sev : DiscrepancySeverity) (ds : list Discrepancy) : Z :=
  Z.of_nat (List.length (filter (fun d => severity_eqb (severity d) sev) ds)).

(** TBA's teleop coral rows are final counts (they include auto); the
    comparison works on [tba_final - tba_auto], never below zero. *)
Definition tbaActualTeleopL1 (tbaData : TBA.TBAAllianceData) : Z :=
  Z.max 0 (TBA.teleopCoralL1 tbaData - TBA.autoCoralL1 tbaData).
Definition tbaActualTeleopL2 (tbaData : TBA.TBAAllianceData) : Z :=
  Z.max 0 (TBA.teleopCoralL2 tbaData - TBA.autoCoralL2 tbaData).
Definition tbaActualTeleopL3 (tbaData : TBA.TBAAllianceData) : Z :=
  Z.max 0 (TBA.teleopCoralL3 tbaData - TBA.autoCoralL3 tbaData).
Definition tbaActualTeleopL4 (tbaData : TBA.TBAAllianceData) : Z :=
  Z.max 0 (TBA.teleopCoralL4 tbaData - TBA.autoCoralL4 tbaData).
Definition tbaActualTeleopTotal (tbaData : TBA.TBAAllianceData) : Z :=
  tbaActualTeleopL1 tbaData + tbaActualTeleopL2 tbaData
  + tbaActualTeleopL3 tbaData + tbaActualTeleopL4 tbaData.

(** Scouted score from the official 2025 point values, written out in the
    comparison itself. *)
Definition scoutedAutoCoralPoints (scoutedData : ScoutedAllianceData) : Z :=
  autoCoralL1 scoutedData * 3 + autoCoralL2 scoutedData * 4
  + autoCoralL3 scoutedData * 6 + autoCoralL4 scoutedData * 7.

Definition scoutedAutoAlgaePoints (scoutedData : ScoutedAllianceData) : Z :=
  autoAlgaeNet scoutedData * 4 + autoAlgaeProcessor scoutedData * 6.

Definition scoutedMobilityPoints (scoutedData : ScoutedAllianceData) : Z :=
  autoMobility scoutedData * 3.

Definition scoutedTeleopCoralPoints (scoutedData : ScoutedAllianceData) : Z :=
  teleopCoralL1 scoutedData * 2 + teleopCoralL2 scoutedData * 3
  + teleopCoralL3 scoutedData * 4 + teleopCoralL4 scoutedData * 5.

Definition scoutedTeleopAlgaePoints (scoutedData : ScoutedAllianceData) : Z :=
  teleopAlgaeNet scoutedData * 4 + teleopAlgaeProcessor scoutedData * 6.

Definition scoutedEndgamePoints (scoutedData : ScoutedAllianceData) : Z :=
  parks scoutedData * 2 + shallowClimbs scoutedData * 6
  + deepClimbs scoutedData * 12.

Definition estimatedScoutedScore (scoutedData : ScoutedAllianceData) : Z :=
  scoutedAutoCoralPoints scoutedData
  + scoutedAutoAlgaePoints scoutedData
  + scoutedMobilityPoints scoutedData
  + scoutedTeleopCoralPoints scoutedData
  + scoutedTeleopAlgaePoints scoutedData
  + scoutedEndgamePoints scoutedData.

(** The counts of a scouted aggregate as the argument of
    [calculateMatchPoints]. *)
Definition matchPointsParams (s : ScoutedAllianceData)
  : GameConstants2025.MatchPointsParams :=
  {| GameConstants2025.autoCoralL1 := autoCoralL1 s;
     GameConstants2025.autoCoralL2 := autoCoralL2 s;
     GameConstants2025.autoCoralL3 := autoCoralL3 s;
     GameConstants2025.autoCoralL4 := autoCoralL4 s;
     GameConstants2025.autoAlgaeNet := autoAlgaeNet s;
     GameConstants2025.autoAlgaeProcessor := autoAlgaeProcessor s;
     GameConstants2025.autoMobility := autoMobility s;
     GameConstants2025.teleopCoralL1 := teleopCoralL1 s;
     GameConstants2025.teleopCoralL2 := teleopCoralL2 s;
     GameConstants2025.teleopCoralL3 := teleopCoralL3 s;
     GameConstants2025.teleopCoralL4 := teleopCoralL4 s;
     GameConstants2025.teleopAlgaeNet := teleopAlgaeNet s;
     GameConstants2025.teleopAlgaeProcessor := teleopAlgaeProcessor s;
     GameConstants2025.parks := parks s;
     GameConstants2025.shallowClimbs := shallowClimbs s;
     GameConstants2025.deepClimbs := deepClimbs s |}.

Definition compareAllianceData (scoutedData : ScoutedAllianceData)
                               (tbaData : TBA.TBAAllianceData)
                               (config : ValidationConfig) : AllianceValidation :=
  let discrepancies : list Discrepancy := [] in
  (* Auto Coral Comparison *)
  let discrepancies :=
    if checkAutoScoring config then
      let d1 := createDiscrepancy auto_coral "Auto Coral L1"
                  (autoCoralL1 scoutedData) (TBA.autoCoralL1 tbaData) config in
      let d2 := createDiscrepancy auto_coral "Auto Coral L2"
                  (autoCoralL2 scoutedData) (TBA.autoCoralL2 tbaData) config in
      let d3 := createDiscrepancy auto_coral "Auto Coral L3"
                  (autoCoralL3 scoutedData) (TBA.autoCoralL3 tbaData) config in
      let d4 := createDiscrepancy auto_coral "Auto Coral L4"
                  (autoCoralL4 scoutedData) (TBA.autoCoralL4 tbaData) config in
      let dTotal := createDiscrepancy auto_coral "Auto Coral Total"
                  (autoCoralTotal scoutedData) (TBA.autoCoralTotal tbaData) config in
      push (push (push (push (push discrepancies d1) d2) d3) d4) dTotal
    else discrepancies in
  (* Teleop Coral Comparison: scouted_teleop vs (tba_final - tba_auto) *)
  let discrepancies :=
    if checkTeleopScoring config then
      let d1 := createDiscrepancy teleop_coral "Teleop Coral L1"
                  (teleopCoralL1 scoutedData) (tbaActualTeleopL1 tbaData) config in
      let d2 := createDiscrepancy teleop_coral "Teleop Coral L2"
                  (teleopCoralL2 scoutedData) (tbaActualTeleopL2 tbaData) config in
      let d3 := createDiscrepancy teleop_coral "Teleop Coral L3"
                  (teleopCoralL3 scoutedData) (tbaActualTeleopL3 tbaData) config in
      let d4 := createDiscrepancy teleop_coral "Teleop Coral L4"
                  (teleopCoralL4 scoutedData) (tbaActualTeleopL4 tbaData) config in
      let dTotal := createDiscrepancy teleop_coral "Teleop Coral Total"
                  (teleopCoralTotal scoutedData) (tbaActualTeleopTotal tbaData) config in
      push (push (push (push (push discrepancies d1) d2) d3) d4) dTotal
    else discrepancies in
  (* Algae Comparison (combined auto + teleop) *)
  let scoutedAlgaeNet := autoAlgaeNet scoutedData + teleopAlgaeNet scoutedData in
  let scoutedAlgaeProc :=
    autoAlgaeProcessor scoutedData + teleopAlgaeProcessor scoutedData in
  let scoutedAlgaeTotal := scoutedAlgaeNet + scoutedAlgaeProc in
  let dAlgaeNet := createDiscrepancy algae "Total Algae Net"
                     scoutedAlgaeNet (TBA.algaeNet tbaData) config in
  let dAlgaeProc := createDiscrepancy algae "Total Algae Processor"
                     scoutedAlgaeProc (TBA.algaeProcessor tbaData) config in
  let dAlgaeTotal := createDiscrepancy algae "Total Algae"
                     scoutedAlgaeTotal (TBA.algaeTotal tbaData) config in
  let discrepancies := push (push (push discrepancies dAlgaeNet) dAlgaeProc) dAlgaeTotal in
  (* Mobility Comparison *)
  let dMobility := createDiscrepancy mobility "Mobility Count"
                     (autoMobility scoutedData) (TBA.mobilityCount tbaData) config in
  let discrepancies := push discrepancies dMobility in
  (* Endgame Comparison *)
  let discrepancies :=
    if checkEndgame config then
      let dDeep := createDiscrepancy endgame "Deep Climbs"
                     (deepClimbs scoutedData) (TBA.deepClimbs tbaData) config in
      let dShallow := createDiscrepancy endgame "Shallow Climbs"
                     (shallowClimbs scoutedData) (TBA.shallowClimbs tbaData) config in
      let dPark := createDiscrepancy endgame "Parks"
                     (parks scoutedData) (TBA.parks tbaData) config in
      push (push (push discrepancies dDeep) dShallow) dPark
    else discrepancies in
  (* TBA's base score (breakdown points, excluding bonuses/fouls) *)
  let tbaBreakdownScore :=
    TBA.autoCoralPoints tbaData + TBA.teleopCoralPoints tbaData
    + TBA.algaePoints tbaData + TBA.mobilityPoints tbaData
    + TBA.endgamePoints tbaData in
  let scoreDifference := Z.abs (estimatedScoutedScore scoutedData - tbaBreakdownScore) in
  let scorePercentDiff :=
    if tbaBreakdownScore =? 0 then 0%Q
    else (inject_Z scoreDifference / inject_Z tbaBreakdownScore * 100)%Q in
  (* Determine overall status *)
  let criticalCount := countSeverity critical discrepancies in
  let warningCount := countSeverity warning discrepancies in
  let minorCount := countSeverity minor discrepancies in
  let status :=
    if criticalCount >=? autoFlagThreshold config then failed
    else if criticalCount >? 0 then flagged
    else if warningCount >? 2 then flagged
    else if (warningCount >? 0) || (minorCount >? 3) then flagged
    else passed in
  (* Determine confidence *)
  let confidence :=
    if Z.of_nat (List.length (missingTeams scoutedData)) >? 0 then low
    else if criticalCount >? 0 then low
    else if warningCount >? 2 then medium
    else high in
  {| vAlliance := sAlliance scoutedData;
     status := status;
     confidence := confidence;
     discrepancies := discrepancies;
     totalScoutedPoints := estimatedScoutedScore scoutedData;
     totalTBAPoints := tbaBreakdownScore;
     scoreDifference := scoreDifference;
     scorePercentDiff := round1 scorePercentDiff;
     scoutedData := scoutedData;
     tbaData := tbaData;
     calcScouted :=
       {| autoCoralPts := scoutedAutoCoralPoints scoutedData;
          autoAlgaePts := scoutedAutoAlgaePoints scoutedData;
          mobilityPts := scoutedMobilityPoints scoutedData;
          teleopCoralPts := scoutedTeleopCoralPoints scoutedData;
          teleopAlgaePts := scoutedTeleopAlgaePoints scoutedData;
          endgamePts := scoutedEndgamePoints scoutedData |};
     calcTba :=
       {| tAutoCoralPts := TBA.autoCoralPoints tbaData;
          tTeleopCoralPts := TBA.teleopCoralPoints tbaData;
          tAlgaePts := TBA.algaePoints tbaData;
          tMobilityPts := TBA.mobilityPoints tbaData;
          tEndgamePts := TBA.endgamePoints tbaData |} |}.

(* ================================================================== *)
(** ** Stored records and the match verdict                             *)
(* ================================================================== *)

(** A row of the [scoutingData] table ([dexieDB]), with the fields the
    validation and merge code read. *)
Record ScoutingEntryDB : Type := mkScoutingEntryDB {
  dbId : string;
  dbTeamNumber : string;
  dbMatchNumber : string;
  dbAlliance : option string;
  dbEventName : string;
  isCorrected : option bool;
  correctionCount : option Z;
  lastCorrectedAt : option Z;
  lastCorrectedBy : option string;
  correctionNotes : option string;
  originalScoutName : option string
}.

Record PeriodBreakdown : Type := mkPeriodBreakdown {
  pL1 : Z; pL2 : Z; pL3 : Z; pL4 : Z; pAlgaeNet : Z; pAlgaeProcessor : Z
}.

Record ScoringBreakdown : Type := mkScoringBreakdown {
  sbAuto : PeriodBreakdown;
  sbAutoMobility : bool;
  sbTeleop : PeriodBreakdown;
  sbDeep : bool; sbShallow : bool; sbPark : bool
}.

Record TeamValidation : Type := mkTeamValidation {
  tvTeamNumber : string;
  tvAlliance : AllianceColor;
  tvScoutName : string;
  hasScoutedData : bool;
  tvDiscrepancies : list Discrepancy;
  tvConfidence : ConfidenceLevel;
  flagForReview : bool;
  notes : list string;
  tvIsCorrected : option bool;
  tvCorrectionCount : option Z;
  tvLastCorrectedAt : option Z;
  tvLastCorrectedBy : option string;
  tvCorrectionNotes : option string;
  tvOriginalScoutName : option string;
  scoringBreakdown : option ScoringBreakdown
}.

(** The verdict for one match; [validatedAt] (the wall clock) is left out. *)
Record MatchValidationResult : Type := mkMatchValidationResult {
  mId : string;
  mEventKey : string;
  mMatchKey : string;
  mMatchNumber : string;
  mCompLevel : string;
  mStatus : ValidationStatus;
  mConfidence : ConfidenceLevel;
  redAlliance : AllianceValidation;
  blueAlliance : AllianceValidation;
  mTeams : list TeamValidation;
  totalDiscrepancies : Z;
  criticalDiscrepancies : Z;
  warningDiscrepancies : Z;
  flaggedForReview : bool;
  requiresReScout : bool
}.

Definition status_eqb (a b : ValidationStatus) : bool :=
  match a, b with
  | passed, passed | flagged, flagged | failed, failed => true
  | _, _ => false
  end.

Definition confidence_eqb (a b : ConfidenceLevel) : bool :=
  match a, b with
  | high, high | medium, medium | low, low => true
  | _, _ => false
  end.

(** [s || fallback] on strings. *)
Definition orString (s fallback : string) : string :=
  if String.eqb s "" then fallback else s.

(** One entry of the flattened per-team list. *)
Definition teamValidation (color : AllianceColor)
    (scoutedEntries : list ScoutingEntry)
    (scoutedRaw : option (list ScoutingEntryDB))
    (validation : AllianceValidation) (teamNum : string) : TeamValidation :=
  let hasData := existsb (fun e => String.eqb (selectTeam e) teamNum) scoutedEntries in
  let scoutEntry := find (fun e => String.eqb (selectTeam e) teamNum) scoutedEntries in
  let rawEntry :=
    match scoutedRaw with
    | Some raw => find (fun e => String.eqb (dbTeamNumber e) teamNum) raw
    | None => None
    end in
  let meta {A} (f : ScoutingEntryDB -> option A) : option A :=
    match rawEntry with Some r => f r | None => None end in
  {| tvTeamNumber := teamNum;
     tvAlliance := color;
     tvScoutName :=
       match scoutEntry with
       | Some e => orString (scoutName e) "Unknown"
       | None => "Unknown"%string
       end;
     hasScoutedData := hasData;
     tvDiscrepancies := [];
     tvConfidence := if hasData then confidence validation else low;
     flagForReview := negb hasData || status_eqb (status validation) flagged;
     notes := if hasData then [] else ["No scouted data for this team"%string];
     tvIsCorrected := meta isCorrected;
     tvCorrectionCount := meta correctionCount;
     tvLastCorrectedAt := meta lastCorrectedAt;
     tvLastCorrectedBy := meta lastCorrectedBy;
     tvCorrectionNotes := meta correctionNotes;
     tvOriginalScoutName := meta originalScoutName;
     scoringBreakdown :=
       match scoutEntry with
       | Some e =>
           Some {| sbAuto :=
                     {| pL1 := autoCoralPlaceL1Count e;
                        pL2 := autoCoralPlaceL2Count e;
                        pL3 := autoCoralPlaceL3Count e;
                        pL4 := autoCoralPlaceL4Count e;
                        pAlgaeNet := autoAlgaePlaceNetShot e;
                        pAlgaeProcessor := autoAlgaePlaceProcessor e |};
                   sbAutoMobility := autoPassedStartLine e;
                   sbTeleop :=
                     {| pL1 := teleopCoralPlaceL1Count e;
                        pL2 := teleopCoralPlaceL2Count e;
                        pL3 := teleopCoralPlaceL3Count e;
                        pL4 := teleopCoralPlaceL4Count e;
                        pAlgaeNet := teleopAlgaePlaceNetShot e;
                        pAlgaeProcessor := teleopAlgaePlaceProcessor e |};
                   sbDeep := deepClimbAttempted e;
                   sbShallow := shallowClimbAttempted e;
                   sbPark := parkAttempted e |}
       | None => None
       end |}.

Section MatchValidator.

Variable extractTeamNumber : string -> string.

Definition validateMatch (eventKey matchNumber : string)
    (scoutedRedEntries scoutedBlueEntries : list ScoutingEntry)
    (tbaMatch : TBA.TBAMatchData) (config : ValidationConfig)
    (scoutedRedRaw scoutedBlueRaw : option (list ScoutingEntryDB))
  : MatchValidationResult :=
  (* Extract TBA data *)
  let tbaRed := extractTBAAllianceData extractTeamNumber tbaMatch red in
  let tbaBlue := extractTBAAllianceData extractTeamNumber tbaMatch blue in
  (* Aggregate scouted data *)
  let scoutedRed :=
    aggregateScoutedAllianceData scoutedRedEntries red matchNumber eventKey
                                 (TBA.teams tbaRed) in
  let scoutedBlue :=
    aggregateScoutedAllianceData scoutedBlueEntries blue matchNumber eventKey
                                 (TBA.teams tbaBlue) in
  (* Compare alliances *)
  let redValidation := compareAllianceData scoutedRed tbaRed config in
  let blueValidation := compareAllianceData scoutedBlue tbaBlue config in
  (* Aggregate discrepancies *)
  let allDiscrepancies := discrepancies redValidation ++ discrepancies blueValidation in
  let criticalCount := countSeverity critical allDiscrepancies in
  let warningCount := countSeverity warning allDiscrepancies in
  let minorCount := countSeverity minor allDiscrepancies in
  (* Determine overall status *)
  let status :=
    if criticalCount >=? requireReScoutThreshold config then failed
    else if criticalCount >=? autoFlagThreshold config then flagged
    else if warningCount >? 2 then flagged
    else if (warningCount >? 0) || (minorCount >? 6) then flagged
    else passed in
  (* Determine overall confidence *)
  let confidence :=
    if confidence_eqb (confidence redValidation) low
       || confidence_eqb (confidence blueValidation) low then low
    else if confidence_eqb (confidence redValidation) medium
            || confidence_eqb (confidence blueValidation) medium then medium
    else high in
  (* Build team validations: red teams, then blue teams *)
  let teams :=
    map (teamValidation red scoutedRedEntries scoutedRedRaw redValidation)
        (TBA.teams tbaRed)
    ++ map (teamValidation blue scoutedBlueEntries scoutedBlueRaw blueValidation)
           (TBA.teams tbaBlue) in
  {| mId := (eventKey ++ "_" ++ TBA.key tbaMatch)%string;
     mEventKey := eventKey;
     mMatchKey := TBA.key tbaMatch;
     mMatchNumber := matchNumber;
     mCompLevel := TBA.comp_level tbaMatch;
     mStatus := status;
     mConfidence := confidence;
     redAlliance := redValidation;
     blueAlliance := blueValidation;
     mTeams := teams;
     totalDiscrepancies := Z.of_nat (List.length allDiscrepancies);
     criticalDiscrepancies := criticalCount;
     warningDiscrepancies := warningCount;
     flaggedForReview := status_eqb status flagged || status_eqb status failed;
     requiresReScout := status_eqb status failed |}.

End MatchValidator.

(* ================================================================== *)
(** ** Smart merge: record lookups of the upload handlers               *)
(* ================================================================== *)

Module Merge.

Local Open Scope string_scope.

(** *** The string operations the lookups use *)

Definition lowerChar (c : ascii) : ascii :=
  let n := nat_of_ascii c in
  if (Nat.leb 65 n && Nat.leb n 90)%bool then ascii_of_nat (n + 32) else c.

(** [s.toLowerCase()] *)
Fixpoint toLowerCase (s : string) : string :=
  match s with
  | EmptyString => EmptyString
  | String c rest => String (lowerChar c) (toLowerCase rest)
  end.

(** [s.replace(pattern, replacement)] with a string pattern: the first
    occurrence only. *)
Fixpoint replace (pattern replacement s : string) {struct s} : string :=
  if String.prefix pattern s then
    replacement
      ++ String.substring (String.length pattern)
                          (String.length s - String.length pattern) s
  else
    match s with
    | EmptyString => EmptyString
    | String c rest => String c (replace pattern replacement rest)
    end.

Definition isWhiteSpace (c : ascii) : bool :=
  let n := nat_of_ascii c in
  (Nat.eqb n 32 || (Nat.leb 9 n && Nat.leb n 13))%bool.

Fixpoint trimStart (s : string) : string :=
  match s with
  | EmptyString => EmptyString
  | String c rest => if isWhiteSpace c then trimStart rest else s
  end.

Fixpoint trimEnd (s : string) : string :=
  match s with
  | EmptyString => EmptyString
  | String c rest =>
      let rest' := trimEnd rest in
      if (isWhiteSpace c && String.eqb rest' "")%bool then "" else String c rest'
  end.

(** [s.trim()] *)
Definition trim (s : string) : string := trimEnd (trimStart s).

(** [.toLowerCase().replace('alliance', '').trim()] *)
Definition normalizeAlliance (s : string) : string :=
  trim (replace "alliance" "" (toLowerCase s)).

(** *** Incoming entries *)

(** The fields of an incoming entry's [data] object that the merge reads.
    A field may be absent; a present value stands for its [String(...)]
    rendering. *)
Record IncomingData : Type := mkIncomingData {
  matchNumber : option string;
  selectTeam : option string;
  teamNumber : option string;
  alliance : option string;
  eventName : option string;
  inIsCorrected : option bool
}.

Record ScoutingDataWithId : Type := mkScoutingDataWithId {
  id : string;
  data : IncomingData
}.

(** [String(x || '')] *)
Definition stringOrEmpty (x : option string) : string :=
  match x with
  | Some s => s
  | None => ""
  end.

(** [String(x || y || '')] *)
Definition stringOrElse (x y : option string) : string :=
  if String.eqb (stringOrEmpty x) "" then stringOrEmpty y else stringOrEmpty x.

Definition Store : Type := list ScoutingEntryDB.

(** *** [findExistingEntry] *)

Definition findExistingEntry (incomingData : IncomingData) (entries : Store)
  : option ScoutingEntryDB :=
  let matchNumber := stringOrEmpty (matchNumber incomingData) in
  let teamNumber := stringOrElse (selectTeam incomingData) (teamNumber incomingData) in
  let eventName := stringOrEmpty (eventName incomingData) in
  if negb (String.eqb eventName "") then
    (* Normal matching: event + match + team *)
    find (fun e => String.eqb (dbMatchNumber e) matchNumber
                   && String.eqb (dbTeamNumber e) teamNumber
                   && String.eqb (dbEventName e) eventName)%bool entries
  else
    (* Fallback matching when eventName is missing: match + team only *)
    find (fun e => String.eqb (dbMatchNumber e) matchNumber
                   && String.eqb (dbTeamNumber e) teamNumber)%bool entries.

(** *** The auto-replace pass of [handleScoutingDataUpload] *)

(** The lookup that precedes the delete in the auto-replace loop. *)
Definition findExistingForReplace (incomingData : IncomingData) (entries : Store)
  : option ScoutingEntryDB :=
  let matchNumber := stringOrEmpty (matchNumber incomingData) in
  let teamNumber := stringOrElse (selectTeam incomingData) (teamNumber incomingData) in
  let alliance := normalizeAlliance (stringOrEmpty (alliance incomingData)) in
  let eventName := stringOrEmpty (eventName incomingData) in
  find (fun e => String.eqb (dbMatchNumber e) matchNumber
                 && String.eqb (dbTeamNumber e) teamNumber
                 && match dbAlliance e with
                    | Some a => String.eqb (normalizeAlliance a) alliance
                    | None => false
                    end
                 && String.eqb (dbEventName e) eventName)%bool entries.

(** [db.scoutingData.delete(id)] *)
Definition delete (key : string) (entries : Store) : Store :=
  filter (fun e => negb (String.eqb (dbId e) key)) entries.

Section Handler.

(** [saveScoutingEntry] of [dexieDB] writes one incoming entry to the table. *)
Variable saveScoutingEntry : ScoutingDataWithId -> Store -> Store.

(** One iteration of the auto-replace loop: delete old, save new. *)
Definition autoReplaceOne (db : Store) (entry : ScoutingDataWithId) : Store :=
  let incomingData := data entry in
  let db :=
    match findExistingForReplace incomingData db with
    | Some existing => delete (dbId existing) db
    | None => db
    end in
  saveScoutingEntry entry db.

(** The auto-import and auto-replace passes of the smart-merge mode;
    returns the table and the [added] / [replaced] counters. *)
Definition applyAutoResolved (autoImport autoReplace : list ScoutingDataWithId)
                             (db : Store) : Store * (Z * Z) :=
  let db := fold_left (fun db entry => saveScoutingEntry entry db) autoImport db in
  let db := fold_left autoReplaceOne autoReplace db in
  (db, (Z.of_nat (List.length autoImport), Z.of_nat (List.length autoReplace))).

End Handler.

(** *** Conflict detection *)

Inductive Classification : Type := AutoImport | AutoReplace | NeedsReview.

Inductive ConflictType : Type := corrected_vs_uncorrected | corrected_vs_corrected.

Record ConflictInfo : Type := mkConflictInfo {
  local : ScoutingEntryDB;
  incoming : ScoutingDataWithId;
  conflictType : ConflictType
}.

(** Modelled from the spec: the outcome of conflict detection, one list per
    classification ([detectConflicts] of [scoutingDataUtils] is not among
    the sources).  The design leaves the further split of the needs-review
    records (identical duplicates, batch review, true conflicts) to the
    caller. *)
Record ConflictResult : Type := mkConflictResult {
  autoImport : list ScoutingDataWithId;
  autoReplace : list ScoutingDataWithId;
  needsReview : list ConflictInfo
}.

(** A record counts as corrected when its [isCorrected] flag is set. *)
Definition localCorrected (e : ScoutingEntryDB) : bool :=
  match isCorrected e with Some b => b | None => false end.

Definition incomingCorrected (entry : ScoutingDataWithId) : bool :=
  match inIsCorrected (data entry) with Some b => b | None => false end.

(** Modelled from the spec: the canonical record at an incoming record's
    key.  [detectConflicts] of [scoutingDataUtils] is not among the
    sources; the design fixes its matching key as (event, match, team),
    with alliance excluded. *)
Definition canonicalAt (entries : Store) (entry : ScoutingDataWithId)
  : option ScoutingEntryDB :=
  let d := data entry in
  find (fun e => String.eqb (dbEventName e) (stringOrEmpty (eventName d))
                 && String.eqb (dbMatchNumber e) (stringOrEmpty (matchNumber d))
                 && String.eqb (dbTeamNumber e)
                               (stringOrElse (selectTeam d) (teamNumber d)))%bool
       entries.

(** Modelled from the spec: the decision matrix of the conflict detector
    ([detectConflicts] of [scoutingDataUtils] is not among the sources).
    No record at the key: auto-import.  Uncorrected existing record:
    auto-replace, whatever the incoming state.  Corrected existing record:
    needs-review, whatever the incoming state. *)
Definition classify (entries : Store) (entry : ScoutingDataWithId) : Classification :=
  match canonicalAt entries entry with
  | None => AutoImport
  | Some existing => if localCorrected existing then NeedsReview else AutoReplace
  end.

(** Modelled from the spec: [detectConflicts] of [scoutingDataUtils], which
    is not among the sources.  Every incoming record is classified against
    one read of the store; a needs-review record is reported as a conflict
    between the canonical and the incoming record, tagged
    corrected-vs-uncorrected or corrected-vs-corrected. *)
Fixpoint detectConflicts (entries : Store) (batch : list ScoutingDataWithId)
  : ConflictResult :=
  match batch with
  | [] => {| autoImport := []; autoReplace := []; needsReview := [] |}
  | entry :: rest =>
      let r := detectConflicts entries rest in
      match canonicalAt entries entry with
      | None =>
          {| autoImport := entry :: autoImport r;
             autoReplace := autoReplace r;
             needsReview := needsReview r |}
      | Some existing =>
          if localCorrected existing then
            {| autoImport := autoImport r;
               autoReplace := autoReplace r;
               needsReview :=
                 {| local := existing;
                    incoming := entry;
                    conflictType :=
                      if incomingCorrected entry then corrected_vs_corrected
                      else corrected_vs_uncorrected |} :: needsReview r |}
          else
            {| autoImport := autoImport r;
               autoReplace := entry :: autoReplace r;
               needsReview := needsReview r |}
      end
  end.

(** *** Rows and entries used in the statements below *)

(** A stored row with another alliance value. *)
Definition withAlliance (a : option string) (e : ScoutingEntryDB) : ScoutingEntryDB :=
  {| dbId := dbId e; dbTeamNumber := dbTeamNumber e;
     dbMatchNumber := dbMatchNumber e; dbAlliance := a;
     dbEventName := dbEventName e; isCorrected := isCorrected e;
     correctionCount := correctionCount e; lastCorrectedAt := lastCorrectedAt e;
     lastCorrectedBy := lastCorrectedBy e; correctionNotes := correctionNotes e;
     originalScoutName := originalScoutName e |}.

Definition localRed : ScoutingEntryDB :=
  {| dbId := "2025test::10::100::red"; dbTeamNumber := "100";
     dbMatchNumber := "10"; dbAlliance := Some "redAlliance";
     dbEventName := "2025test"; isCorrected := None;
     correctionCount := None; lastCorrectedAt := None; lastCorrectedBy := None;
     correctionNotes := None; originalScoutName := None |}.

Definition incomingBlue : ScoutingDataWithId :=
  {| id := "2025test::10::100::blue";
     data := {| matchNumber := Some "10"; selectTeam := Some "100";
                teamNumber := None; alliance := Some "blueAlliance";
                eventName := Some "2025test"; inIsCorrected := None |} |}.

Definition incomingRed : ScoutingDataWithId :=
  {| id := "2025test::10::100::red";
     data := {| matchNumber := Some "10"; selectTeam := Some "100";
                teamNumber := None; alliance := Some "Red";
                eventName := Some "2025test"; inIsCorrected := None |} |}.

Definition localCorrected200 : ScoutingEntryDB :=
  {| dbId := "2025test::10::200::red"; dbTeamNumber := "200";
     dbMatchNumber := "10"; dbAlliance := Some "redAlliance";
     dbEventName := "2025test"; isCorrected := Some true;
     correctionCount := Some 1%Z; lastCorrectedAt := Some 1700000000000%Z;
     lastCorrectedBy := Some "Lead A"; correctionNotes := Some "Fixed missed L4";
     originalScoutName := Some "Bob" |}.

Definition incoming200 : ScoutingDataWithId :=
  {| id := "2025test::10::200::blue";
     data := {| matchNumber := Some "10"; selectTeam := None;
                teamNumber := Some "200"; alliance := Some "blueAlliance";
                eventName := Some "2025test"; inIsCorrected := None |} |}.

Definition incoming100Corrected : ScoutingDataWithId :=
  {| id := "2025test::10::100::red";
     data := {| matchNumber := Some "10"; selectTeam := Some "100";
                teamNumber := None; alliance := Some "redAlliance";
                eventName := Some "2025test"; inIsCorrected := Some true |} |}.

Definition incoming300 : ScoutingDataWithId :=
  {| id := "2025test::10::300::red";
     data := {| matchNumber := Some "10"; selectTeam := Some "300";
                teamNumber := None; alliance := Some "redAlliance";
                eventName := Some "2025test"; inIsCorrected := None |} |}.

Definition store10 : Store := [localRed; localCorrected200].

Definition batch10 : list ScoutingDataWithId :=
  [incoming200; incoming100Corrected; incoming300].

End Merge.

(* ================================================================== *)
(** ** A worked match: event 2025test, match 10                         *)
(* ================================================================== *)

Definition coarseThresholds : Thresholds :=
  {| criticalPct := 50; warningPct := 25; minorPct := 10;
     criticalAbsolute := 5; warningAbsolute := 3; minorAbsolute := 2 |}.

Definition coarseConfig : ValidationConfig :=
  {| thresholds := sampleThresholds;
     categoryThresholds :=
       Some (fun c => match c with mobility => Some coarseThresholds | _ => None end);
     checkAutoScoring := true;
     checkTeleopScoring := true;
     checkEndgame := true;
     autoFlagThreshold := 2;
     requireReScoutThreshold := 3 |}.

(** A configuration whose every discrepancy of two pieces is critical and
    whose first critical already fails the alliance and the match. *)
Definition strictConfig : ValidationConfig :=
  {| thresholds :=
       {| criticalPct := 50; warningPct := 25; minorPct := 10;
          criticalAbsolute := 2; warningAbsolute := 2; minorAbsolute := 1 |};
     categoryThresholds := None;
     checkAutoScoring := true;
     checkTeleopScoring := true;
     checkEndgame := true;
     autoFlagThreshold := 1;
     requireReScoutThreshold := 1 |}.

Definition entry0 : ScoutingEntry :=
  {| matchNumber := "10"; eventName := "2025test"; alliance := "red";
     selectTeam := "100"; scoutName := "Alice";
     autoCoralPlaceL1Count := 0; autoCoralPlaceL2Count := 0;
     autoCoralPlaceL3Count := 0; autoCoralPlaceL4Count := 1;
     teleopCoralPlaceL1Count := 0; teleopCoralPlaceL2Count := 0;
     teleopCoralPlaceL3Count := 1; teleopCoralPlaceL4Count := 0;
     autoAlgaePlaceNetShot := 0; autoAlgaePlaceProcessor := 0;
     teleopAlgaePlaceNetShot := 0; teleopAlgaePlaceProcessor := 0;
     autoPassedStartLine := true;
     deepClimbAttempted := false; shallowClimbAttempted := false;
     parkAttempted := false; climbFailed := false;
     brokeDown := false; playedDefense := false |}.

(** A robot that went for the deep cage, fell, and ended up parked. *)
Definition fallenClimber : ScoutingEntry :=
  {| matchNumber := "10"; eventName := "2025test"; alliance := "red";
     selectTeam := "200"; scoutName := "Bob";
     autoCoralPlaceL1Count := 0; autoCoralPlaceL2Count := 0;
     autoCoralPlaceL3Count := 0; autoCoralPlaceL4Count := 1;
     teleopCoralPlaceL1Count := 0; teleopCoralPlaceL2Count := 0;
     teleopCoralPlaceL3Count := 0; teleopCoralPlaceL4Count := 0;
     autoAlgaePlaceNetShot := 0; autoAlgaePlaceProcessor := 0;
     teleopAlgaePlaceNetShot := 0; teleopAlgaePlaceProcessor := 0;
     autoPassedStartLine := true;
     deepClimbAttempted := true; shallowClimbAttempted := false;
     parkAttempted := true; climbFailed := true;
     brokeDown := false; playedDefense := false |}.

Definition entry2 : ScoutingEntry :=
  {| matchNumber := "10"; eventName := "2025test"; alliance := "red";
     selectTeam := "300"; scoutName := "";
     autoCoralPlaceL1Count := 0; autoCoralPlaceL2Count := 0;
     autoCoralPlaceL3Count := 0; autoCoralPlaceL4Count := 1;
     teleopCoralPlaceL1Count := 0; teleopCoralPlaceL2Count := 0;
     teleopCoralPlaceL3Count := 0; teleopCoralPlaceL4Count := 0;
     autoAlgaePlaceNetShot := 0; autoAlgaePlaceProcessor := 0;
     teleopAlgaePlaceNetShot := 5; teleopAlgaePlaceProcessor := 0;
     autoPassedStartLine := true;
     deepClimbAttempted := false; shallowClimbAttempted := true;
     parkAttempted := false; climbFailed := false;
     brokeDown := false; playedDefense := false |}.

Definition redEntries : list ScoutingEntry := [entry0; fallenClimber; entry2].

Definition redBreakdown : TBA.Breakdown :=
  {| TBA.autoLineRobot1 := "Yes"; TBA.autoLineRobot2 := "Yes";
     TBA.autoLineRobot3 := "Yes";
     TBA.endGameRobot1 := "None"; TBA.endGameRobot2 := "Parked";
     TBA.endGameRobot3 := "ShallowCage";
     TBA.bAutoPoints := 42; TBA.bTeleopPoints := 34; TBA.bFoulPoints := 0;
     TBA.autoReef := {| TBA.trough := 0; TBA.tba_botRowCount := 0;
                        TBA.tba_midRowCount := 2; TBA.tba_topRowCount := 3 |};
     TBA.teleopReef := {| TBA.trough := 0; TBA.tba_botRowCount := 0;
                          TBA.tba_midRowCount := 5; TBA.tba_topRowCount := 3 |};
     TBA.autoCoralCount := 5; TBA.bAutoCoralPoints := 33;
     TBA.teleopCoralCount := 3; TBA.bTeleopCoralPoints := 12;
     TBA.netAlgaeCount := 2; TBA.wallAlgaeCount := 0; TBA.bAlgaePoints := 8;
     TBA.autoMobilityPoints := 9;
     TBA.endGameBargePoints := 8;
     TBA.bAutoBonusAchieved := true; TBA.bCoralBonusAchieved := false;
     TBA.bBargeBonusAchieved := false;
     TBA.bFoulCount := 0; TBA.bTechFoulCount := 0 |}.

Definition match10 : TBA.TBAMatchData :=
  {| TBA.key := "2025test_qm10";
     TBA.comp_level := "qm";
     TBA.alliances := fun color =>
       match color with
       | red => {| TBA.team_keys := ["frc100"; "frc200"; "frc300"]%string;
                   TBA.score := 84 |}
       | blue => {| TBA.team_keys := ["frc400"; "frc500"; "frc600"]%string;
                    TBA.score := 30 |}
       end;
     TBA.score_breakdown := Some (fun color =>
       match color with
       | red => Some redBreakdown
       | blue => None
       end) |}.

(** A team key without its "frc" prefix. *)
Definition stripFrc (teamKey : string) : string :=
  if String.prefix "frc" teamKey
  then String.substring 3 (String.length teamKey - 3) teamKey
  else teamKey.

Definition tbaRed10 : TBA.TBAAllianceData := extractTBAAllianceData stripFrc match10 red.

Definition scoutedRed10 : ScoutedAllianceData :=
  aggregateScoutedAllianceData redEntries red "10" "2025test" (TBA.teams tbaRed10).

(* ================================================================== *)
(** ** Match aggregation for display                                    *)
(* ================================================================== *)

(** [s.includes(needle)] on strings. *)
Fixpoint stringIncludes (needle s : string) {struct s} : bool :=
  if String.prefix needle s then true
  else match s with
       | EmptyString => false
       | String _ rest => stringIncludes needle rest
       end.

Module MatchData.

(** Alliance data with teams, entries, and aggregated statistics. *)
Record AllianceData : Type := mkAllianceData {
  teams : list string;
  entries : list ScoutingEntry;
  aggregatedStats : Display.AllianceStats;
  scoutNames : list string;
  missingTeams : list string;
  isComplete : bool
}.

(** Both alliances of one match; [timestamp] (the wall clock) is left out. *)
Record AggregatedMatchData : Type := mkAggregatedMatchData {
  mdMatchNumber : string;
  mdEventName : string;
  matchKey : string;
  redAlliance : AllianceData;
  blueAlliance : AllianceData
}.

Definition buildAllianceData (entries : list ScoutingEntry) : AllianceData :=
  let teams := filter (fun t => negb (String.eqb t "")) (map selectTeam entries) in
  let scoutNames := map (fun e => orString (scoutName e) "Unknown") entries in
  let aggregatedStats := Display.calculateAllianceStats entries in
  let isComplete := Nat.eqb (List.length entries) 3 in
  (* which teams are missing cannot be told without TBA data *)
  let missingTeams : list string := [] in
  {| teams := teams;
     entries := entries;
     aggregatedStats := aggregatedStats;
     scoutNames := scoutNames;
     missingTeams := missingTeams;
     isComplete := isComplete |}.

Definition generateMatchKey (eventKey matchNumber : string) : string :=
  (eventKey ++ "_qm" ++ matchNumber)%string.

Definition aggregateMatchData (matchNo event : string)
                              (allEntries : list ScoutingEntry)
  : AggregatedMatchData :=
  (* Filter entries for this specific match *)
  let matchEntries :=
    filter (fun e => String.eqb (matchNumber e) matchNo
                     && String.eqb (eventName e) event) allEntries in
  (* Separate by alliance *)
  let redEntries :=
    filter (fun e => stringIncludes "red" (Merge.toLowerCase (alliance e)))
           matchEntries in
  let blueEntries :=
    filter (fun e => stringIncludes "blue" (Merge.toLowerCase (alliance e)))
           matchEntries in
  {| mdMatchNumber := matchNo;
     mdEventName := event;
     matchKey := generateMatchKey event matchNo;
     redAlliance := buildAllianceData redEntries;
     blueAlliance := buildAllianceData blueEntries |}.

(** [findMissingTeams]: the expected teams without scouting data, as the
    pair (red, blue). *)
Definition findMissingTeams (aggregatedMatch : AggregatedMatchData)
                            (expectedRed expectedBlue : list string)
  : list string * list string :=
  let redMissing :=
    filter (fun team => negb (includes (teams (redAlliance aggregatedMatch)) team))
           expectedRed in
  let blueMissing :=
    filter (fun team => negb (includes (teams (blueAlliance aggregatedMatch)) team))
           expectedBlue in
  (redMissing, blueMissing).

End MatchData.

(* ================================================================== *)
(** ** Test data generation                                             *)
(* ================================================================== *)

Module TestData.

(** Distribute a count across 3 teams: [Math.floor(total / 3)] each, the
    remainder [total % 3] going to the first teams. *)
Definition distributeCount (total teamIndex : Z) : Z :=
  if total =? 0 then 0
  else
    let base := total / 3 in
    let remainder := Z.rem total 3 in
    base + (if teamIndex <? remainder then 1 else 0).

End TestData.

(* ================================================================== *)
(** ** Applying the user's conflict decisions                           *)
(* ================================================================== *)

Module Resolution.

Inductive Decision : Type := Replace | Skip.

(** [`${local.matchNumber}-${local.teamNumber}-${local.eventName}`] *)
Definition conflictKey (conflict : Merge.ConflictInfo) : string :=
  (dbMatchNumber (Merge.local conflict) ++ "-"
   ++ dbTeamNumber (Merge.local conflict) ++ "-"
   ++ dbEventName (Merge.local conflict))%string.

Section Handler.

Variable saveScoutingEntry : Merge.ScoutingDataWithId -> Merge.Store -> Merge.Store.

(** [applyConflictResolutions]: the decisions are a [Map] from conflict key
    to 'replace' or 'skip', read with [get]; the result is the table and
    the [replaced] / [skipped] counters. *)
Definition applyConflictResolutions (conflicts : list Merge.ConflictInfo)
    (resolutions : string -> option Decision) (db : Merge.Store)
  : Merge.Store * (Z * Z) :=
  fold_left
    (fun (state : Merge.Store * (Z * Z)) conflict =>
       let '(db, (replaced, skipped)) := state in
       match resolutions (conflictKey conflict) with
       | Some Replace =>
           (* Delete old entry and save new one *)
           (saveScoutingEntry (Merge.incoming conflict)
                              (Merge.delete (dbId (Merge.local conflict)) db),
            (replaced + 1, skipped))
       | _ =>
           (* Skip - keep local, do nothing *)
           (db, (replaced, skipped + 1))
       end)
    conflicts (db, (0, 0)).

End Handler.

End Resolution.

(* ================================================================== *)
(** ** The validation hook: fetching and summarising                    *)
(* ================================================================== *)

Module Hook.

Record ScoutedMatchData : Type := mkScoutedMatchData {
  fRed : list ScoutingEntry;
  fBlue : list ScoutingEntry;
  fRedRaw : list ScoutingEntryDB;
  fBlueRaw : list ScoutingEntryDB
}.

Section Fetch.

(** [parseScoutingEntry(entry.data)]: the scouting entry a stored row
    carries. *)
Variable parsedData : ScoutingEntryDB -> ScoutingEntry.

(** [fetchScoutedMatchData]: the rows of the event and match, split by the
    alliance of the parsed entry; the table is given as the list of its
    rows. *)
Definition fetchScoutedMatchData (table : list ScoutingEntryDB)
                                 (eventKey matchNumber : string)
  : ScoutedMatchData :=
  let entries :=
    filter (fun entry => String.eqb (dbEventName entry) eventKey
                         && String.eqb (dbMatchNumber entry) matchNumber) table in
  fold_left
    (fun acc entry =>
       let parsed := parsedData entry in
       if String.eqb (alliance parsed) "redAlliance"
          || String.eqb (alliance parsed) "red" then
         {| fRed := fRed acc ++ [parsed]; fBlue := fBlue acc;
            fRedRaw := fRedRaw acc ++ [entry]; fBlueRaw := fBlueRaw acc |}
       else if String.eqb (alliance parsed) "blueAlliance"
               || String.eqb (alliance parsed) "blue" then
         {| fRed := fRed acc; fBlue := fBlue acc ++ [parsed];
            fRedRaw := fRedRaw acc; fBlueRaw := fBlueRaw acc ++ [entry] |}
       else acc)
    entries
    {| fRed := []; fBlue := []; fRedRaw := []; fBlueRaw := [] |}.

End Fetch.

(** The summary of an event's results; [generatedAt] (the wall clock) is
    left out. *)
Record ValidationSummary : Type := mkValidationSummary {
  sEventKey : string;
  totalMatches : Z;
  validatedMatches : Z;
  pendingMatches : Z;
  passedMatches : Z;
  flaggedMatches : Z;
  failedMatches : Z;
  noTBADataMatches : Z;
  sTotalDiscrepancies : Z;
  sCriticalDiscrepancies : Z;
  sWarningDiscrepancies : Z;
  sMinorDiscrepancies : Z;
  averageConfidence : ConfidenceLevel;
  matchesRequiringReScout : Z
}.

(** The status as the string that keys the count object. *)
Definition statusName (s : ValidationStatus) : string :=
  match s with
  | passed => "passed"
  | flagged => "flagged"
  | failed => "failed"
  end.

(** [x || 0] on a possibly absent count. *)
Definition orZero (x : option Z) : Z :=
  match x with
  | Some v => v
  | None => 0
  end.

(** [acc[k] = (acc[k] || 0) + 1] *)
Definition bump (acc : string -> option Z) (k : string) : string -> option Z :=
  fun k' => if String.eqb k' k then Some (orZero (acc k) + 1) else acc k'.

Record DiscrepancyCounts : Type := mkDiscrepancyCounts {
  cTotal : Z; cCritical : Z; cWarning : Z; cMinor : Z
}.

(** [confidenceMap = { high: 3, medium: 2, low: 1 }] *)
Definition confidenceMap (c : ConfidenceLevel) : Z :=
  match c with high => 3 | medium => 2 | low => 1 end.

Definition calculateSummary (results : list MatchValidationResult)
                            (eventKey : string) : ValidationSummary :=
  let totalMatches := Z.of_nat (List.length results) in
  let statusCounts :=
    fold_left (fun acc r => bump acc (statusName (mStatus r))) results
              (fun _ => None) in
  let discrepancyCounts :=
    fold_left
      (fun acc r =>
         {| cTotal := cTotal acc + totalDiscrepancies r;
            cCritical := cCritical acc + criticalDiscrepancies r;
            cWarning := cWarning acc + warningDiscrepancies r;
            cMinor := cMinor acc + (totalDiscrepancies r - criticalDiscrepancies r
                                    - warningDiscrepancies r) |})
      results {| cTotal := 0; cCritical := 0; cWarning := 0; cMinor := 0 |} in
  (* Calculate average confidence *)
  let avgConfidenceScore : Q :=
    if Z.of_nat (List.length results) >? 0 then
      (inject_Z (fold_left (fun sum r => (sum + confidenceMap (mConfidence r))%Z)
                           results 0%Z)
       / inject_Z (Z.of_nat (List.length results)))%Q
    else 0%Q in
  let averageConfidence :=
    if Qgeb avgConfidenceScore (5 # 2) then high
    else if Qgeb avgConfidenceScore (3 # 2) then medium
    else low in
  {| sEventKey := eventKey;
     totalMatches := totalMatches;
     validatedMatches := totalMatches;
     pendingMatches := orZero (statusCounts "pending"%string);
     passedMatches := orZero (statusCounts "passed"%string);
     flaggedMatches := orZero (statusCounts "flagged"%string);
     failedMatches := orZero (statusCounts "failed"%string);
     noTBADataMatches := orZero (statusCounts "no-tba-data"%string);
     sTotalDiscrepancies := cTotal discrepancyCounts;
     sCriticalDiscrepancies := cCritical discrepancyCounts;
     sWarningDiscrepancies := cWarning discrepancyCounts;
     sMinorDiscrepancies := cMinor discrepancyCounts;
     averageConfidence := averageConfidence;
     matchesRequiringReScout :=
       Z.of_nat (List.length (filter requiresReScout results)) |}.

End Hook.

(* ================================================================== *)
(** ** A second match without official breakdown: match 11              *)
(* ================================================================== *)

(** An entry that only records the robot leaving the starting line. *)
Definition mover (team scout : string) : ScoutingEntry :=
  {| matchNumber := "11"; eventName := "2025test"; alliance := "blueAlliance";
     selectTeam := team; scoutName := scout;
     autoCoralPlaceL1Count := 0; autoCoralPlaceL2Count := 0;
     autoCoralPlaceL3Count := 0; autoCoralPlaceL4Count := 0;
     teleopCoralPlaceL1Count := 0; teleopCoralPlaceL2Count := 0;
     teleopCoralPlaceL3Count := 0; teleopCoralPlaceL4Count := 0;
     autoAlgaePlaceNetShot := 0; autoAlgaePlaceProcessor := 0;
     teleopAlgaePlaceNetShot := 0; teleopAlgaePlaceProcessor := 0;
     autoPassedStartLine := true;
     deepClimbAttempted := false; shallowClimbAttempted := false;
     parkAttempted := false; climbFailed := false;
     brokeDown := false; playedDefense := false |}.

Definition blueEntries11 : list ScoutingEntry :=
  [mover "400" "Carol"; mover "500" "Dave"].

Definition match11 : TBA.TBAMatchData :=
  {| TBA.key := "2025test_qm11";
     TBA.comp_level := "qm";
     TBA.alliances := fun color =>
       match color with
       | red => {| TBA.team_keys := ["frc100"; "frc200"; "frc300"]%string;
                   TBA.score := 50 |}
       | blue => {| TBA.team_keys := ["frc400"; "frc500"; "frc600"]%string;
                    TBA.score := 40 |}
       end;
     TBA.score_breakdown := None |}.

(** Two pieces off is critical; two criticals flag an alliance as failed,
    three fail the match. *)
Definition twoOffConfig : ValidationConfig :=
  {| thresholds :=
       {| criticalPct := 50; warningPct := 25; minorPct := 10;
          criticalAbsolute := 2; warningAbsolute := 2; minorAbsolute := 1 |};
     categoryThresholds := None;
     checkAutoScoring := true;
     checkTeleopScoring := true;
     checkEndgame := true;
     autoFlagThreshold := 2;
     requireReScoutThreshold := 3 |}.

(** A result that [validateMatch] produced. *)
Definition fromValidator (r : MatchValidationResult) : Prop :=
  exists extractTeamNumber eventKey matchNo reds blues tbaMatch cfg rawRed rawBlue,
    r = validateMatch extractTeamNumber eventKey matchNo reds blues tbaMatch cfg
                      rawRed rawBlue.

(* ================================================================== *)
(** * Properties                                                        *)
(* ================================================================== *)

(** ** Comparisons *)

Lemma Qgeb_true (a b : Q) : Qgeb a b = true <-> (b <= a)%Q.
Proof. unfold Qgeb. apply Qle_bool_iff. Qed.

Lemma Qgeb_false (a b : Q) : Qgeb a b = false <-> (a < b)%Q.
Proof.
  unfold Qgeb. split; intro H.
  - apply Qnot_le_lt. intro Hle. apply Qle_bool_iff in Hle. congruence.
  - destruct (Qle_bool b a) eqn:E; [|reflexivity].
    apply Qle_bool_iff in E. exfalso. apply (Qlt_not_le _ _ H E).
Qed.

Lemma Qltb_true (a b : Q) : Qltb a b = true <-> (a < b)%Q.
Proof.
  unfold Qltb. rewrite negb_true_iff. apply Qgeb_false.
Qed.

(** ** Severity classification *)

(** The classification is a function of the absolute difference alone:
    once the three absolute checks have failed, the guard
    [difference < warningAbsolute] always holds, so control never reaches
    the percentage checks. *)
Lemma calculateSeverity_absolute (d p : Q) (cfg : ValidationConfig)
                                 (cat : option DataCategory) :
  calculateSeverity d p cfg cat =
    let t := thresholdsFor cfg cat in
    if Qgeb d (criticalAbsolute t) then critical
    else if Qgeb d (warningAbsolute t) then warning
    else if Qgeb d (minorAbsolute t) then minor
    else none.
Proof.
  unfold calculateSeverity, Qltb, Qgeb. cbv zeta.
  destruct (Qle_bool (criticalAbsolute (thresholdsFor cfg cat)) d); [reflexivity|].
  destruct (Qle_bool (warningAbsolute (thresholdsFor cfg cat)) d) eqn:Hw;
    [reflexivity|].
  destruct (Qle_bool (minorAbsolute (thresholdsFor cfg cat)) d); reflexivity.
Qed.

Lemma calculateSeverity_ignores_percent (d p p' : Q) (cfg : ValidationConfig)
                                        (cat : option DataCategory) :
  calculateSeverity d p cfg cat = calculateSeverity d p' cfg cat.
Proof. now rewrite !calculateSeverity_absolute. Qed.

(** What [createDiscrepancy] reports is what [calculateSeverity] returned. *)
Lemma severityOf_createDiscrepancy (cat : DataCategory) (f : string) (s o : Z)
                                   (cfg : ValidationConfig) :
  exists p : Q,
    severityOf (createDiscrepancy cat f s o cfg)
    = calculateSeverity (inject_Z (Z.abs (s - o))) p cfg (Some cat).
Proof.
  unfold createDiscrepancy. cbv zeta.
  match goal with
  | |- context [calculateSeverity ?d ?p cfg (Some cat)] =>
      exists p; destruct (calculateSeverity d p cfg (Some cat)); reflexivity
  end.
Qed.

(** The fields of a reported discrepancy are the arguments of the call. *)
Lemma createDiscrepancy_fields (cat : DataCategory) (f : string) (s o : Z)
                               (cfg : ValidationConfig) (d : Discrepancy) :
  createDiscrepancy cat f s o cfg = Some d ->
  category d = cat /\ field d = f /\ scoutedValue d = s /\ tbaValue d = o
  /\ difference d = Z.abs (s - o) /\ severity d <> none.
Proof.
  unfold createDiscrepancy. cbv zeta.
  match goal with
  | |- context [calculateSeverity ?x ?p cfg (Some cat)] =>
      destruct (calculateSeverity x p cfg (Some cat)) eqn:E
  end; intro H; inversion H; subst; cbn; repeat split; discriminate.
Qed.

(** C1.  Once the absolute difference has cleared the warning-absolute bar
    the classification is settled by the absolute thresholds alone:
    [calculateSeverity] has already returned 'warning' or 'critical' and the
    percentage thresholds are never consulted, for any input.  At scouted 3
    against official 0 under the sample thresholds (warningAbsolute 2,
    criticalAbsolute 5, critical percentage 50) the difference 3 has cleared
    the bar and the percentage difference is 100, yet the result stays
    'warning'. *)
Theorem percentage_never_escalates :
  (forall (d p p' : Q) (cfg : ValidationConfig) (cat : option DataCategory),
      calculateSeverity d p cfg cat = calculateSeverity d p' cfg cat)
  /\ (warningAbsolute sampleThresholds <= inject_Z (Z.abs (3 - 0)))%Q
  /\ (criticalPct sampleThresholds <= 100)%Q
  /\ calculateSeverity (inject_Z (Z.abs (3 - 0))) 100 sampleConfig (Some algae) = warning
  /\ severityOf (createDiscrepancy algae "Total Algae Net" 3 0 sampleConfig) = warning.
Proof.
  split; [apply calculateSeverity_ignores_percent|].
  repeat split; try reflexivity; vm_compute; discriminate.
Qed.

(** C2, as stated, fails: scouted 0 against official 1 under the sample
    thresholds has a difference below warningAbsolute = 2 and is classified
    'minor', because the difference reaches minorAbsolute = 1. *)
Lemma absolute_gate_counterexample :
  (inject_Z (Z.abs (0 - 1)) < warningAbsolute (thresholdsFor sampleConfig (Some mobility)))%Q
  /\ calculateSeverity (inject_Z (Z.abs (0 - 1))) 100 sampleConfig (Some mobility) = minor
  /\ severityOf (createDiscrepancy mobility "Mobility Count" 0 1 sampleConfig) <> none.
Proof.
  repeat split; try reflexivity. vm_compute. discriminate.
Qed.

(** C2 (amended).  Below the warning-absolute bar the percentage difference
    has no say: the severity is 'critical' when the difference reaches
    criticalAbsolute, otherwise 'minor' when it reaches minorAbsolute,
    otherwise 'none'.  In particular a difference below all three absolute
    thresholds is classified 'none' however large the percentage is. *)
Theorem absolute_gate (s o : Z) (p : Q) (cfg : ValidationConfig)
                      (cat : option DataCategory) :
  let t := thresholdsFor cfg cat in
  let d := inject_Z (Z.abs (s - o)) in
  (d < warningAbsolute t)%Q ->
  ((criticalAbsolute t <= d)%Q -> calculateSeverity d p cfg cat = critical)
  /\ ((d < criticalAbsolute t)%Q -> (minorAbsolute t <= d)%Q ->
      calculateSeverity d p cfg cat = minor)
  /\ ((d < criticalAbsolute t)%Q -> (d < minorAbsolute t)%Q ->
      calculateSeverity d p cfg cat = none).
Proof.
  intros t d Hw. rewrite calculateSeverity_absolute. cbv zeta. fold t.
  apply Qgeb_false in Hw. rewrite Hw.
  repeat split.
  - intro Hc. apply Qgeb_true in Hc. now rewrite Hc.
  - intros Hc Hm. apply Qgeb_false in Hc. apply Qgeb_true in Hm.
    now rewrite Hc, Hm.
  - intros Hc Hm. apply Qgeb_false in Hc. apply Qgeb_false in Hm.
    now rewrite Hc, Hm.
Qed.

(** Scouted 0 against official 1 with minorAbsolute = 2: 'none', although the
    percentage difference is 100. *)
Lemma absolute_gate_witness :
  calculateSeverity (inject_Z (Z.abs (0 - 1))) 100 coarseConfig (Some mobility) = none.
Proof.
  apply (absolute_gate 0 1 100 coarseConfig (Some mobility)); reflexivity.
Defined.

(** C8.  For a fixed official value and a fixed configuration, a larger
    absolute difference never yields a lower severity ordinal
    (none < minor < warning < critical). *)
Theorem severity_monotone (cat : DataCategory) (f : string) (s1 s2 official : Z)
                          (cfg : ValidationConfig) :
  Z.abs (s1 - official) <= Z.abs (s2 - official) ->
  severityOrdinal (severityOf (createDiscrepancy cat f s1 official cfg))
  <= severityOrdinal (severityOf (createDiscrepancy cat f s2 official cfg)).
Proof.
  intro Hle.
  destruct (severityOf_createDiscrepancy cat f s1 official cfg) as [p1 ->].
  destruct (severityOf_createDiscrepancy cat f s2 official cfg) as [p2 ->].
  rewrite !calculateSeverity_absolute. cbv zeta.
  set (t := thresholdsFor cfg (Some cat)).
  assert (Hq : (inject_Z (Z.abs (s1 - official))
                <= inject_Z (Z.abs (s2 - official)))%Q)
    by (rewrite <- Zle_Qle; exact Hle).
  set (d1 := inject_Z (Z.abs (s1 - official))) in *.
  set (d2 := inject_Z (Z.abs (s2 - official))) in *.
  destruct (Qgeb d1 (criticalAbsolute t)) eqn:C1;
  destruct (Qgeb d2 (criticalAbsolute t)) eqn:C2;
  destruct (Qgeb d1 (warningAbsolute t)) eqn:W1;
  destruct (Qgeb d2 (warningAbsolute t)) eqn:W2;
  destruct (Qgeb d1 (minorAbsolute t)) eqn:M1;
  destruct (Qgeb d2 (minorAbsolute t)) eqn:M2;
  cbn; try lia;
  repeat match goal with
         | H : Qgeb _ _ = true |- _ => apply Qgeb_true in H
         | H : Qgeb _ _ = false |- _ => apply Qgeb_false in H
         end; lra.
Qed.

Lemma severity_monotone_witness :
  severityOrdinal (severityOf (createDiscrepancy algae "Total Algae" 3 2 sampleConfig))
  <= severityOrdinal (severityOf (createDiscrepancy algae "Total Algae" 7 2 sampleConfig)).
Proof.
  apply (severity_monotone algae "Total Algae" 3 7 2 sampleConfig).
  vm_compute. discriminate.
Defined.

(** ** Aggregation *)

Lemma fold_left_sum_acc (f : ScoutingEntry -> Z) (es : list ScoutingEntry) (a : Z) :
  fold_left (fun sum e => sum + f e) es a = a + reduceSum f es.
Proof.
  unfold reduceSum. revert a.
  induction es as [|e es IH]; intro a; cbn.
  - lia.
  - rewrite IH. rewrite (IH (f e)). lia.
Qed.

Lemma reduceSum_cons (f : ScoutingEntry -> Z) (e : ScoutingEntry)
                     (es : list ScoutingEntry) :
  reduceSum f (e :: es) = f e + reduceSum f es.
Proof.
  unfold reduceSum at 1. cbn. apply fold_left_sum_acc.
Qed.

Lemma reduceSum_snoc (f : ScoutingEntry -> Z) (es : list ScoutingEntry)
                     (e : ScoutingEntry) :
  reduceSum f (es ++ [e]) = reduceSum f es + f e.
Proof.
  unfold reduceSum. rewrite fold_left_app. reflexivity.
Qed.

Lemma filterLength_cons (p : ScoutingEntry -> bool) (e : ScoutingEntry)
                        (es : list ScoutingEntry) :
  filterLength p (e :: es) = oneIf (p e) + filterLength p es.
Proof.
  unfold filterLength, oneIf. cbn. destruct (p e); cbn [List.length]; lia.
Qed.

Lemma filterLength_snoc (p : ScoutingEntry -> bool) (es : list ScoutingEntry)
                        (e : ScoutingEntry) :
  filterLength p (es ++ [e]) = filterLength p es + oneIf (p e).
Proof.
  unfold filterLength, oneIf. rewrite filter_app, length_app. cbn.
  destruct (p e); cbn [List.length]; lia.
Qed.

(** Summing [cond ? 1 : 0] counts the entries that satisfy [cond]. *)
Lemma reduceSum_oneIf (p : ScoutingEntry -> bool) (es : list ScoutingEntry) :
  reduceSum (fun e => oneIf (p e)) es = filterLength p es.
Proof.
  induction es as [|e es IH].
  - reflexivity.
  - rewrite reduceSum_cons, filterLength_cons, IH. reflexivity.
Qed.

Lemma display_endgame_counts (es : list ScoutingEntry) :
  Display.deepClimbs (Display.calculateAllianceStats es)
    = filterLength deepClimbAttempted es
  /\ Display.shallowClimbs (Display.calculateAllianceStats es)
    = filterLength shallowClimbAttempted es.
Proof. destruct es; split; reflexivity. Qed.

(** C9.  In the comparison-path aggregate, deepClimbs (shallowClimbs) counts
    the entries that attempted the deep (shallow) climb and did not fail;
    an entry with climbFailed set adds one to climbFails, adds to parks when
    it parked, and adds nothing to deepClimbs or shallowClimbs.  The
    display-path aggregate counts every entry with the attempt flag set,
    whatever climbFailed says. *)
Theorem endgame_counts (es : list ScoutingEntry) (color : AllianceColor)
                       (matchNo event : string) (expected : list string) :
  let agg l := aggregateScoutedAllianceData l color matchNo event expected in
  (deepClimbs (agg es)
     = filterLength (fun e => deepClimbAttempted e && negb (climbFailed e)) es
   /\ shallowClimbs (agg es)
     = filterLength (fun e => shallowClimbAttempted e && negb (climbFailed e)) es
   /\ parks (agg es) = filterLength parkAttempted es
   /\ climbFails (agg es) = filterLength climbFailed es)
  /\ (forall e, climbFailed e = true ->
        deepClimbs (agg (es ++ [e])) = deepClimbs (agg es)
        /\ shallowClimbs (agg (es ++ [e])) = shallowClimbs (agg es)
        /\ climbFails (agg (es ++ [e])) = climbFails (agg es) + 1
        /\ parks (agg (es ++ [e])) = parks (agg es) + oneIf (parkAttempted e))
  /\ (Display.deepClimbs (Display.calculateAllianceStats es)
        = filterLength deepClimbAttempted es
      /\ Display.shallowClimbs (Display.calculateAllianceStats es)
        = filterLength shallowClimbAttempted es)
  /\ (forall e,
        Display.deepClimbs (Display.calculateAllianceStats (es ++ [e]))
          = Display.deepClimbs (Display.calculateAllianceStats es)
            + oneIf (deepClimbAttempted e)
        /\ Display.shallowClimbs (Display.calculateAllianceStats (es ++ [e]))
          = Display.shallowClimbs (Display.calculateAllianceStats es)
            + oneIf (shallowClimbAttempted e)).
Proof.
  intro agg. unfold agg. cbn [deepClimbs shallowClimbs parks climbFails
                              aggregateScoutedAllianceData].
  split; [|split; [|split]].
  - repeat split; apply reduceSum_oneIf.
  - intros e Hf. rewrite !reduceSum_snoc, Hf.
    cbn. rewrite !andb_false_r. cbn. repeat split; lia.
  - apply display_endgame_counts.
  - intro e.
    destruct (display_endgame_counts (es ++ [e])) as [-> ->].
    destruct (display_endgame_counts es) as [-> ->].
    rewrite !filterLength_snoc. split; reflexivity.
Qed.

Lemma endgame_counts_witness :
  let agg l := aggregateScoutedAllianceData l red "10" "2025test" ["100"; "200"]%string in
  deepClimbs (agg ([entry0] ++ [fallenClimber])) = deepClimbs (agg [entry0])
  /\ shallowClimbs (agg ([entry0] ++ [fallenClimber])) = shallowClimbs (agg [entry0])
  /\ climbFails (agg ([entry0] ++ [fallenClimber])) = climbFails (agg [entry0]) + 1
  /\ parks (agg ([entry0] ++ [fallenClimber]))
     = parks (agg [entry0]) + oneIf (parkAttempted fallenClimber).
Proof.
  intro agg.
  apply (proj1 (proj2 (endgame_counts [entry0] red "10" "2025test"
                                      ["100"; "200"]%string))).
  reflexivity.
Defined.

(** ** Estimated scouted score *)

(** C10.  The point total the comparison estimates from the scouted counts
    equals [calculateMatchPoints] of the game-constants module on the same
    counts. *)
Theorem estimated_score_is_calculateMatchPoints
    (s : ScoutedAllianceData) (t : TBA.TBAAllianceData) (cfg : ValidationConfig) :
  totalScoutedPoints (compareAllianceData s t cfg)
  = GameConstants2025.calculateMatchPoints (matchPointsParams s).
Proof.
  unfold compareAllianceData. cbn [totalScoutedPoints].
  unfold estimatedScoutedScore, scoutedAutoCoralPoints, scoutedAutoAlgaePoints,
    scoutedMobilityPoints, scoutedTeleopCoralPoints, scoutedTeleopAlgaePoints,
    scoutedEndgamePoints.
  unfold GameConstants2025.calculateMatchPoints,
    GameConstants2025.calculateAutoCoralPoints,
    GameConstants2025.calculateTeleopCoralPoints,
    GameConstants2025.calculateAlgaePoints,
    GameConstants2025.calculateEndgamePoints,
    GameConstants2025.AUTO_MOBILITY_POINTS, matchPointsParams.
  cbn. lia.
Qed.

(** ** Alliance comparison *)

Lemma In_push (d : Discrepancy) (ds : list Discrepancy) (o : option Discrepancy) :
  In d (push ds o) <-> In d ds \/ o = Some d.
Proof.
  destruct o as [x|]; cbn.
  - rewrite in_app_iff. cbn. split.
    + intros [H|[H|[]]]; [now left | right; now subst].
    + intros [H|H]; [now left | right; left; congruence].
  - split; [now left | intros [H|H]; [assumption | discriminate]].
Qed.

Lemma countSeverity_app (sev : DiscrepancySeverity) (a b : list Discrepancy) :
  countSeverity sev (a ++ b) = countSeverity sev a + countSeverity sev b.
Proof.
  unfold countSeverity. rewrite filter_app, length_app. lia.
Qed.

Lemma countSeverity_nonneg (sev : DiscrepancySeverity) (ds : list Discrepancy) :
  0 <= countSeverity sev ds.
Proof. unfold countSeverity. lia. Qed.

(** The status cascade of [compareAllianceData], read off its result. *)
Lemma compare_status (s : ScoutedAllianceData) (t : TBA.TBAAllianceData)
                     (cfg : ValidationConfig) :
  let v := compareAllianceData s t cfg in
  let criticalCount := countSeverity critical (discrepancies v) in
  let warningCount := countSeverity warning (discrepancies v) in
  let minorCount := countSeverity minor (discrepancies v) in
  status v =
    if criticalCount >=? autoFlagThreshold cfg then failed
    else if criticalCount >? 0 then flagged
    else if warningCount >? 2 then flagged
    else if (warningCount >? 0) || (minorCount >? 3) then flagged
    else passed.
Proof. reflexivity. Qed.

Ltac split_pushes H :=
  repeat (apply In_push in H; destruct H as [H|H]);
  [ destruct H | .. ].

Ltac teleop_case H Hcat :=
  apply createDiscrepancy_fields in H;
  destruct H as (Hc & Hf & Hs & Ht & _);
  first [ congruence
        | solve [ first [ left; now repeat split
                        | right; left; now repeat split
                        | right; right; left; now repeat split
                        | right; right; right; left; now repeat split
                        | right; right; right; right; now repeat split ] ] ].

Ltac reach_push H :=
  repeat first [ apply In_push; right; exact H | apply In_push; left ].

(** C5.  Every teleop-coral discrepancy of a comparison sets the scouted
    teleop count of a level against max(0, official cumulative teleop count
    - official auto count) of that level, and the total against the sum of
    the four clamped figures; with teleop checking on, each of these five
    comparisons is run.  The clamped figure is never negative, is 0 when the
    cumulative count is below the auto count, and is 3 for auto-L3 = 2 and
    cumulative teleop-L3 = 5. *)
Theorem teleop_cumulative_subtraction
    (s : ScoutedAllianceData) (t : TBA.TBAAllianceData) (cfg : ValidationConfig) :
  let off1 := Z.max 0 (TBA.teleopCoralL1 t - TBA.autoCoralL1 t) in
  let off2 := Z.max 0 (TBA.teleopCoralL2 t - TBA.autoCoralL2 t) in
  let off3 := Z.max 0 (TBA.teleopCoralL3 t - TBA.autoCoralL3 t) in
  let off4 := Z.max 0 (TBA.teleopCoralL4 t - TBA.autoCoralL4 t) in
  (forall d, In d (discrepancies (compareAllianceData s t cfg)) ->
             category d = teleop_coral ->
     (field d = "Teleop Coral L1"%string
        /\ scoutedValue d = teleopCoralL1 s /\ tbaValue d = off1)
     \/ (field d = "Teleop Coral L2"%string
        /\ scoutedValue d = teleopCoralL2 s /\ tbaValue d = off2)
     \/ (field d = "Teleop Coral L3"%string
        /\ scoutedValue d = teleopCoralL3 s /\ tbaValue d = off3)
     \/ (field d = "Teleop Coral L4"%string
        /\ scoutedValue d = teleopCoralL4 s /\ tbaValue d = off4)
     \/ (field d = "Teleop Coral Total"%string
        /\ scoutedValue d = teleopCoralTotal s
        /\ tbaValue d = off1 + off2 + off3 + off4))
  /\ (checkTeleopScoring cfg = true ->
      forall d,
        createDiscrepancy teleop_coral "Teleop Coral L1"
                          (teleopCoralL1 s) off1 cfg = Some d
        \/ createDiscrepancy teleop_coral "Teleop Coral L2"
                          (teleopCoralL2 s) off2 cfg = Some d
        \/ createDiscrepancy teleop_coral "Teleop Coral L3"
                          (teleopCoralL3 s) off3 cfg = Some d
        \/ createDiscrepancy teleop_coral "Teleop Coral L4"
                          (teleopCoralL4 s) off4 cfg = Some d
        \/ createDiscrepancy teleop_coral "Teleop Coral Total"
                          (teleopCoralTotal s) (off1 + off2 + off3 + off4) cfg = Some d ->
        In d (discrepancies (compareAllianceData s t cfg)))
  /\ (0 <= off1 /\ 0 <= off2 /\ 0 <= off3 /\ 0 <= off4)
  /\ ((TBA.teleopCoralL1 t < TBA.autoCoralL1 t -> off1 = 0)
      /\ (TBA.teleopCoralL2 t < TBA.autoCoralL2 t -> off2 = 0)
      /\ (TBA.teleopCoralL3 t < TBA.autoCoralL3 t -> off3 = 0)
      /\ (TBA.teleopCoralL4 t < TBA.autoCoralL4 t -> off4 = 0))
  /\ (TBA.autoCoralL3 t = 2 -> TBA.teleopCoralL3 t = 5 -> off3 = 3).
Proof.
  intros off1 off2 off3 off4.
  split; [|split; [|repeat split; subst off1 off2 off3 off4; lia]].
  - intros d Hin Hcat.
    unfold compareAllianceData in Hin. cbv zeta in Hin. cbn [discrepancies] in Hin.
    unfold tbaActualTeleopTotal, tbaActualTeleopL1, tbaActualTeleopL2,
      tbaActualTeleopL3, tbaActualTeleopL4 in Hin.
    fold off1 off2 off3 off4 in Hin.
    destruct (checkAutoScoring cfg), (checkTeleopScoring cfg), (checkEndgame cfg);
      split_pushes Hin; teleop_case Hin Hcat.
  - intros Hon d Hd.
    unfold compareAllianceData. cbv zeta. cbn [discrepancies].
    unfold tbaActualTeleopTotal, tbaActualTeleopL1, tbaActualTeleopL2,
      tbaActualTeleopL3, tbaActualTeleopL4.
    fold off1 off2 off3 off4. rewrite Hon.
    destruct (checkAutoScoring cfg), (checkEndgame cfg);
      destruct Hd as [Hd|[Hd|[Hd|[Hd|Hd]]]]; reach_push Hd.
Qed.

(** C6.  The alliance status follows the cascade: critical count at or above
    autoFlagThreshold gives 'failed'; otherwise any critical gives 'flagged';
    otherwise more than two warnings give 'flagged'; otherwise any warning
    or more than three minors give 'flagged'; otherwise 'passed'. *)
Theorem alliance_status_cascade
    (s : ScoutedAllianceData) (t : TBA.TBAAllianceData) (cfg : ValidationConfig) :
  let v := compareAllianceData s t cfg in
  let criticalCount := countSeverity critical (discrepancies v) in
  let warningCount := countSeverity warning (discrepancies v) in
  let minorCount := countSeverity minor (discrepancies v) in
  (autoFlagThreshold cfg <= criticalCount -> status v = failed)
  /\ (criticalCount < autoFlagThreshold cfg -> 0 < criticalCount ->
      status v = flagged)
  /\ (criticalCount < autoFlagThreshold cfg -> criticalCount <= 0 ->
      2 < warningCount -> status v = flagged)
  /\ (criticalCount < autoFlagThreshold cfg -> criticalCount <= 0 ->
      warningCount <= 2 -> 0 < warningCount \/ 3 < minorCount ->
      status v = flagged)
  /\ (criticalCount < autoFlagThreshold cfg -> criticalCount <= 0 ->
      warningCount <= 2 -> warningCount <= 0 -> minorCount <= 3 ->
      status v = passed).
Proof.
  intros v criticalCount warningCount minorCount.
  pose proof (compare_status s t cfg) as E. cbv zeta in E.
  fold v in E. fold criticalCount warningCount minorCount in E.
  rewrite E. clearbody criticalCount warningCount minorCount. clear E.
  destruct (Z.geb_spec criticalCount (autoFlagThreshold cfg));
  destruct (Z.gtb_spec criticalCount 0);
  destruct (Z.gtb_spec warningCount 2);
  destruct (Z.gtb_spec warningCount 0);
  destruct (Z.gtb_spec minorCount 3);
  cbn; repeat split; intros; try reflexivity; lia.
Qed.

(** ** Match verdict *)

Section MatchVerdict.

Variable extractTeamNumber : string -> string.

(** The status cascade of [validateMatch], read off its result. *)
Lemma validateMatch_status (eventKey matchNo : string)
    (reds blues : list ScoutingEntry) (tbaMatch : TBA.TBAMatchData)
    (cfg : ValidationConfig) (rawRed rawBlue : option (list ScoutingEntryDB)) :
  let r := validateMatch extractTeamNumber eventKey matchNo reds blues tbaMatch
                         cfg rawRed rawBlue in
  let all := discrepancies (redAlliance r) ++ discrepancies (blueAlliance r) in
  mStatus r =
    (if countSeverity critical all >=? requireReScoutThreshold cfg then failed
     else if countSeverity critical all >=? autoFlagThreshold cfg then flagged
     else if countSeverity warning all >? 2 then flagged
     else if (countSeverity warning all >? 0) || (countSeverity minor all >? 6)
          then flagged
     else passed)
  /\ criticalDiscrepancies r = countSeverity critical all
  /\ requiresReScout r = status_eqb (mStatus r) failed
  /\ flaggedForReview r
     = status_eqb (mStatus r) flagged || status_eqb (mStatus r) failed
  /\ (exists s t, redAlliance r = compareAllianceData s t cfg)
  /\ (exists s t, blueAlliance r = compareAllianceData s t cfg).
Proof.
  repeat split; try reflexivity; eexists; eexists; reflexivity.
Qed.

Lemma failed_alliance_critical (s : ScoutedAllianceData) (t : TBA.TBAAllianceData)
                               (cfg : ValidationConfig) :
  status (compareAllianceData s t cfg) = failed ->
  autoFlagThreshold cfg
  <= countSeverity critical (discrepancies (compareAllianceData s t cfg)).
Proof.
  rewrite compare_status. cbv zeta.
  destruct (Z.geb_spec
              (countSeverity critical (discrepancies (compareAllianceData s t cfg)))
              (autoFlagThreshold cfg)); [intros _; assumption|].
  repeat match goal with
         | |- context [if ?b then _ else _] => destruct b
         end; discriminate.
Qed.

(** C7.  The match status is 'failed' whenever the combined (red plus blue)
    critical count reaches requireReScoutThreshold; it is never 'passed'
    when either alliance's status is 'failed'; requiresReScout holds exactly
    for 'failed', and flaggedForReview exactly for 'flagged' and 'failed'. *)
Theorem match_status_ordering (eventKey matchNo : string)
    (reds blues : list ScoutingEntry) (tbaMatch : TBA.TBAMatchData)
    (cfg : ValidationConfig) (rawRed rawBlue : option (list ScoutingEntryDB)) :
  let r := validateMatch extractTeamNumber eventKey matchNo reds blues tbaMatch
                         cfg rawRed rawBlue in
  criticalDiscrepancies r
    = countSeverity critical (discrepancies (redAlliance r))
      + countSeverity critical (discrepancies (blueAlliance r))
  /\ (requireReScoutThreshold cfg <= criticalDiscrepancies r -> mStatus r = failed)
  /\ (status (redAlliance r) = failed \/ status (blueAlliance r) = failed ->
      mStatus r <> passed)
  /\ (requiresReScout r = true <-> mStatus r = failed)
  /\ (flaggedForReview r = true <-> mStatus r = flagged \/ mStatus r = failed).
Proof.
  intro r.
  destruct (validateMatch_status eventKey matchNo reds blues tbaMatch cfg
                                 rawRed rawBlue)
    as (Hs & Hc & Hre & Hfl & (sr & tr & Hred) & (sb & tb & Hblue)).
  fold r in Hs, Hc, Hre, Hfl, Hred, Hblue.
  rewrite countSeverity_app in Hc.
  assert (Hcc : countSeverity critical
                  (discrepancies (redAlliance r) ++ discrepancies (blueAlliance r))
                = criticalDiscrepancies r)
    by (rewrite countSeverity_app; symmetry; exact Hc).
  rewrite Hcc in Hs.
  pose proof (countSeverity_nonneg critical (discrepancies (redAlliance r))) as Hr0.
  pose proof (countSeverity_nonneg critical (discrepancies (blueAlliance r))) as Hb0.
  split; [exact Hc|]. split; [|split; [|split]].
  - intro Hge. rewrite Hs.
    destruct (Z.geb_spec (criticalDiscrepancies r) (requireReScoutThreshold cfg));
      [reflexivity | lia].
  - intros Hfailed.
    assert (Hflag : autoFlagThreshold cfg <= criticalDiscrepancies r).
    { destruct Hfailed as [Hf|Hf].
      - rewrite Hred in Hf. apply failed_alliance_critical in Hf.
        rewrite <- Hred in Hf. lia.
      - rewrite Hblue in Hf. apply failed_alliance_critical in Hf.
        rewrite <- Hblue in Hf. lia. }
    rewrite Hs.
    destruct (Z.geb_spec (criticalDiscrepancies r) (requireReScoutThreshold cfg));
      [discriminate|].
    destruct (Z.geb_spec (criticalDiscrepancies r) (autoFlagThreshold cfg));
      [discriminate | lia].
  - rewrite Hre. destruct (mStatus r); cbn; split; congruence.
  - rewrite Hfl. destruct (mStatus r); cbn; split; intro H;
      try congruence; try (now left); try (now right);
      destruct H; congruence.
Qed.

End MatchVerdict.

Ltac decide_Z := vm_compute; first [reflexivity | discriminate].

(** Official auto-L3 = 2 and cumulative teleop-L3 = 5: the teleop-only figure
    is 3, and the scouted count 1 is reported against it. *)
Lemma teleop_cumulative_subtraction_witness :
  Z.max 0 (TBA.teleopCoralL3 tbaRed10 - TBA.autoCoralL3 tbaRed10) = 3
  /\ match createDiscrepancy teleop_coral "Teleop Coral L3" 1 3 sampleConfig with
     | Some d =>
         In d (discrepancies (compareAllianceData scoutedRed10 tbaRed10 sampleConfig))
     | None => False
     end.
Proof.
  pose proof (teleop_cumulative_subtraction scoutedRed10 tbaRed10 sampleConfig) as T.
  cbv zeta in T. destruct T as (_ & Hrun & _ & _ & Hex).
  split.
  - apply Hex; reflexivity.
  - destruct (createDiscrepancy teleop_coral "Teleop Coral L3" 1 3 sampleConfig)
      as [d|] eqn:E.
    + apply Hrun; [reflexivity | right; right; left; exact E].
    + vm_compute in E. discriminate.
Defined.

Lemma alliance_status_cascade_witness :
  status (compareAllianceData scoutedRed10 tbaRed10 sampleConfig) = flagged.
Proof.
  apply (proj1 (proj2 (proj2
           (alliance_status_cascade scoutedRed10 tbaRed10 sampleConfig))));
    decide_Z.
Defined.

Lemma match_status_ordering_witness :
  let r := validateMatch stripFrc "2025test" "10" redEntries [] match10
                         strictConfig None None in
  mStatus r = failed /\ mStatus r <> passed.
Proof.
  intro r.
  pose proof (match_status_ordering stripFrc "2025test" "10" redEntries []
                                    match10 strictConfig None None) as T.
  cbv zeta in T. fold r in T. destruct T as (_ & Hfail & Hnever & _ & _).
  split.
  - apply Hfail. decide_Z.
  - apply Hnever. left. reflexivity.
Defined.

(** ** Smart merge *)

Module MergeFacts.

Import Merge.

Local Open Scope string_scope.

(** [findExistingEntry] never reads the incoming alliance. *)
Lemma findExistingEntry_incoming_alliance (d : IncomingData) (a : option string)
                                          (entries : Store) :
  findExistingEntry
    {| matchNumber := matchNumber d; selectTeam := selectTeam d;
       teamNumber := teamNumber d; alliance := a;
       eventName := eventName d; inIsCorrected := inIsCorrected d |} entries
  = findExistingEntry d entries.
Proof. reflexivity. Qed.

Lemma find_map_same {A : Type} (g : A -> A) (p : A -> bool) (l : list A) :
  (forall x, p (g x) = p x) ->
  find p (map g l) = option_map g (find p l).
Proof.
  intro Hp. induction l as [|x l IH]; cbn; [reflexivity|].
  rewrite Hp. destruct (p x); [reflexivity | exact IH].
Qed.

(** [findExistingEntry] never reads the stored alliance either: relabelling
    the alliance of every stored row relabels the row it finds. *)
Lemma findExistingEntry_stored_alliance (d : IncomingData)
      (f : ScoutingEntryDB -> option string) (entries : Store) :
  findExistingEntry d (map (fun e => withAlliance (f e) e) entries)
  = option_map (fun e => withAlliance (f e) e) (findExistingEntry d entries).
Proof.
  unfold findExistingEntry. cbv zeta.
  destruct (negb (String.eqb (stringOrEmpty (eventName d)) ""));
    apply find_map_same; reflexivity.
Qed.

(** C4.  [findExistingEntry] matches on event, match and team alone, for any
    incoming and any stored alliance.  The lookup of the auto-replace loop
    also compares the normalised alliance: for the stored row (2025test,
    10, 100, redAlliance) and the incoming entry (2025test, 10, 100,
    blueAlliance), which conflict detection files under auto-replace,
    [findExistingEntry] finds the stored row, the auto-replace lookup finds
    nothing, and the loop's delete step leaves the stored row in place. *)
Theorem auto_replace_lookup_reads_alliance :
  (forall d a entries,
      findExistingEntry
        {| matchNumber := matchNumber d; selectTeam := selectTeam d;
           teamNumber := teamNumber d; alliance := a;
           eventName := eventName d; inIsCorrected := inIsCorrected d |} entries
      = findExistingEntry d entries)
  /\ (forall d f entries,
      findExistingEntry d (map (fun e => withAlliance (f e) e) entries)
      = option_map (fun e => withAlliance (f e) e) (findExistingEntry d entries))
  /\ autoReplace (detectConflicts [localRed] [incomingBlue]) = [incomingBlue]
  /\ findExistingEntry (data incomingBlue) [localRed] = Some localRed
  /\ findExistingForReplace (data incomingBlue) [localRed] = None
  /\ findExistingForReplace (data incomingRed) [localRed] = Some localRed
  /\ (forall save, autoReplaceOne save [localRed] incomingBlue
                   = save incomingBlue [localRed])
  /\ (forall save, autoReplaceOne save [localRed] incomingRed
                   = save incomingRed []).
Proof.
  split; [exact findExistingEntry_incoming_alliance|].
  split; [exact findExistingEntry_stored_alliance|].
  repeat split; reflexivity.
Qed.

(** *** The decision matrix *)

Lemma detectConflicts_autoImport (entries : Store) (batch : list ScoutingDataWithId)
                                 (e : ScoutingDataWithId) :
  In e (autoImport (detectConflicts entries batch))
  <-> In e batch /\ classify entries e = AutoImport.
Proof.
  unfold classify. induction batch as [|x batch IH]; cbn.
  - tauto.
  - destruct (canonicalAt entries x) as [l|] eqn:Hx.
    + destruct (localCorrected l) eqn:Hl; cbn; rewrite IH; split.
      * intros [H1 H2]. split; [now right | exact H2].
      * intros [[->|H1] H2]; [rewrite Hx, Hl in H2; discriminate | now split].
      * intros [H1 H2]. split; [now right | exact H2].
      * intros [[->|H1] H2]; [rewrite Hx, Hl in H2; discriminate | now split].
    + cbn. rewrite IH. split.
      * intros [->|[H1 H2]]; [split; [now left | now rewrite Hx] | split; [now right | exact H2]].
      * intros [[->|H1] H2]; [now left | right; now split].
Qed.

Lemma detectConflicts_autoReplace (entries : Store) (batch : list ScoutingDataWithId)
                                  (e : ScoutingDataWithId) :
  In e (autoReplace (detectConflicts entries batch))
  <-> In e batch /\ classify entries e = AutoReplace.
Proof.
  unfold classify. induction batch as [|x batch IH]; cbn.
  - tauto.
  - destruct (canonicalAt entries x) as [l|] eqn:Hx.
    + destruct (localCorrected l) eqn:Hl; cbn; rewrite IH; split.
      * intros [H1 H2]. split; [now right | exact H2].
      * intros [[->|H1] H2]; [rewrite Hx, Hl in H2; discriminate | now split].
      * intros [->|[H1 H2]];
          [split; [now left | now rewrite Hx, Hl] | split; [now right | exact H2]].
      * intros [[->|H1] H2]; [now left | right; now split].
    + cbn. rewrite IH. split.
      * intros [H1 H2]. split; [now right | exact H2].
      * intros [[->|H1] H2]; [rewrite Hx in H2; discriminate | now split].
Qed.

Lemma detectConflicts_needsReview (entries : Store) (batch : list ScoutingDataWithId)
                                  (c : ConflictInfo) :
  In c (needsReview (detectConflicts entries batch))
  <-> In (incoming c) batch
      /\ canonicalAt entries (incoming c) = Some (local c)
      /\ localCorrected (local c) = true
      /\ conflictType c = (if incomingCorrected (incoming c)
                           then corrected_vs_corrected
                           else corrected_vs_uncorrected).
Proof.
  induction batch as [|x batch IH]; cbn.
  - tauto.
  - destruct (canonicalAt entries x) as [l|] eqn:Hx.
    + destruct (localCorrected l) eqn:Hl; cbn; rewrite IH; split.
      * intros [<-|(H1 & H2)]; cbn; [now repeat split; auto | split; [now right | exact H2]].
      * intros ([->|H1] & H2 & H3 & H4).
        -- left. destruct c as [cl ci ct]. cbn in *. congruence.
        -- right. now repeat split.
      * intros (H1 & H2). split; [now right | exact H2].
      * intros ([->|H1] & H2 & H3 & H4); [|now repeat split].
        rewrite Hx in H2. inversion H2; subst. congruence.
    + cbn. rewrite IH. split.
      * intros (H1 & H2). split; [now right | exact H2].
      * intros ([->|H1] & H2 & H3); [congruence | now repeat split].
Qed.

(** C3.  For an incoming record of the batch: a corrected local record at
    its key and an uncorrected incoming record give needs-review, never
    auto-replace; an uncorrected local record and a corrected incoming
    record give auto-replace; no record at the key gives auto-import. *)
Theorem merge_decision_matrix (entries : Store) (batch : list ScoutingDataWithId)
                              (e : ScoutingDataWithId) :
  In e batch ->
  let r := detectConflicts entries batch in
  (forall l, canonicalAt entries e = Some l ->
             localCorrected l = true -> incomingCorrected e = false ->
     classify entries e = NeedsReview
     /\ In {| local := l; incoming := e; conflictType := corrected_vs_uncorrected |}
           (needsReview r)
     /\ ~ In e (autoReplace r)
     /\ ~ In e (autoImport r))
  /\ (forall l, canonicalAt entries e = Some l ->
                localCorrected l = false -> incomingCorrected e = true ->
     classify entries e = AutoReplace
     /\ In e (autoReplace r)
     /\ (forall c, In c (needsReview r) -> incoming c <> e)
     /\ ~ In e (autoImport r))
  /\ (canonicalAt entries e = None ->
     classify entries e = AutoImport
     /\ In e (autoImport r)
     /\ (forall c, In c (needsReview r) -> incoming c <> e)
     /\ ~ In e (autoReplace r)).
Proof.
  intros Hin r. subst r. split; [|split].
  - intros l Hl Hc Hi.
    assert (Hcl : classify entries e = NeedsReview)
      by (unfold classify; now rewrite Hl, Hc).
    split; [exact Hcl|]. split; [|split].
    + apply detectConflicts_needsReview. cbn. rewrite Hi. now repeat split.
    + intro Hr. apply detectConflicts_autoReplace in Hr. destruct Hr as [_ Hr].
      congruence.
    + intro Hr. apply detectConflicts_autoImport in Hr. destruct Hr as [_ Hr].
      congruence.
  - intros l Hl Hc Hi.
    assert (Hcl : classify entries e = AutoReplace)
      by (unfold classify; now rewrite Hl, Hc).
    split; [exact Hcl|]. split; [|split].
    + apply detectConflicts_autoReplace. now split.
    + intros c Hr Heq. apply detectConflicts_needsReview in Hr.
      destruct Hr as (_ & Hr & Hcor & _). rewrite Heq, Hl in Hr. congruence.
    + intro Hr. apply detectConflicts_autoImport in Hr. destruct Hr as [_ Hr].
      congruence.
  - intros Hl.
    assert (Hcl : classify entries e = AutoImport)
      by (unfold classify; now rewrite Hl).
    split; [exact Hcl|]. split; [|split].
    + apply detectConflicts_autoImport. now split.
    + intros c Hr Heq. apply detectConflicts_needsReview in Hr.
      destruct Hr as (_ & Hr & _). rewrite Heq, Hl in Hr. discriminate.
    + intro Hr. apply detectConflicts_autoReplace in Hr. destruct Hr as [_ Hr].
      congruence.
Qed.

Lemma merge_decision_matrix_witness :
  let r := detectConflicts store10 batch10 in
  (In {| local := localCorrected200; incoming := incoming200;
         conflictType := corrected_vs_uncorrected |} (needsReview r)
   /\ ~ In incoming200 (autoReplace r))
  /\ In incoming100Corrected (autoReplace r)
  /\ In incoming300 (autoImport r).
Proof.
  intro r. split; [|split].
  - assert (Hin : In incoming200 batch10) by (left; reflexivity).
    pose proof (merge_decision_matrix store10 batch10 incoming200 Hin) as T.
    cbv zeta in T. destruct T as (T & _ & _).
    destruct (T localCorrected200 eq_refl eq_refl eq_refl) as (_ & H1 & H2 & _).
    split; [exact H1 | exact H2].
  - assert (Hin : In incoming100Corrected batch10) by (right; left; reflexivity).
    pose proof (merge_decision_matrix store10 batch10 incoming100Corrected Hin) as T.
    cbv zeta in T. destruct T as (_ & T & _).
    destruct (T localRed eq_refl eq_refl eq_refl) as (_ & H1 & _).
    exact H1.
  - assert (Hin : In incoming300 batch10) by (right; right; left; reflexivity).
    pose proof (merge_decision_matrix store10 batch10 incoming300 Hin) as T.
    cbv zeta in T. destruct T as (_ & _ & T).
    destruct (T eq_refl) as (_ & H1 & _).
    exact H1.
Defined.

End MergeFacts.

(* ================================================================== *)
(** * Further properties of the aggregation                             *)
(* ================================================================== *)

Lemma reduceSum_add (f g : ScoutingEntry -> Z) (es : list ScoutingEntry) :
  reduceSum (fun e => f e + g e) es = reduceSum f es + reduceSum g es.
Proof.
  induction es as [|e es IH].
  - reflexivity.
  - rewrite !reduceSum_cons, IH. lia.
Qed.

Lemma includes_In (l : list string) (t : string) :
  includes l t = true <-> In t l.
Proof.
  unfold includes. rewrite existsb_exists. split.
  - intros (x & Hx & E). apply String.eqb_eq in E. now subst.
  - intro H. exists t. split; [exact H | apply String.eqb_refl].
Qed.

Lemma filterLength_bounds (p : ScoutingEntry -> bool) (es : list ScoutingEntry) :
  0 <= filterLength p es <= Z.of_nat (List.length es).
Proof.
  unfold filterLength. pose proof (filter_length_le p es). lia.
Qed.

(** X1.  In the display-path statistics every compound total is the sum of
    its parts, for any entry list (the empty list included): the period
    totals are the sums of the four levels, each combined level is auto plus
    teleop, and the grand totals are the sums of the period totals. *)
Theorem display_totals_consistent (es : list ScoutingEntry) :
  let st := Display.calculateAllianceStats es in
  Display.autoCoralTotal st
    = Display.autoCoralL1 st + Display.autoCoralL2 st
      + Display.autoCoralL3 st + Display.autoCoralL4 st
  /\ Display.teleopCoralTotal st
    = Display.teleopCoralL1 st + Display.teleopCoralL2 st
      + Display.teleopCoralL3 st + Display.teleopCoralL4 st
  /\ Display.totalCoralL1 st = Display.autoCoralL1 st + Display.teleopCoralL1 st
  /\ Display.totalCoralL2 st = Display.autoCoralL2 st + Display.teleopCoralL2 st
  /\ Display.totalCoralL3 st = Display.autoCoralL3 st + Display.teleopCoralL3 st
  /\ Display.totalCoralL4 st = Display.autoCoralL4 st + Display.teleopCoralL4 st
  /\ Display.totalCoral st = Display.autoCoralTotal st + Display.teleopCoralTotal st
  /\ Display.autoAlgaeTotal st
    = Display.autoAlgaeNet st + Display.autoAlgaeProcessor st
  /\ Display.teleopAlgaeTotal st
    = Display.teleopAlgaeNet st + Display.teleopAlgaeProcessor st
  /\ Display.totalAlgaeNet st = Display.autoAlgaeNet st + Display.teleopAlgaeNet st
  /\ Display.totalAlgaeProcessor st
    = Display.autoAlgaeProcessor st + Display.teleopAlgaeProcessor st
  /\ Display.totalAlgae st = Display.autoAlgaeTotal st + Display.teleopAlgaeTotal st.
Proof.
  destruct es as [|e0 es]; [cbn; repeat split|].
  set (l := e0 :: es). cbn -[reduceSum].
  repeat split; repeat rewrite reduceSum_add; lia.
Qed.

Lemma endgame_cover (es : list ScoutingEntry) :
  Z.of_nat (List.length es)
  <= filterLength deepClimbAttempted es + filterLength shallowClimbAttempted es
     + filterLength parkAttempted es
     + filterLength (fun e => negb (deepClimbAttempted e)
                              && negb (shallowClimbAttempted e)
                              && negb (parkAttempted e)) es.
Proof.
  induction es as [|e es IH].
  - cbn. lia.
  - rewrite !filterLength_cons. cbn [List.length]. rewrite Nat2Z.inj_succ.
    unfold oneIf.
    destruct (deepClimbAttempted e), (shallowClimbAttempted e), (parkAttempted e);
      cbn [negb andb]; lia.
Qed.

(** X2.  In the display-path statistics every endgame count lies between 0
    and the number of entries, and the four endgame counts together cover
    every entry: deep + shallow + parks + noEndgame is at least the number
    of entries (more when an entry carries two endgame flags). *)
Theorem display_endgame_bounds (es : list ScoutingEntry) :
  let st := Display.calculateAllianceStats es in
  let n := Z.of_nat (List.length es) in
  0 <= Display.deepClimbs st <= n
  /\ 0 <= Display.shallowClimbs st <= n
  /\ 0 <= Display.parks st <= n
  /\ 0 <= Display.noEndgame st <= n
  /\ 0 <= Display.climbFailures st <= n
  /\ n <= Display.deepClimbs st + Display.shallowClimbs st
          + Display.parks st + Display.noEndgame st.
Proof.
  destruct es as [|e0 es]; [cbn; lia|].
  set (l := e0 :: es). cbn -[filterLength List.length].
  pose proof (endgame_cover l).
  repeat split; try apply filterLength_bounds; assumption.
Qed.

(** X3.  The comparison-path aggregate and the display-path statistics of
    the same entries agree on every coral and algae count and period total,
    on mobility, parks, climb failures, breakdowns and defence; they differ
    only on climbs, where the display count exceeds the comparison count by
    the number of attempted climbs that failed. *)
Theorem aggregators_agree (es : list ScoutingEntry) (color : AllianceColor)
                          (matchNo event : string) (expected : list string) :
  let a := aggregateScoutedAllianceData es color matchNo event expected in
  let st := Display.calculateAllianceStats es in
  (autoCoralL1 a = Display.autoCoralL1 st /\ autoCoralL2 a = Display.autoCoralL2 st
   /\ autoCoralL3 a = Display.autoCoralL3 st /\ autoCoralL4 a = Display.autoCoralL4 st
   /\ autoCoralTotal a = Display.autoCoralTotal st)
  /\ (teleopCoralL1 a = Display.teleopCoralL1 st
      /\ teleopCoralL2 a = Display.teleopCoralL2 st
      /\ teleopCoralL3 a = Display.teleopCoralL3 st
      /\ teleopCoralL4 a = Display.teleopCoralL4 st
      /\ teleopCoralTotal a = Display.teleopCoralTotal st)
  /\ (autoAlgaeNet a = Display.autoAlgaeNet st
      /\ autoAlgaeProcessor a = Display.autoAlgaeProcessor st
      /\ autoAlgaeTotal a = Display.autoAlgaeTotal st
      /\ teleopAlgaeNet a = Display.teleopAlgaeNet st
      /\ teleopAlgaeProcessor a = Display.teleopAlgaeProcessor st
      /\ teleopAlgaeTotal a = Display.teleopAlgaeTotal st)
  /\ (autoMobility a = Display.teamsPassedStartLine st
      /\ parks a = Display.parks st
      /\ climbFails a = Display.climbFailures st
      /\ sBrokeDown a = Display.breakdowns st
      /\ sPlayedDefense a = Display.defensePlayedCount st)
  /\ Display.deepClimbs st
     = deepClimbs a
       + filterLength (fun e => deepClimbAttempted e && climbFailed e) es
  /\ Display.shallowClimbs st
     = shallowClimbs a
       + filterLength (fun e => shallowClimbAttempted e && climbFailed e) es.
Proof.
  destruct es as [|e0 es]; [cbn; repeat split|].
  set (l := e0 :: es).
  cbn -[reduceSum filterLength].
  repeat rewrite reduceSum_oneIf. repeat rewrite reduceSum_add.
  assert (Hsplit : forall p,
             filterLength p l
             = filterLength (fun e => p e && negb (climbFailed e)) l
               + filterLength (fun e => p e && climbFailed e) l).
  { intro p. clearbody l. induction l as [|e l IH].
    - reflexivity.
    - rewrite !filterLength_cons, IH. unfold oneIf.
      destruct (p e), (climbFailed e); cbn [negb andb]; lia. }
  repeat split; try reflexivity; try lia; apply Hsplit.
Qed.

(** X4.  A team is reported missing by the comparison-path aggregate exactly
    when it is expected and no scouted entry names it; the list is empty
    exactly when every expected team was scouted; the count of scouted
    teams is the number of entries. *)
Theorem missing_teams_spec (es : list ScoutingEntry) (color : AllianceColor)
                           (matchNo event : string) (expected : list string) :
  let a := aggregateScoutedAllianceData es color matchNo event expected in
  (forall t, In t (missingTeams a)
             <-> In t expected /\ ~ In t (map selectTeam es))
  /\ (missingTeams a = [] <-> forall t, In t expected -> In t (map selectTeam es))
  /\ sTeams a = map selectTeam es
  /\ scoutedTeamsCount a = Z.of_nat (List.length es).
Proof.
  cbn.
  assert (Hin : forall t,
             In t (filter (fun t => negb (includes (map selectTeam es) t)) expected)
             <-> In t expected /\ ~ In t (map selectTeam es)).
  { intro t. rewrite filter_In, negb_true_iff.
    split; intros [H1 H2]; split; try assumption.
    - intro H. apply includes_In in H. congruence.
    - destruct (includes (map selectTeam es) t) eqn:E; [|reflexivity].
      apply includes_In in E. contradiction. }
  split; [exact Hin|]. split; [|split; reflexivity].
  split.
  - intros Hnil t Ht.
    destruct (in_dec string_dec t (map selectTeam es)) as [H|H]; [exact H|].
    assert (Hm : In t (filter (fun t => negb (includes (map selectTeam es) t))
                              expected)) by (apply Hin; now split).
    rewrite Hnil in Hm. destruct Hm.
  - intro Hall.
    destruct (filter (fun t => negb (includes (map selectTeam es) t)) expected)
      as [|t rest] eqn:E; [reflexivity|].
    destruct (proj1 (Hin t) (or_introl eq_refl)) as [H1 H2].
    exfalso. apply H2, Hall, H1.
Qed.

(** X5.  Match aggregation takes, for each alliance, exactly the entries of
    the requested match and event whose alliance text, lower-cased, contains
    the colour name; an entry of another match or event changes nothing; an
    alliance is complete exactly when it has three entries; its missing-team
    list is always empty. *)
Theorem aggregateMatchData_entries (matchNo event : string)
                                   (allEntries : list ScoutingEntry) :
  let r := MatchData.aggregateMatchData matchNo event allEntries in
  (forall e, In e (MatchData.entries (MatchData.redAlliance r))
             <-> In e allEntries /\ matchNumber e = matchNo /\ eventName e = event
                 /\ stringIncludes "red" (Merge.toLowerCase (alliance e)) = true)
  /\ (forall e, In e (MatchData.entries (MatchData.blueAlliance r))
             <-> In e allEntries /\ matchNumber e = matchNo /\ eventName e = event
                 /\ stringIncludes "blue" (Merge.toLowerCase (alliance e)) = true)
  /\ (forall other, matchNumber other <> matchNo \/ eventName other <> event ->
        MatchData.aggregateMatchData matchNo event (other :: allEntries) = r)
  /\ (MatchData.isComplete (MatchData.redAlliance r) = true
      <-> List.length (MatchData.entries (MatchData.redAlliance r)) = 3%nat)
  /\ (MatchData.isComplete (MatchData.blueAlliance r) = true
      <-> List.length (MatchData.entries (MatchData.blueAlliance r)) = 3%nat)
  /\ MatchData.missingTeams (MatchData.redAlliance r) = []
  /\ MatchData.missingTeams (MatchData.blueAlliance r) = [].
Proof.
  cbn -[stringIncludes Merge.toLowerCase].
  assert (Hf : forall colour e,
             In e (filter (fun e => stringIncludes colour (Merge.toLowerCase (alliance e)))
                     (filter (fun e => String.eqb (matchNumber e) matchNo
                                       && String.eqb (eventName e) event) allEntries))
             <-> In e allEntries /\ matchNumber e = matchNo /\ eventName e = event
                 /\ stringIncludes colour (Merge.toLowerCase (alliance e)) = true).
  { intros colour e. rewrite !filter_In, andb_true_iff, !String.eqb_eq. tauto. }
  split; [apply Hf|]. split; [apply Hf|]. split.
  - intros other Hother. unfold MatchData.aggregateMatchData. cbn [filter].
    assert (E : (String.eqb (matchNumber other) matchNo
                 && String.eqb (eventName other) event)%bool = false).
    { apply andb_false_iff. destruct Hother as [H|H]; [left | right];
        apply String.eqb_neq; exact H. }
    rewrite E. reflexivity.
  - repeat split; try reflexivity; try apply Nat.eqb_eq.
Qed.

(** X6.  After match aggregation, an expected red (blue) team is reported
    missing exactly when it is the empty string or no red (blue) entry of
    the match names it. *)
Theorem findMissingTeams_spec (matchNo event : string)
    (allEntries : list ScoutingEntry) (expectedRed expectedBlue : list string) :
  let r := MatchData.aggregateMatchData matchNo event allEntries in
  let missing := MatchData.findMissingTeams r expectedRed expectedBlue in
  (forall t, In t (fst missing)
             <-> In t expectedRed
                 /\ (t = ""%string
                     \/ ~ In t (map selectTeam
                                    (MatchData.entries (MatchData.redAlliance r)))))
  /\ (forall t, In t (snd missing)
             <-> In t expectedBlue
                 /\ (t = ""%string
                     \/ ~ In t (map selectTeam
                                    (MatchData.entries (MatchData.blueAlliance r))))).
Proof.
  assert (Hgen : forall (es : list ScoutingEntry) (expected : list string) t,
             In t (filter (fun team =>
                             negb (includes
                                     (MatchData.teams (MatchData.buildAllianceData es))
                                     team)) expected)
             <-> In t expected
                 /\ (t = ""%string \/ ~ In t (map selectTeam es))).
  { intros es expected t. unfold MatchData.buildAllianceData.
    cbn [MatchData.teams]. rewrite filter_In, negb_true_iff.
    split; intros [H1 H2]; split; try assumption.
    - destruct (string_dec t "") as [E|E]; [now left | right].
      intro Hin.
      assert (Hinc : includes (filter (fun t0 => negb (String.eqb t0 ""))
                                      (map selectTeam es)) t = true).
      { apply includes_In. apply filter_In. split; [exact Hin|].
        apply negb_true_iff, String.eqb_neq. exact E. }
      congruence.
    - destruct (includes _ t) eqn:E; [|reflexivity].
      apply includes_In in E. apply filter_In in E. destruct E as [E1 E2].
      apply negb_true_iff, String.eqb_neq in E2.
      destruct H2 as [H2|H2]; [contradiction | contradiction]. }
  cbv zeta. split; intro t; apply Hgen.
Qed.

(* ================================================================== *)
(** * Further properties of the extraction and the comparison           *)
(* ================================================================== *)

Ltac origin_case H :=
  apply createDiscrepancy_fields in H;
  destruct H as (Hc & Hf & Hs & Ht & Hd & Hn).

Lemma extract_teams (extractTeamNumber : string -> string)
                    (tbaMatch : TBA.TBAMatchData) (color : AllianceColor) :
  TBA.teams (extractTBAAllianceData extractTeamNumber tbaMatch color)
  = map extractTeamNumber (TBA.team_keys (TBA.alliances tbaMatch color)).
Proof.
  unfold extractTBAAllianceData. cbv zeta.
  destruct (match TBA.score_breakdown tbaMatch with
            | Some sb => sb color
            | None => None
            end); reflexivity.
Qed.

(** X7.  When the payload carries no breakdown for the alliance, extraction
    keeps the roster and the final score and zeroes every count and point
    subtotal; a comparison against it then has an official point total of
    0, a score percentage of 0, and sets every scouted count against 0. *)
Theorem extract_without_breakdown (extractTeamNumber : string -> string)
    (tbaMatch : TBA.TBAMatchData) (color : AllianceColor) :
  match TBA.score_breakdown tbaMatch with
  | Some sb => sb color
  | None => None
  end = None ->
  let t := extractTBAAllianceData extractTeamNumber tbaMatch color in
  TBA.totalPoints t = TBA.score (TBA.alliances tbaMatch color)
  /\ TBA.teams t = map extractTeamNumber (TBA.team_keys (TBA.alliances tbaMatch color))
  /\ (TBA.autoCoralTotal t = 0 /\ TBA.teleopCoralTotal t = 0 /\ TBA.algaeTotal t = 0
      /\ TBA.mobilityCount t = 0 /\ TBA.deepClimbs t = 0
      /\ TBA.shallowClimbs t = 0 /\ TBA.parks t = 0)
  /\ forall (s : ScoutedAllianceData) (cfg : ValidationConfig),
       totalTBAPoints (compareAllianceData s t cfg) = 0
       /\ scorePercentDiff (compareAllianceData s t cfg) == 0
       /\ forall d, In d (discrepancies (compareAllianceData s t cfg)) ->
                    tbaValue d = 0.
Proof.
  intros Hnone t. subst t. unfold extractTBAAllianceData. cbv zeta.
  rewrite Hnone.
  split; [reflexivity|]. split; [reflexivity|]. split; [repeat split|].
  intros s cfg. split; [reflexivity|]. split; [reflexivity|].
  intros d Hin.
  unfold compareAllianceData in Hin. cbv zeta in Hin. cbn [discrepancies] in Hin.
  destruct (checkAutoScoring cfg), (checkTeleopScoring cfg), (checkEndgame cfg);
    split_pushes Hin; origin_case Hin; rewrite Ht; reflexivity.
Qed.

Lemma extract_without_breakdown_witness :
  TBA.totalPoints (extractTBAAllianceData stripFrc match10 blue) = 30
  /\ TBA.teams (extractTBAAllianceData stripFrc match10 blue)
     = ["400"; "500"; "600"]%string.
Proof.
  pose proof (extract_without_breakdown stripFrc match10 blue eq_refl) as T.
  cbv zeta in T. destruct T as (Hp & Ht & _).
  split; [exact Hp | exact Ht].
Defined.

Lemma endgame_state_once (s : string) :
  oneIf (String.eqb s "DeepCage") + oneIf (String.eqb s "ShallowCage")
  + oneIf (String.eqb s "Parked") <= 1.
Proof.
  destruct (String.eqb_spec s "DeepCage") as [->|_]; [cbn; lia|].
  destruct (String.eqb_spec s "ShallowCage") as [->|_]; [cbn; lia|].
  destruct (String.eqb s "Parked"); cbn; lia.
Qed.

Lemma count3 (p : string -> bool) (a b c : string) :
  Z.of_nat (List.length (filter p [a; b; c])) = oneIf (p a) + oneIf (p b) + oneIf (p c).
Proof.
  cbn. destruct (p a), (p b), (p c); reflexivity.
Qed.

(** X8.  For every payload the extracted mobility count lies between 0 and
    3, the endgame counts are non-negative and add up to at most 3 (each
    robot is counted in at most one of deep, shallow, park), and the algae
    total is the net count plus the processor count. *)
Theorem extract_count_bounds (extractTeamNumber : string -> string)
    (tbaMatch : TBA.TBAMatchData) (color : AllianceColor) :
  let t := extractTBAAllianceData extractTeamNumber tbaMatch color in
  0 <= TBA.mobilityCount t <= 3
  /\ 0 <= TBA.deepClimbs t /\ 0 <= TBA.shallowClimbs t /\ 0 <= TBA.parks t
  /\ TBA.deepClimbs t + TBA.shallowClimbs t + TBA.parks t <= 3
  /\ TBA.algaeTotal t = TBA.algaeNet t + TBA.algaeProcessor t.
Proof.
  unfold extractTBAAllianceData. cbv zeta.
  destruct (match TBA.score_breakdown tbaMatch with
            | Some sb => sb color
            | None => None
            end) as [b|]; [|cbn; lia].
  cbn [TBA.mobilityCount TBA.deepClimbs TBA.shallowClimbs TBA.parks
       TBA.algaeTotal TBA.algaeNet TBA.algaeProcessor].
  rewrite !count3.
  pose proof (endgame_state_once (TBA.endGameRobot1 b)).
  pose proof (endgame_state_once (TBA.endGameRobot2 b)).
  pose proof (endgame_state_once (TBA.endGameRobot3 b)).
  cbn [fold_left]. unfold oneIf in *.
  destruct (String.eqb (TBA.autoLineRobot1 b) "Yes"),
           (String.eqb (TBA.autoLineRobot2 b) "Yes"),
           (String.eqb (TBA.autoLineRobot3 b) "Yes");
  destruct (String.eqb (TBA.endGameRobot1 b) "DeepCage"),
           (String.eqb (TBA.endGameRobot1 b) "ShallowCage"),
           (String.eqb (TBA.endGameRobot1 b) "Parked"),
           (String.eqb (TBA.endGameRobot2 b) "DeepCage"),
           (String.eqb (TBA.endGameRobot2 b) "ShallowCage"),
           (String.eqb (TBA.endGameRobot2 b) "Parked"),
           (String.eqb (TBA.endGameRobot3 b) "DeepCage"),
           (String.eqb (TBA.endGameRobot3 b) "ShallowCage"),
           (String.eqb (TBA.endGameRobot3 b) "Parked"); lia.
Qed.

(** X9.  Swapping the scouted and the official value never changes the
    severity of a comparison: the classification depends on the size of the
    difference, not on which side is larger. *)
Theorem discrepancy_symmetric (cat : DataCategory) (f f' : string) (s o : Z)
                              (cfg : ValidationConfig) :
  severityOf (createDiscrepancy cat f s o cfg)
  = severityOf (createDiscrepancy cat f' o s cfg).
Proof.
  destruct (severityOf_createDiscrepancy cat f s o cfg) as [p1 ->].
  destruct (severityOf_createDiscrepancy cat f' o s cfg) as [p2 ->].
  replace (Z.abs (o - s)) with (Z.abs (s - o)) by lia.
  apply calculateSeverity_ignores_percent.
Qed.

(** X10.  A comparison reports nothing exactly when the absolute difference
    is below all three absolute thresholds of its category; in particular
    equal values are never reported when those thresholds are positive. *)
Theorem silent_comparison (cat : DataCategory) (f : string) (s o : Z)
                          (cfg : ValidationConfig) :
  let t := thresholdsFor cfg (Some cat) in
  let d := inject_Z (Z.abs (s - o)) in
  (createDiscrepancy cat f s o cfg = None
   <-> (d < criticalAbsolute t /\ d < warningAbsolute t /\ d < minorAbsolute t)%Q)
  /\ ((0 < criticalAbsolute t /\ 0 < warningAbsolute t /\ 0 < minorAbsolute t)%Q ->
      createDiscrepancy cat f s s cfg = None).
Proof.
  intros t d.
  assert (Hiff : forall s0 o0,
             createDiscrepancy cat f s0 o0 cfg = None
             <-> (inject_Z (Z.abs (s0 - o0)) < criticalAbsolute t
                  /\ inject_Z (Z.abs (s0 - o0)) < warningAbsolute t
                  /\ inject_Z (Z.abs (s0 - o0)) < minorAbsolute t)%Q).
  { intros s0 o0.
    destruct (severityOf_createDiscrepancy cat f s0 o0 cfg) as [p Hp].
    rewrite calculateSeverity_absolute in Hp. cbv zeta in Hp. fold t in Hp.
    rewrite <- !Qgeb_false.
    destruct (createDiscrepancy cat f s0 o0 cfg) as [x|] eqn:E.
    - apply createDiscrepancy_fields in E. destruct E as (_ & _ & _ & _ & _ & Hn).
      cbn [severityOf] in Hp. split; [discriminate|]. intros (H1 & H2 & H3).
      rewrite H1, H2, H3 in Hp. contradiction.
    - cbn [severityOf] in Hp. split; [|reflexivity]. intros _.
      destruct (Qgeb _ (criticalAbsolute t)); [discriminate|].
      destruct (Qgeb _ (warningAbsolute t)); [discriminate|].
      destruct (Qgeb _ (minorAbsolute t)); [discriminate|]. now repeat split. }
  split; [apply Hiff|].
  intros (H1 & H2 & H3). apply Hiff.
  replace (s - s) with 0 by lia. cbn. now repeat split.
Qed.

Lemma push_length_le (ds : list Discrepancy) (o : option Discrepancy) :
  (List.length (push ds o) <= S (List.length ds))%nat.
Proof.
  destruct o; cbn; [rewrite length_app; cbn|]; lia.
Qed.

Lemma countSeverity_total (ds : list Discrepancy) :
  (forall d, In d ds -> severity d <> none) ->
  countSeverity critical ds + countSeverity warning ds + countSeverity minor ds
  = Z.of_nat (List.length ds).
Proof.
  unfold countSeverity. induction ds as [|d ds IH]; intro Hall.
  - reflexivity.
  - assert (Hd : severity d <> none) by (apply Hall; now left).
    assert (IH' := IH (fun x Hx => Hall x (or_intror Hx))).
    cbn [filter List.length].
    destruct (severity d); try contradiction; cbn [severity_eqb List.length]; lia.
Qed.

Lemma compare_none_free (s : ScoutedAllianceData) (t : TBA.TBAAllianceData)
                        (cfg : ValidationConfig) (d : Discrepancy) :
  In d (discrepancies (compareAllianceData s t cfg)) ->
  severity d <> none /\ difference d = Z.abs (scoutedValue d - tbaValue d).
Proof.
  intro Hin.
  unfold compareAllianceData in Hin. cbv zeta in Hin. cbn [discrepancies] in Hin.
  destruct (checkAutoScoring cfg), (checkTeleopScoring cfg), (checkEndgame cfg);
    split_pushes Hin; origin_case Hin; (split; [exact Hn | congruence]).
Qed.

Lemma reported_discrepancies_total (s : ScoutedAllianceData)
    (t : TBA.TBAAllianceData) (cfg : ValidationConfig) :
  countSeverity critical (discrepancies (compareAllianceData s t cfg))
  + countSeverity warning (discrepancies (compareAllianceData s t cfg))
  + countSeverity minor (discrepancies (compareAllianceData s t cfg))
  = Z.of_nat (List.length (discrepancies (compareAllianceData s t cfg))).
Proof.
  apply countSeverity_total. intros d Hin.
  now apply (compare_none_free s t cfg).
Qed.

Ltac bound_pushes :=
  repeat match goal with
         | |- context [List.length (push ?ds ?o)] =>
             generalize (push_length_le ds o);
             generalize (List.length (push ds o))
         end.

Lemma compare_length_bound (s : ScoutedAllianceData) (t : TBA.TBAAllianceData)
                           (cfg : ValidationConfig) :
  (List.length (discrepancies (compareAllianceData s t cfg)) <= 17)%nat.
Proof.
  unfold compareAllianceData. cbv zeta. cbn [discrepancies].
  destruct (checkAutoScoring cfg), (checkTeleopScoring cfg), (checkEndgame cfg);
    bound_pushes; cbn [List.length]; intros; lia.
Qed.

(** X11.  A comparison reports at most 17 discrepancies; none of them has
    severity 'none', each carries the absolute difference of its two
    values, and the critical, warning and minor counts add up to the length
    of the list. *)
Theorem reported_discrepancies (s : ScoutedAllianceData) (t : TBA.TBAAllianceData)
                               (cfg : ValidationConfig) :
  let ds := discrepancies (compareAllianceData s t cfg) in
  (List.length ds <= 17)%nat
  /\ (forall d, In d ds ->
        severity d <> none /\ difference d = Z.abs (scoutedValue d - tbaValue d))
  /\ countSeverity critical ds + countSeverity warning ds + countSeverity minor ds
     = Z.of_nat (List.length ds).
Proof.
  intro ds. split; [|split].
  - apply compare_length_bound.
  - intros d Hin. now apply (compare_none_free s t cfg).
  - apply reported_discrepancies_total.
Qed.

Ltac category_case H Hcat :=
  apply createDiscrepancy_fields in H;
  destruct H as (Hc & _); congruence.

(** X12.  A switched-off check reports nothing of its category: no
    auto-coral discrepancy without checkAutoScoring, no teleop-coral one
    without checkTeleopScoring, no endgame one without checkEndgame.  The
    algae and mobility comparisons have no switch: whatever the flags, each
    of their four comparisons that finds a discrepancy reports it. *)
Theorem disabled_checks (s : ScoutedAllianceData) (t : TBA.TBAAllianceData)
                        (cfg : ValidationConfig) :
  let ds := discrepancies (compareAllianceData s t cfg) in
  (checkAutoScoring cfg = false -> forall d, In d ds -> category d <> auto_coral)
  /\ (checkTeleopScoring cfg = false ->
      forall d, In d ds -> category d <> teleop_coral)
  /\ (checkEndgame cfg = false -> forall d, In d ds -> category d <> endgame)
  /\ (forall d,
        createDiscrepancy algae "Total Algae Net"
          (autoAlgaeNet s + teleopAlgaeNet s) (TBA.algaeNet t) cfg = Some d
        \/ createDiscrepancy algae "Total Algae Processor"
          (autoAlgaeProcessor s + teleopAlgaeProcessor s)
          (TBA.algaeProcessor t) cfg = Some d
        \/ createDiscrepancy algae "Total Algae"
          (autoAlgaeNet s + teleopAlgaeNet s
           + (autoAlgaeProcessor s + teleopAlgaeProcessor s))
          (TBA.algaeTotal t) cfg = Some d
        \/ createDiscrepancy mobility "Mobility Count"
          (autoMobility s) (TBA.mobilityCount t) cfg = Some d ->
        In d ds).
Proof.
  intro ds. subst ds.
  unfold compareAllianceData. cbv zeta. cbn [discrepancies].
  split; [|split; [|split; [|]]].
  - intros Hoff d Hin Hcat. rewrite Hoff in Hin.
    destruct (checkTeleopScoring cfg), (checkEndgame cfg);
      split_pushes Hin; category_case Hin Hcat.
  - intros Hoff d Hin Hcat. rewrite Hoff in Hin.
    destruct (checkAutoScoring cfg), (checkEndgame cfg);
      split_pushes Hin; category_case Hin Hcat.
  - intros Hoff d Hin Hcat. rewrite Hoff in Hin.
    destruct (checkAutoScoring cfg), (checkTeleopScoring cfg);
      split_pushes Hin; category_case Hin Hcat.
  - intros d Hd.
    destruct (checkAutoScoring cfg), (checkTeleopScoring cfg), (checkEndgame cfg);
      destruct Hd as [Hd|[Hd|[Hd|Hd]]]; reach_push Hd.
Qed.

(* ================================================================== *)
(** * Further properties of the verdicts                                *)
(* ================================================================== *)

(** X13.  A threshold of zero (or less) fails everything: with
    autoFlagThreshold <= 0 every alliance comparison ends 'failed', and with
    requireReScoutThreshold <= 0 every match ends 'failed', discrepancies or
    not. *)
Theorem nonpositive_thresholds_fail (cfg : ValidationConfig) :
  (autoFlagThreshold cfg <= 0 ->
   forall s t, status (compareAllianceData s t cfg) = failed)
  /\ (requireReScoutThreshold cfg <= 0 ->
      forall extractTeamNumber eventKey matchNo reds blues tbaMatch rawRed rawBlue,
        mStatus (validateMatch extractTeamNumber eventKey matchNo reds blues
                               tbaMatch cfg rawRed rawBlue) = failed).
Proof.
  split.
  - intros Hz s t. rewrite compare_status. cbv zeta.
    pose proof (countSeverity_nonneg critical
                  (discrepancies (compareAllianceData s t cfg))).
    destruct (Z.geb_spec
                (countSeverity critical (discrepancies (compareAllianceData s t cfg)))
                (autoFlagThreshold cfg)); [reflexivity | lia].
  - intros Hz ex ev m reds blues tba rr rb.
    destruct (validateMatch_status ex ev m reds blues tba cfg rr rb) as (Hs & _).
    rewrite Hs.
    match goal with
    | |- context [countSeverity critical ?l >=? _] =>
        pose proof (countSeverity_nonneg critical l);
        destruct (Z.geb_spec (countSeverity critical l)
                             (requireReScoutThreshold cfg)); [reflexivity | lia]
    end.
Qed.

(** X14.  A comparison that finds no discrepancy passes whenever
    autoFlagThreshold is positive; its confidence is high when no expected
    team is missing and low otherwise. *)
Theorem clean_comparison (s : ScoutedAllianceData) (t : TBA.TBAAllianceData)
                         (cfg : ValidationConfig) :
  discrepancies (compareAllianceData s t cfg) = [] ->
  0 < autoFlagThreshold cfg ->
  status (compareAllianceData s t cfg) = passed
  /\ (missingTeams s = [] -> confidence (compareAllianceData s t cfg) = high)
  /\ (missingTeams s <> [] -> confidence (compareAllianceData s t cfg) = low).
Proof.
  intros Hnil Hpos. split.
  - rewrite compare_status. cbv zeta. rewrite Hnil. cbn.
    destruct (Z.geb_spec 0 (autoFlagThreshold cfg)); [lia | reflexivity].
  - assert (Hc : confidence (compareAllianceData s t cfg)
                 = if Z.of_nat (List.length (missingTeams s)) >? 0 then low
                   else if countSeverity critical
                             (discrepancies (compareAllianceData s t cfg)) >? 0
                        then low
                   else if countSeverity warning
                             (discrepancies (compareAllianceData s t cfg)) >? 2
                        then medium
                   else high) by reflexivity.
    rewrite Hc, Hnil. split.
    + intros ->. reflexivity.
    + intro Hne. destruct (missingTeams s); [contradiction | reflexivity].
Qed.

Lemma clean_comparison_witness :
  let s := aggregateScoutedAllianceData [] red "11" "2025test"
             (TBA.teams (extractTBAAllianceData stripFrc match11 red)) in
  let v := compareAllianceData s (extractTBAAllianceData stripFrc match11 red)
                               sampleConfig in
  status v = passed /\ confidence v = low.
Proof.
  intros s v.
  destruct (clean_comparison s (extractTBAAllianceData stripFrc match11 red)
                             sampleConfig eq_refl eq_refl) as (Hs & _ & Hl).
  split; [exact Hs | apply Hl; discriminate].
Defined.

(** X15.  The alliance confidence is low when an expected team is missing
    or any discrepancy is critical, otherwise medium with more than two
    warnings, otherwise high; a failed alliance has low confidence whenever
    autoFlagThreshold is positive. *)
Theorem alliance_confidence_cascade
    (s : ScoutedAllianceData) (t : TBA.TBAAllianceData) (cfg : ValidationConfig) :
  let v := compareAllianceData s t cfg in
  let criticalCount := countSeverity critical (discrepancies v) in
  let warningCount := countSeverity warning (discrepancies v) in
  (missingTeams s <> [] -> confidence v = low)
  /\ (0 < criticalCount -> confidence v = low)
  /\ (missingTeams s = [] -> criticalCount <= 0 -> 2 < warningCount ->
      confidence v = medium)
  /\ (missingTeams s = [] -> criticalCount <= 0 -> warningCount <= 2 ->
      confidence v = high)
  /\ (0 < autoFlagThreshold cfg -> status v = failed -> confidence v = low).
Proof.
  intros v criticalCount warningCount.
  assert (Hc : confidence v
               = if Z.of_nat (List.length (missingTeams s)) >? 0 then low
                 else if criticalCount >? 0 then low
                 else if warningCount >? 2 then medium
                 else high) by reflexivity.
  assert (Hf : status v = failed -> autoFlagThreshold cfg <= criticalCount)
    by apply failed_alliance_critical.
  rewrite Hc. clearbody criticalCount warningCount v.
  destruct (missingTeams s) as [|m ms]; cbn [List.length];
    destruct (Z.gtb_spec criticalCount 0); destruct (Z.gtb_spec warningCount 2);
    repeat split; intros; try reflexivity; try congruence; try lia;
    try (specialize (Hf ltac:(assumption)); lia).
Qed.

Section MatchFacts.

Variable extractTeamNumber : string -> string.

Variables (eventKey matchNo : string) (reds blues : list ScoutingEntry)
          (tbaMatch : TBA.TBAMatchData) (cfg : ValidationConfig)
          (rawRed rawBlue : option (list ScoutingEntryDB)).

Let r := validateMatch extractTeamNumber eventKey matchNo reds blues tbaMatch
                       cfg rawRed rawBlue.

(** X16.  The match confidence is the worse of the two alliance
    confidences: low when either is low, high only when both are high,
    medium otherwise. *)
Theorem match_confidence_worst :
  (mConfidence r = low
   <-> confidence (redAlliance r) = low \/ confidence (blueAlliance r) = low)
  /\ (mConfidence r = high
      <-> confidence (redAlliance r) = high /\ confidence (blueAlliance r) = high)
  /\ (mConfidence r = medium
      <-> confidence (redAlliance r) <> low /\ confidence (blueAlliance r) <> low
          /\ (confidence (redAlliance r) = medium
              \/ confidence (blueAlliance r) = medium)).
Proof.
  assert (Hm : mConfidence r
               = if confidence_eqb (confidence (redAlliance r)) low
                    || confidence_eqb (confidence (blueAlliance r)) low then low
                 else if confidence_eqb (confidence (redAlliance r)) medium
                         || confidence_eqb (confidence (blueAlliance r)) medium
                      then medium
                 else high) by reflexivity.
  rewrite Hm.
  destruct (confidence (redAlliance r)), (confidence (blueAlliance r)); cbn;
    repeat split; intros; try congruence; try tauto;
    try (now left); try (now right);
    repeat match goal with
           | H : _ \/ _ |- _ => destruct H
           | H : _ /\ _ |- _ => destruct H
           end; congruence.
Qed.

Lemma match_counts :
  totalDiscrepancies r
    = Z.of_nat (List.length (discrepancies (redAlliance r)))
      + Z.of_nat (List.length (discrepancies (blueAlliance r)))
  /\ criticalDiscrepancies r
    = countSeverity critical (discrepancies (redAlliance r))
      + countSeverity critical (discrepancies (blueAlliance r))
  /\ warningDiscrepancies r
    = countSeverity warning (discrepancies (redAlliance r))
      + countSeverity warning (discrepancies (blueAlliance r))
  /\ totalDiscrepancies r - criticalDiscrepancies r - warningDiscrepancies r
    = countSeverity minor (discrepancies (redAlliance r))
      + countSeverity minor (discrepancies (blueAlliance r)).
Proof.
  assert (Ht : totalDiscrepancies r
               = Z.of_nat (List.length (discrepancies (redAlliance r)
                                        ++ discrepancies (blueAlliance r))))
    by reflexivity.
  assert (Hc : criticalDiscrepancies r
               = countSeverity critical (discrepancies (redAlliance r)
                                         ++ discrepancies (blueAlliance r)))
    by reflexivity.
  assert (Hw : warningDiscrepancies r
               = countSeverity warning (discrepancies (redAlliance r)
                                        ++ discrepancies (blueAlliance r)))
    by reflexivity.
  rewrite length_app, Nat2Z.inj_add in Ht. rewrite countSeverity_app in Hc, Hw.
  assert (Hr : countSeverity critical (discrepancies (redAlliance r))
               + countSeverity warning (discrepancies (redAlliance r))
               + countSeverity minor (discrepancies (redAlliance r))
               = Z.of_nat (List.length (discrepancies (redAlliance r))))
    by apply reported_discrepancies_total.
  assert (Hb : countSeverity critical (discrepancies (blueAlliance r))
               + countSeverity warning (discrepancies (blueAlliance r))
               + countSeverity minor (discrepancies (blueAlliance r))
               = Z.of_nat (List.length (discrepancies (blueAlliance r))))
    by apply reported_discrepancies_total.
  repeat split; try assumption. lia.
Qed.

End MatchFacts.

Lemma find_existsb {A : Type} (p : A -> bool) (l : list A) :
  existsb p l = match find p l with Some _ => true | None => false end.
Proof.
  induction l as [|x l IH]; cbn; [reflexivity|].
  destruct (p x); [reflexivity | exact IH].
Qed.

Lemma teamValidation_facts (color : AllianceColor) (es : list ScoutingEntry)
      (raw : option (list ScoutingEntryDB)) (v : AllianceValidation) (team : string) :
  let tv := teamValidation color es raw v team in
  tvTeamNumber tv = team /\ tvAlliance tv = color
  /\ (hasScoutedData tv = true <-> In team (map selectTeam es))
  /\ (hasScoutedData tv = false ->
      tvConfidence tv = low /\ flagForReview tv = true
      /\ notes tv = ["No scouted data for this team"%string]
      /\ tvScoutName tv = "Unknown"%string /\ scoringBreakdown tv = None)
  /\ (hasScoutedData tv = true ->
      tvConfidence tv = confidence v /\ notes tv = []
      /\ (flagForReview tv = true <-> status v = flagged)
      /\ scoringBreakdown tv <> None).
Proof.
  unfold teamValidation. cbv zeta.
  cbn [tvTeamNumber tvAlliance hasScoutedData tvConfidence flagForReview notes
       tvScoutName scoringBreakdown].
  pose proof (find_existsb (fun e => String.eqb (selectTeam e) team) es) as Hfe.
  split; [reflexivity|]. split; [reflexivity|]. split; [|split].
  - rewrite existsb_exists, in_map_iff. split.
    + intros (e & He & E). apply String.eqb_eq in E. now exists e.
    + intros (e & E & He). exists e. split; [exact He|].
      apply String.eqb_eq. exact E.
  - intro Hno. rewrite Hno in *.
    destruct (find (fun e => String.eqb (selectTeam e) team) es);
      [discriminate|]. now repeat split.
  - intro Hyes. rewrite Hyes in *.
    destruct (find (fun e => String.eqb (selectTeam e) team) es);
      [|discriminate].
    split; [reflexivity|]. split; [reflexivity|]. split; [|discriminate].
    cbn [negb orb]. destruct (status v); cbn; split; congruence.
Qed.

Section TeamFacts.

Variable extractTeamNumber : string -> string.

Variables (eventKey matchNo : string) (reds blues : list ScoutingEntry)
          (tbaMatch : TBA.TBAMatchData) (cfg : ValidationConfig)
          (rawRed rawBlue : option (list ScoutingEntryDB)).

Let r := validateMatch extractTeamNumber eventKey matchNo reds blues tbaMatch
                       cfg rawRed rawBlue.

(** X17.  The per-team list names the official roster, red then blue, one
    entry per team key.  A team without a scouted entry gets confidence
    low, the review flag, scout name "Unknown" and the note "No scouted
    data for this team"; a team with a scouted entry inherits its alliance's
    confidence and is flagged for review exactly when its alliance's status
    is 'flagged' (so not when the alliance is 'failed'). *)
Theorem team_validations :
  map tvTeamNumber (mTeams r)
  = map extractTeamNumber (TBA.team_keys (TBA.alliances tbaMatch red))
    ++ map extractTeamNumber (TBA.team_keys (TBA.alliances tbaMatch blue))
  /\ forall tv, In tv (mTeams r) ->
       let v := match tvAlliance tv with
                | red => redAlliance r
                | blue => blueAlliance r
                end in
       let scouted := match tvAlliance tv with
                      | red => reds
                      | blue => blues
                      end in
       (hasScoutedData tv = true <-> In (tvTeamNumber tv) (map selectTeam scouted))
       /\ (hasScoutedData tv = false ->
           tvConfidence tv = low /\ flagForReview tv = true
           /\ notes tv = ["No scouted data for this team"%string]
           /\ tvScoutName tv = "Unknown"%string /\ scoringBreakdown tv = None)
       /\ (hasScoutedData tv = true ->
           tvConfidence tv = confidence v /\ notes tv = []
           /\ (flagForReview tv = true <-> status v = flagged)).
Proof.
  assert (Hteams :
            mTeams r
            = map (teamValidation red reds rawRed (redAlliance r))
                  (TBA.teams (extractTBAAllianceData extractTeamNumber tbaMatch red))
              ++ map (teamValidation blue blues rawBlue (blueAlliance r))
                     (TBA.teams (extractTBAAllianceData extractTeamNumber
                                                        tbaMatch blue)))
    by reflexivity.
  rewrite Hteams. clearbody r. split.
  - rewrite map_app, !map_map, <- !extract_teams. f_equal; apply map_id.
  - intros tv Hin. apply in_app_or in Hin.
    destruct Hin as [Hin|Hin]; apply in_map_iff in Hin;
      destruct Hin as (team & <- & _);
      match goal with
      | |- context [teamValidation ?c ?es ?raw ?v team] =>
          destruct (teamValidation_facts c es raw v team)
            as (Hn & Ha & Hd & Hno & Hyes)
      end;
      cbv zeta in *; rewrite Ha, Hn;
      (split; [exact Hd|]; split; [exact Hno|];
       intro Hy; destruct (Hyes Hy) as (H1 & H2 & H3 & _);
       split; [exact H1|]; split; [exact H2 | exact H3]).
Qed.

(** X18.  The match totals are the sums over the two alliances: total,
    critical and warning counts add up, and the remainder total - critical
    - warning is exactly the number of minor discrepancies, which is never
    negative. *)
Theorem match_discrepancy_totals :
  totalDiscrepancies r
    = Z.of_nat (List.length (discrepancies (redAlliance r)))
      + Z.of_nat (List.length (discrepancies (blueAlliance r)))
  /\ warningDiscrepancies r
    = countSeverity warning (discrepancies (redAlliance r))
      + countSeverity warning (discrepancies (blueAlliance r))
  /\ totalDiscrepancies r - criticalDiscrepancies r - warningDiscrepancies r
    = countSeverity minor (discrepancies (redAlliance r))
      + countSeverity minor (discrepancies (blueAlliance r))
  /\ 0 <= totalDiscrepancies r - criticalDiscrepancies r - warningDiscrepancies r
  /\ (totalDiscrepancies r <= 34).
Proof.
  destruct (match_counts extractTeamNumber eventKey matchNo reds blues tbaMatch
                         cfg rawRed rawBlue) as (Ht & Hc & Hw & Hm).
  fold r in Ht, Hc, Hw, Hm.
  pose proof (countSeverity_nonneg minor (discrepancies (redAlliance r))).
  pose proof (countSeverity_nonneg minor (discrepancies (blueAlliance r))).
  assert (Hr : (List.length (discrepancies (redAlliance r)) <= 17)%nat)
    by apply compare_length_bound.
  assert (Hb : (List.length (discrepancies (blueAlliance r)) <= 17)%nat)
    by apply compare_length_bound.
  repeat split; try assumption; lia.
Qed.

(** X19.  A match can pass while one of its alliances is flagged: when the
    combined critical count is positive but below both autoFlagThreshold and
    requireReScoutThreshold, there is no warning and there are at most six
    minors, the match status is 'passed' although an alliance holding a
    critical discrepancy has status 'flagged'. *)
Theorem passed_match_flagged_alliance :
  0 < criticalDiscrepancies r ->
  criticalDiscrepancies r < autoFlagThreshold cfg ->
  criticalDiscrepancies r < requireReScoutThreshold cfg ->
  warningDiscrepancies r = 0 ->
  totalDiscrepancies r - criticalDiscrepancies r - warningDiscrepancies r <= 6 ->
  mStatus r = passed
  /\ (status (redAlliance r) = flagged \/ status (blueAlliance r) = flagged).
Proof.
  intros Hpos Hflag Hre Hwarn Hminor.
  destruct (match_counts extractTeamNumber eventKey matchNo reds blues tbaMatch
                         cfg rawRed rawBlue) as (Ht & Hc & Hw & Hm).
  fold r in Ht, Hc, Hw, Hm.
  destruct (validateMatch_status extractTeamNumber eventKey matchNo reds blues
                                 tbaMatch cfg rawRed rawBlue)
    as (Hs & _ & _ & _ & (sr & tr & Hred) & (sb & tb & Hblue)).
  fold r in Hs, Hred, Hblue.
  rewrite !countSeverity_app in Hs. rewrite <- Hc, <- Hw, <- Hm in Hs.
  pose proof (countSeverity_nonneg critical (discrepancies (redAlliance r))) as Hr0.
  pose proof (countSeverity_nonneg critical (discrepancies (blueAlliance r))) as Hb0.
  split.
  - rewrite Hs.
    destruct (Z.geb_spec (criticalDiscrepancies r) (requireReScoutThreshold cfg));
      [lia|].
    destruct (Z.geb_spec (criticalDiscrepancies r) (autoFlagThreshold cfg)); [lia|].
    rewrite Hwarn.
    change (0 >? 2) with false. change (0 >? 0) with false. cbn [orb].
    destruct (Z.gtb_spec
                (totalDiscrepancies r - criticalDiscrepancies r - 0) 6);
      [lia | reflexivity].
  - assert (Hside : 0 < countSeverity critical (discrepancies (redAlliance r))
                    \/ 0 < countSeverity critical (discrepancies (blueAlliance r)))
      by lia.
    destruct Hside as [Hside|Hside]; [left; rewrite Hred in * | right; rewrite Hblue in *];
      rewrite compare_status; cbv zeta;
      match goal with
      | |- context [countSeverity critical ?l >=? _] =>
          destruct (Z.geb_spec (countSeverity critical l) (autoFlagThreshold cfg));
            [lia|];
          (destruct (Z.gtb_spec (countSeverity critical l) 0); [reflexivity | lia])
      end.
Qed.

End TeamFacts.

Lemma passed_match_flagged_alliance_witness :
  let r := validateMatch stripFrc "2025test" "11" [] blueEntries11 match11
                         twoOffConfig None None in
  mStatus r = passed /\ status (blueAlliance r) = flagged.
Proof.
  intro r.
  destruct (passed_match_flagged_alliance stripFrc "2025test" "11" []
              blueEntries11 match11 twoOffConfig None None
              eq_refl eq_refl eq_refl eq_refl) as (Hp & Hf).
  - vm_compute. discriminate.
  - split; [exact Hp|]. destruct Hf as [Hf|Hf]; [|exact Hf].
    vm_compute in Hf. discriminate.
Defined.

(* ================================================================== *)
(** * Game constants and test data                                      *)
(* ================================================================== *)

(** X20.  Algae points do not depend on the period, so the algae part of
    the estimated scouted score equals [calculateAlgaePoints] on the
    combined (auto plus teleop) net and processor counts, which are the
    counts the official feed publishes. *)
Theorem algae_points_period_independent :
  (forall net processor,
      GameConstants2025.calculateAlgaePoints net processor true
      = GameConstants2025.calculateAlgaePoints net processor false)
  /\ (forall (s : ScoutedAllianceData) (isAuto : bool),
        scoutedAutoAlgaePoints s + scoutedTeleopAlgaePoints s
        = GameConstants2025.calculateAlgaePoints
            (autoAlgaeNet s + teleopAlgaeNet s)
            (autoAlgaeProcessor s + teleopAlgaeProcessor s) isAuto)
  /\ (forall (s : ScoutedAllianceData) (t : TBA.TBAAllianceData)
             (cfg : ValidationConfig),
        autoAlgaePts (calcScouted (compareAllianceData s t cfg))
        + teleopAlgaePts (calcScouted (compareAllianceData s t cfg))
        = GameConstants2025.calculateAlgaePoints
            (autoAlgaeNet s + teleopAlgaeNet s)
            (autoAlgaeProcessor s + teleopAlgaeProcessor s) false).
Proof.
  split; [reflexivity|]. split.
  - intros s isAuto.
    unfold scoutedAutoAlgaePoints, scoutedTeleopAlgaePoints,
      GameConstants2025.calculateAlgaePoints.
    destruct isAuto; cbn; lia.
  - intros s t cfg. cbn [calcScouted compareAllianceData autoAlgaePts teleopAlgaePts].
    unfold scoutedAutoAlgaePoints, scoutedTeleopAlgaePoints,
      GameConstants2025.calculateAlgaePoints. cbn. lia.
Qed.

(** X21.  For a non-negative total the three shares of [distributeCount]
    add up to the total, are non-negative, never increase with the team
    index and differ by at most one. *)
Theorem distributeCount_shares (total : Z) :
  0 <= total ->
  TestData.distributeCount total 0 + TestData.distributeCount total 1
  + TestData.distributeCount total 2 = total
  /\ 0 <= TestData.distributeCount total 2
  /\ TestData.distributeCount total 2 <= TestData.distributeCount total 1
  /\ TestData.distributeCount total 1 <= TestData.distributeCount total 0
  /\ TestData.distributeCount total 0 <= TestData.distributeCount total 2 + 1.
Proof.
  intro Hpos. unfold TestData.distributeCount.
  destruct (Z.eqb_spec total 0) as [->|Hne]; [cbn; lia|].
  cbv zeta. rewrite Z.rem_mod_nonneg by lia.
  pose proof (Z.div_mod total 3 ltac:(lia)) as Hdm.
  pose proof (Z.mod_pos_bound total 3 ltac:(lia)) as Hb.
  pose proof (Z.div_pos total 3 Hpos ltac:(lia)) as Hd.
  destruct (Z.ltb_spec 0 (total mod 3)); destruct (Z.ltb_spec 1 (total mod 3));
    destruct (Z.ltb_spec 2 (total mod 3)); lia.
Qed.

Lemma distributeCount_shares_witness :
  TestData.distributeCount 7 0 + TestData.distributeCount 7 1
  + TestData.distributeCount 7 2 = 7.
Proof.
  apply (distributeCount_shares 7). discriminate.
Defined.

(* ================================================================== *)
(** * Further properties of the merge lookups                           *)
(* ================================================================== *)

Module LookupFacts.

Import Merge.

Local Open Scope string_scope.

(** X22.  A row returned by [findExistingEntry] is a row of the table with
    the incoming match and team (and event, when the incoming entry names
    one); the lookup fails exactly when no row of the table matches; on an
    empty table it always fails. *)
Theorem findExistingEntry_sound_complete (d : IncomingData) (entries : Store) :
  let m := stringOrEmpty (matchNumber d) in
  let team := stringOrElse (selectTeam d) (teamNumber d) in
  let ev := stringOrEmpty (eventName d) in
  (forall e, findExistingEntry d entries = Some e ->
             In e entries /\ dbMatchNumber e = m /\ dbTeamNumber e = team
             /\ (ev <> "" -> dbEventName e = ev))
  /\ (findExistingEntry d entries = None
      <-> forall e, In e entries ->
                    ~ (dbMatchNumber e = m /\ dbTeamNumber e = team
                       /\ (ev <> "" -> dbEventName e = ev)))
  /\ findExistingEntry d [] = None.
Proof.
  intros m team ev. unfold findExistingEntry. cbv zeta. fold m team ev.
  destruct (String.eqb_spec ev "") as [Hev|Hev]; cbn [negb].
  - split; [|split; [|reflexivity]].
    + intros e Hf. apply find_some in Hf. destruct Hf as [Hin Hp].
      apply andb_true_iff in Hp. destruct Hp as [H1 H2].
      apply String.eqb_eq in H1, H2. repeat split; try assumption.
      intro; contradiction.
    + split.
      * intros Hn e Hin (H1 & H2 & _).
        pose proof (find_none _ _ Hn e Hin) as Hp. cbn in Hp.
        rewrite H1, H2, !String.eqb_refl in Hp. discriminate.
      * intro Hall.
        destruct (find _ entries) as [e|] eqn:Hf; [|reflexivity].
        apply find_some in Hf. destruct Hf as [Hin Hp].
        apply andb_true_iff in Hp. destruct Hp as [H1 H2].
        apply String.eqb_eq in H1, H2.
        exfalso. apply (Hall e Hin). repeat split; try assumption.
        intro; contradiction.
  - split; [|split; [|reflexivity]].
    + intros e Hf. apply find_some in Hf. destruct Hf as [Hin Hp].
      apply andb_true_iff in Hp. destruct Hp as [Hp H3].
      apply andb_true_iff in Hp. destruct Hp as [H1 H2].
      apply String.eqb_eq in H1, H2, H3. now repeat split.
    + split.
      * intros Hn e Hin (H1 & H2 & H3).
        pose proof (find_none _ _ Hn e Hin) as Hp. cbn in Hp.
        rewrite H1, H2, (H3 Hev), !String.eqb_refl in Hp. discriminate.
      * intro Hall.
        destruct (find _ entries) as [e|] eqn:Hf; [|reflexivity].
        apply find_some in Hf. destruct Hf as [Hin Hp].
        apply andb_true_iff in Hp. destruct Hp as [Hp H3].
        apply andb_true_iff in Hp. destruct Hp as [H1 H2].
        apply String.eqb_eq in H1, H2, H3.
        exfalso. apply (Hall e Hin). now repeat split.
Qed.

Lemma find_weaken {A : Type} (p q : A -> bool) (l : list A) (x : A) :
  (forall y, p y = true -> q y = true) ->
  find p l = Some x -> find q l <> None.
Proof.
  intros Hpq Hf. apply find_some in Hf. destruct Hf as [Hin Hp].
  intro Hn. pose proof (find_none _ _ Hn x Hin) as Hq.
  rewrite (Hpq x Hp) in Hq. discriminate.
Qed.

(** X23.  The auto-replace lookup is stricter than [findExistingEntry]: a
    row it returns is a row of the table with the incoming match, team and
    event and the same normalised alliance, and then [findExistingEntry]
    finds a row too; it never returns a row that has no alliance. *)
Theorem replace_lookup_stricter (d : IncomingData) (entries : Store)
                                (e : ScoutingEntryDB) :
  findExistingForReplace d entries = Some e ->
  In e entries
  /\ dbMatchNumber e = stringOrEmpty (matchNumber d)
  /\ dbTeamNumber e = stringOrElse (selectTeam d) (teamNumber d)
  /\ dbEventName e = stringOrEmpty (eventName d)
  /\ (exists a, dbAlliance e = Some a
                /\ normalizeAlliance a
                   = normalizeAlliance (stringOrEmpty (alliance d)))
  /\ findExistingEntry d entries <> None.
Proof.
  intro Hf. unfold findExistingForReplace in Hf. cbv zeta in Hf.
  assert (Hweak : findExistingEntry d entries <> None).
  { unfold findExistingEntry. cbv zeta.
    destruct (negb (String.eqb (stringOrEmpty (eventName d)) ""));
      (eapply find_weaken; [|exact Hf]);
      intros y Hy; cbn beta in Hy |- *;
      apply andb_true_iff in Hy; destruct Hy as [Hy H4];
      apply andb_true_iff in Hy; destruct Hy as [Hy _];
      apply andb_true_iff in Hy; destruct Hy as [H1 H2];
      rewrite H1, H2, ?H4; reflexivity. }
  apply find_some in Hf. destruct Hf as [Hin Hp].
  apply andb_true_iff in Hp. destruct Hp as [Hp H4].
  apply andb_true_iff in Hp. destruct Hp as [Hp H3].
  apply andb_true_iff in Hp. destruct Hp as [H1 H2].
  apply String.eqb_eq in H1, H2, H4.
  repeat split; try assumption.
  destruct (dbAlliance e) as [a|]; [|discriminate].
  exists a. split; [reflexivity|]. now apply String.eqb_eq.
Qed.

Lemma replace_lookup_stricter_witness :
  findExistingEntry (data incomingRed) [localRed] <> None.
Proof.
  apply (replace_lookup_stricter (data incomingRed) [localRed] localRed eq_refl).
Defined.

Lemma delete_In (key : string) (entries : Store) (x : ScoutingEntryDB) :
  In x (delete key entries) <-> In x entries /\ dbId x <> key.
Proof.
  unfold delete. rewrite filter_In, negb_true_iff. split; intros [H1 H2];
    (split; [exact H1|]); now apply String.eqb_neq.
Qed.

(** X24.  When the auto-replace lookup finds a row, the table handed to the
    save step holds exactly the rows whose id differs from the found row's
    id: the found row (and every row sharing its id) is gone and every other
    row is kept. *)
Theorem autoReplaceOne_deletes
    (save : ScoutingDataWithId -> Store -> Store)
    (db : Store) (entry : ScoutingDataWithId) (e : ScoutingEntryDB) :
  findExistingForReplace (data entry) db = Some e ->
  exists db',
    autoReplaceOne save db entry = save entry db'
    /\ (forall x, In x db' <-> In x db /\ dbId x <> dbId e)
    /\ ~ In e db'
    /\ (List.length db' < List.length db)%nat.
Proof.
  intro Hf. exists (delete (dbId e) db).
  unfold autoReplaceOne. cbv zeta. rewrite Hf.
  split; [reflexivity|]. split; [intro x; apply delete_In|]. split.
  - intro Hin. apply delete_In in Hin. destruct Hin as [_ Hne]. now apply Hne.
  - apply find_some in Hf. destruct Hf as [Hin _].
    unfold delete. clear -Hin. induction db as [|x db IH]; [destruct Hin|].
    cbn. destruct Hin as [->|Hin].
    + rewrite String.eqb_refl. cbn.
      pose proof (filter_length_le (fun e0 => negb (String.eqb (dbId e0) (dbId e))) db).
      lia.
    + specialize (IH Hin).
      destruct (negb (String.eqb (dbId x) (dbId e))); cbn; lia.
Qed.

Lemma autoReplaceOne_deletes_witness :
  exists db',
    autoReplaceOne (fun _ db => db) [localRed; localCorrected200] incomingRed = db'
    /\ ~ In localRed db'.
Proof.
  destruct (autoReplaceOne_deletes (fun _ db => db) [localRed; localCorrected200]
                                   incomingRed localRed eq_refl)
    as (db' & Heq & _ & Hnot & _).
  exists db'. split; [exact Heq | exact Hnot].
Defined.

End LookupFacts.

(* ================================================================== *)
(** * Applying decisions, fetching and summarising                      *)
(* ================================================================== *)

Section ResolutionFacts.

Variable save : Merge.ScoutingDataWithId -> Merge.Store -> Merge.Store.
Variable resolutions : string -> option Resolution.Decision.

(** Whether the decision recorded for a conflict is 'replace'. *)
Let replaces (c : Merge.ConflictInfo) : bool :=
  match resolutions (Resolution.conflictKey c) with
  | Some Resolution.Replace => true
  | _ => false
  end.

Lemma resolutions_fold (conflicts : list Merge.ConflictInfo)
                       (db : Merge.Store) (rep skip : Z) :
  let out :=
    fold_left
      (fun (state : Merge.Store * (Z * Z)) conflict =>
         let '(db, (replaced, skipped)) := state in
         match resolutions (Resolution.conflictKey conflict) with
         | Some Resolution.Replace =>
             (save (Merge.incoming conflict)
                   (Merge.delete (dbId (Merge.local conflict)) db),
              (replaced + 1, skipped))
         | _ => (db, (replaced, skipped + 1))
         end) conflicts (db, (rep, skip)) in
  fst (snd out) = rep + Z.of_nat (List.length (filter replaces conflicts))
  /\ snd (snd out)
     = skip + Z.of_nat (List.length conflicts)
       - Z.of_nat (List.length (filter replaces conflicts))
  /\ ((forall c, In c conflicts -> replaces c = false) -> fst out = db).
Proof.
  revert db rep skip. induction conflicts as [|c cs IH]; intros db rep skip.
  - cbn. repeat split; lia.
  - cbn [fold_left filter List.length]. cbv zeta in IH |- *.
    destruct (resolutions (Resolution.conflictKey c)) as [[|]|] eqn:E.
    + assert (Hc : replaces c = true) by (unfold replaces; now rewrite E).
      rewrite Hc.
      destruct (IH (save (Merge.incoming c)
                         (Merge.delete (dbId (Merge.local c)) db))
                   (rep + 1) skip) as (H1 & H2 & _).
      rewrite H1, H2. cbn [List.length]. split; [lia|]. split; [lia|].
      intro Hall. specialize (Hall c (or_introl eq_refl)). congruence.
    + assert (Hc : replaces c = false) by (unfold replaces; now rewrite E).
      rewrite Hc.
      destruct (IH db rep (skip + 1)) as (H1 & H2 & H3).
      rewrite H1, H2. split; [lia|]. split; [lia|].
      intro Hall. apply H3. intros c' Hc'. apply Hall. now right.
    + assert (Hc : replaces c = false) by (unfold replaces; now rewrite E).
      rewrite Hc.
      destruct (IH db rep (skip + 1)) as (H1 & H2 & H3).
      rewrite H1, H2. split; [lia|]. split; [lia|].
      intro Hall. apply H3. intros c' Hc'. apply Hall. now right.
Qed.

(** X25.  Applying the user's decisions counts every conflict once: the
    replaced count is the number of conflicts whose key is decided
    'replace', everything else (decided 'skip' or not decided at all) is
    counted as skipped, and the two counts add up to the number of
    conflicts.  When no conflict is decided 'replace' the table is left
    untouched. *)
Theorem applyConflictResolutions_counts (conflicts : list Merge.ConflictInfo)
                                        (db : Merge.Store) :
  let out := Resolution.applyConflictResolutions save conflicts resolutions db in
  let replaced := fst (snd out) in
  let skipped := snd (snd out) in
  replaced = Z.of_nat (List.length (filter replaces conflicts))
  /\ replaced + skipped = Z.of_nat (List.length conflicts)
  /\ 0 <= replaced /\ 0 <= skipped
  /\ ((forall c, In c conflicts ->
                 resolutions (Resolution.conflictKey c) <> Some Resolution.Replace) ->
      fst out = db /\ replaced = 0).
Proof.
  intros out replaced skipped.
  destruct (resolutions_fold conflicts db 0 0) as (H1 & H2 & H3).
  cbv zeta in H1, H2, H3.
  change (fold_left _ conflicts (db, (0, 0))) with out in H1, H2, H3.
  fold replaced in H1. fold skipped in H2.
  pose proof (filter_length_le replaces conflicts) as Hle.
  split; [lia|]. split; [lia|]. split; [lia|]. split; [lia|].
  intro Hall.
  assert (Hno : forall c, In c conflicts -> replaces c = false).
  { intros c Hc. specialize (Hall c Hc). unfold replaces.
    destruct (resolutions (Resolution.conflictKey c)) as [[|]|];
      [contradiction | reflexivity | reflexivity]. }
  split; [apply H3, Hno|].
  rewrite H1. clear -Hno. induction conflicts as [|c cs IH]; [reflexivity|].
  cbn [filter]. rewrite (Hno c (or_introl eq_refl)).
  apply IH. intros c' Hc'. apply Hno. now right.
Qed.

End ResolutionFacts.

Section FetchFacts.

Variable parsedData : ScoutingEntryDB -> ScoutingEntry.

Let isRed (entry : ScoutingEntryDB) : bool :=
  String.eqb (alliance (parsedData entry)) "redAlliance"
  || String.eqb (alliance (parsedData entry)) "red".

Let isBlue (entry : ScoutingEntryDB) : bool :=
  negb (isRed entry)
  && (String.eqb (alliance (parsedData entry)) "blueAlliance"
      || String.eqb (alliance (parsedData entry)) "blue").

Lemma fetch_fold (entries : list ScoutingEntryDB) (acc : Hook.ScoutedMatchData) :
  let out :=
    fold_left
      (fun acc entry =>
         let parsed := parsedData entry in
         if String.eqb (alliance parsed) "redAlliance"
            || String.eqb (alliance parsed) "red" then
           {| Hook.fRed := Hook.fRed acc ++ [parsed]; Hook.fBlue := Hook.fBlue acc;
              Hook.fRedRaw := Hook.fRedRaw acc ++ [entry];
              Hook.fBlueRaw := Hook.fBlueRaw acc |}
         else if String.eqb (alliance parsed) "blueAlliance"
                 || String.eqb (alliance parsed) "blue" then
           {| Hook.fRed := Hook.fRed acc; Hook.fBlue := Hook.fBlue acc ++ [parsed];
              Hook.fRedRaw := Hook.fRedRaw acc;
              Hook.fBlueRaw := Hook.fBlueRaw acc ++ [entry] |}
         else acc) entries acc in
  Hook.fRedRaw out = Hook.fRedRaw acc ++ filter isRed entries
  /\ Hook.fBlueRaw out = Hook.fBlueRaw acc ++ filter isBlue entries
  /\ Hook.fRed out = Hook.fRed acc ++ map parsedData (filter isRed entries)
  /\ Hook.fBlue out = Hook.fBlue acc ++ map parsedData (filter isBlue entries).
Proof.
  revert acc. induction entries as [|x xs IH]; intro acc.
  - cbn. rewrite !app_nil_r. now repeat split.
  - cbn [fold_left filter]. cbv zeta in IH |- *.
    destruct (String.eqb (alliance (parsedData x)) "redAlliance"
              || String.eqb (alliance (parsedData x)) "red") eqn:Er.
    + assert (HR : isRed x = true) by exact Er.
      assert (HB : isBlue x = false) by (unfold isBlue; now rewrite HR).
      rewrite HR, HB.
      destruct (IH {| Hook.fRed := Hook.fRed acc ++ [parsedData x];
                      Hook.fBlue := Hook.fBlue acc;
                      Hook.fRedRaw := Hook.fRedRaw acc ++ [x];
                      Hook.fBlueRaw := Hook.fBlueRaw acc |}) as (H1 & H2 & H3 & H4).
      rewrite H1, H2, H3, H4.
      cbn [Hook.fRed Hook.fBlue Hook.fRedRaw Hook.fBlueRaw map].
      rewrite <- !app_assoc. now repeat split.
    + assert (HR : isRed x = false) by exact Er.
      destruct (String.eqb (alliance (parsedData x)) "blueAlliance"
                || String.eqb (alliance (parsedData x)) "blue") eqn:Eb.
      * assert (HB : isBlue x = true) by (unfold isBlue; now rewrite HR, Eb).
        rewrite HR, HB.
        destruct (IH {| Hook.fRed := Hook.fRed acc;
                        Hook.fBlue := Hook.fBlue acc ++ [parsedData x];
                        Hook.fRedRaw := Hook.fRedRaw acc;
                        Hook.fBlueRaw := Hook.fBlueRaw acc ++ [x] |})
          as (H1 & H2 & H3 & H4).
        rewrite H1, H2, H3, H4.
        cbn [Hook.fRed Hook.fBlue Hook.fRedRaw Hook.fBlueRaw map].
        rewrite <- !app_assoc. now repeat split.
      * assert (HB : isBlue x = false) by (unfold isBlue; now rewrite HR, Eb).
        rewrite HR, HB. apply IH.
Qed.

(** X26.  Fetching the scouted data of a match keeps the parsed and the raw
    lists aligned (the i-th parsed entry is the parse of the i-th raw row,
    for either colour); a row is fetched as red exactly when it is a row of
    the event and match whose parsed alliance is "redAlliance" or "red", as
    blue exactly for "blueAlliance" or "blue"; no row is fetched under both
    colours, and a row with any other alliance text is dropped. *)
Theorem fetch_alignment (table : list ScoutingEntryDB) (eventKey matchNo : string) :
  let f := Hook.fetchScoutedMatchData parsedData table eventKey matchNo in
  map parsedData (Hook.fRedRaw f) = Hook.fRed f
  /\ map parsedData (Hook.fBlueRaw f) = Hook.fBlue f
  /\ (forall e, In e (Hook.fRedRaw f)
                <-> In e table /\ dbEventName e = eventKey
                    /\ dbMatchNumber e = matchNo
                    /\ (alliance (parsedData e) = "redAlliance"%string
                        \/ alliance (parsedData e) = "red"%string))
  /\ (forall e, In e (Hook.fBlueRaw f)
                <-> In e table /\ dbEventName e = eventKey
                    /\ dbMatchNumber e = matchNo
                    /\ (alliance (parsedData e) = "blueAlliance"%string
                        \/ alliance (parsedData e) = "blue"%string))
  /\ (forall e, In e (Hook.fRedRaw f) -> ~ In e (Hook.fBlueRaw f)).
Proof.
  intro f. subst f. unfold Hook.fetchScoutedMatchData. cbv zeta.
  set (rows := filter _ table).
  assert (Hrows : forall e, In e rows
                            <-> In e table /\ dbEventName e = eventKey
                                /\ dbMatchNumber e = matchNo).
  { intro e. unfold rows. rewrite filter_In, andb_true_iff, !String.eqb_eq. tauto. }
  destruct (fetch_fold rows {| Hook.fRed := []; Hook.fBlue := [];
                               Hook.fRedRaw := []; Hook.fBlueRaw := [] |})
    as (H1 & H2 & H3 & H4).
  cbv zeta in H1, H2, H3, H4. cbn [Hook.fRed Hook.fBlue Hook.fRedRaw Hook.fBlueRaw
                                   app] in H1, H2, H3, H4.
  rewrite H1, H2, H3, H4. clear H1 H2 H3 H4.
  assert (Hred : forall e, isRed e = true
                           <-> alliance (parsedData e) = "redAlliance"%string
                               \/ alliance (parsedData e) = "red"%string).
  { intro e. unfold isRed. rewrite orb_true_iff, !String.eqb_eq. tauto. }
  assert (Hblue : forall e, isBlue e = true
                            <-> alliance (parsedData e) = "blueAlliance"%string
                                \/ alliance (parsedData e) = "blue"%string).
  { intro e. unfold isBlue. rewrite andb_true_iff, negb_true_iff, orb_true_iff,
      !String.eqb_eq.
    split; [tauto|]. intro Hb. split; [|exact Hb].
    destruct (isRed e) eqn:Er; [|reflexivity].
    apply Hred in Er. destruct Hb as [Hb|Hb], Er as [Er|Er];
      rewrite Hb in Er; discriminate. }
  split; [reflexivity|]. split; [reflexivity|]. split; [|split].
  - intro e. rewrite filter_In, Hrows, Hred. tauto.
  - intro e. rewrite filter_In, Hrows, Hblue. tauto.
  - intros e Hr Hb. apply filter_In in Hr, Hb.
    destruct Hr as [_ Hr], Hb as [_ Hb]. unfold isBlue in Hb.
    rewrite Hr in Hb. discriminate.
Qed.

End FetchFacts.

(** ** The event summary *)

(** How many results carry a status. *)
Lemma status_count_fold (k : string) (results : list MatchValidationResult)
                        (acc : string -> option Z) :
  Hook.orZero
    (fold_left (fun acc r => Hook.bump acc (Hook.statusName (mStatus r)))
               results acc k)
  = Hook.orZero (acc k)
    + Z.of_nat (List.length
                  (filter (fun r => String.eqb k (Hook.statusName (mStatus r)))
                          results)).
Proof.
  revert acc. induction results as [|r rs IH]; intro acc.
  - cbn. lia.
  - cbn [fold_left filter]. rewrite IH. unfold Hook.bump at 1.
    destruct (String.eqb_spec k (Hook.statusName (mStatus r))) as [->|_];
      cbn [List.length Hook.orZero]; lia.
Qed.

Lemma status_filter (s : ValidationStatus) (results : list MatchValidationResult) :
  filter (fun r => String.eqb (Hook.statusName s) (Hook.statusName (mStatus r)))
         results
  = filter (fun r => status_eqb (mStatus r) s) results.
Proof.
  apply filter_ext. intro r. destruct s, (mStatus r); reflexivity.
Qed.

Lemma status_partition (results : list MatchValidationResult) :
  (List.length (filter (fun r => status_eqb (mStatus r) passed) results)
   + List.length (filter (fun r => status_eqb (mStatus r) flagged) results)
   + List.length (filter (fun r => status_eqb (mStatus r) failed) results)
   = List.length results)%nat.
Proof.
  induction results as [|r rs IH]; [reflexivity|].
  cbn [filter]. destruct (mStatus r); cbn [status_eqb List.length]; lia.
Qed.

(** X27.  In the event summary the passed, flagged and failed counts are
    the numbers of results with that status and add up to the total, which
    is also reported as the validated count; the pending and no-TBA-data
    counts are 0 for results carrying the validator's three statuses. *)
Theorem summary_partition (results : list MatchValidationResult) (eventKey : string) :
  let sm := Hook.calculateSummary results eventKey in
  let count s :=
    Z.of_nat (List.length (filter (fun r => status_eqb (mStatus r) s) results)) in
  Hook.passedMatches sm = count passed
  /\ Hook.flaggedMatches sm = count flagged
  /\ Hook.failedMatches sm = count failed
  /\ Hook.passedMatches sm + Hook.flaggedMatches sm + Hook.failedMatches sm
     = Hook.totalMatches sm
  /\ Hook.validatedMatches sm = Hook.totalMatches sm
  /\ Hook.totalMatches sm = Z.of_nat (List.length results)
  /\ Hook.pendingMatches sm = 0
  /\ Hook.noTBADataMatches sm = 0.
Proof.
  intros sm count. subst sm.
  cbn [Hook.calculateSummary Hook.passedMatches Hook.flaggedMatches
       Hook.failedMatches Hook.totalMatches Hook.validatedMatches
       Hook.pendingMatches Hook.noTBADataMatches].
  rewrite !status_count_fold. cbn [Hook.orZero].
  rewrite (status_filter passed), (status_filter flagged), (status_filter failed).
  pose proof (status_partition results) as Hp. subst count. cbv beta.
  assert (Hnone : forall k,
             (forall s, Hook.statusName s <> k) ->
             filter (fun r => String.eqb k (Hook.statusName (mStatus r))) results
             = []).
  { clear Hp. intros k Hk. induction results as [|r rs IH]; [reflexivity|].
    cbn [filter]. destruct (String.eqb_spec k (Hook.statusName (mStatus r))) as [E|_].
    - exfalso. apply (Hk (mStatus r)). symmetry. exact E.
    - apply IH. }
  rewrite (Hnone "pending"%string), (Hnone "no-tba-data"%string);
    try (intros []; discriminate).
  cbn [List.length]. repeat split; lia.
Qed.

Lemma discrepancy_fold (results : list MatchValidationResult)
                       (acc : Hook.DiscrepancyCounts) :
  let out :=
    fold_left
      (fun acc r =>
         {| Hook.cTotal := Hook.cTotal acc + totalDiscrepancies r;
            Hook.cCritical := Hook.cCritical acc + criticalDiscrepancies r;
            Hook.cWarning := Hook.cWarning acc + warningDiscrepancies r;
            Hook.cMinor :=
              Hook.cMinor acc + (totalDiscrepancies r - criticalDiscrepancies r
                                 - warningDiscrepancies r) |})
      results acc in
  Hook.cTotal out
    = Hook.cTotal acc + fold_right Z.add 0 (map totalDiscrepancies results)
  /\ Hook.cCritical out
    = Hook.cCritical acc + fold_right Z.add 0 (map criticalDiscrepancies results)
  /\ Hook.cWarning out
    = Hook.cWarning acc + fold_right Z.add 0 (map warningDiscrepancies results)
  /\ Hook.cMinor out
    = Hook.cMinor acc
      + fold_right Z.add 0
          (map (fun r => totalDiscrepancies r - criticalDiscrepancies r
                         - warningDiscrepancies r) results).
Proof.
  revert acc. induction results as [|r rs IH]; intro acc.
  - cbn. repeat split; lia.
  - cbn [fold_left map fold_right]. cbv zeta in IH |- *.
    destruct (IH {| Hook.cTotal := Hook.cTotal acc + totalDiscrepancies r;
                    Hook.cCritical := Hook.cCritical acc + criticalDiscrepancies r;
                    Hook.cWarning := Hook.cWarning acc + warningDiscrepancies r;
                    Hook.cMinor :=
                      Hook.cMinor acc
                      + (totalDiscrepancies r - criticalDiscrepancies r
                         - warningDiscrepancies r) |}) as (H1 & H2 & H3 & H4).
    rewrite H1, H2, H3, H4.
    cbn [Hook.cTotal Hook.cCritical Hook.cWarning Hook.cMinor].
    repeat split; lia.
Qed.

(** X28.  For results that the validator produced, the summary's minor
    count (computed as total - critical - warning) is the true number of
    minor discrepancies over all alliances and is never negative, the three
    severity counts add up to the total, and the number of matches
    requiring a re-scout is the number of failed matches. *)
Theorem summary_of_validator_results (results : list MatchValidationResult)
                                     (eventKey : string) :
  Forall fromValidator results ->
  let sm := Hook.calculateSummary results eventKey in
  Hook.sMinorDiscrepancies sm
    = fold_right Z.add 0
        (map (fun r => countSeverity minor (discrepancies (redAlliance r))
                       + countSeverity minor (discrepancies (blueAlliance r)))
             results)
  /\ 0 <= Hook.sMinorDiscrepancies sm
  /\ Hook.sCriticalDiscrepancies sm + Hook.sWarningDiscrepancies sm
     + Hook.sMinorDiscrepancies sm = Hook.sTotalDiscrepancies sm
  /\ Hook.matchesRequiringReScout sm = Hook.failedMatches sm.
Proof.
  intros Hall sm. subst sm.
  cbn [Hook.calculateSummary Hook.sMinorDiscrepancies Hook.sCriticalDiscrepancies
       Hook.sWarningDiscrepancies Hook.sTotalDiscrepancies
       Hook.matchesRequiringReScout Hook.failedMatches].
  destruct (discrepancy_fold results
              {| Hook.cTotal := 0; Hook.cCritical := 0;
                 Hook.cWarning := 0; Hook.cMinor := 0 |}) as (H1 & H2 & H3 & H4).
  cbv zeta in H1, H2, H3, H4. rewrite H1, H2, H3, H4.
  cbn [Hook.cTotal Hook.cCritical Hook.cWarning Hook.cMinor].
  rewrite status_count_fold, (status_filter failed). cbn [Hook.orZero].
  clear H1 H2 H3 H4.
  induction Hall as [|r rs Hr Hrs IH].
  - cbn. repeat split; lia.
  - destruct Hr as (ex & ev & m & reds & blues & tba & cfg & rr & rb & ->).
    destruct (match_counts ex ev m reds blues tba cfg rr rb) as (_ & _ & _ & Hm).
    destruct (validateMatch_status ex ev m reds blues tba cfg rr rb)
      as (_ & _ & Hre & _).
    cbv zeta in Hre.
    set (r := validateMatch ex ev m reds blues tba cfg rr rb) in *.
    pose proof (countSeverity_nonneg minor (discrepancies (redAlliance r))).
    pose proof (countSeverity_nonneg minor (discrepancies (blueAlliance r))).
    destruct IH as (I1 & I2 & I3 & I4).
    cbn [map fold_right filter]. rewrite Hm, Hre.
    split; [lia|]. split; [lia|]. split; [lia|].
    destruct (status_eqb (mStatus r) failed); cbn [List.length]; lia.
Qed.

Lemma summary_of_validator_results_witness :
  let results :=
    [ validateMatch stripFrc "2025test" "10" redEntries [] match10 strictConfig
                    None None;
      validateMatch stripFrc "2025test" "11" [] blueEntries11 match11 twoOffConfig
                    None None ] in
  Hook.matchesRequiringReScout (Hook.calculateSummary results "2025test")
  = Hook.failedMatches (Hook.calculateSummary results "2025test").
Proof.
  intro results.
  assert (Hall : Forall fromValidator results).
  { repeat constructor; unfold fromValidator;
      repeat eexists. }
  destruct (summary_of_validator_results results "2025test" Hall)
    as (_ & _ & _ & H).
  exact H.
Defined.

Lemma Qgeb_ratio (total n : Z) (k : positive) :
  0 < n ->
  (Qgeb (inject_Z total / inject_Z n) (Z.pos k # 2) = true
   <-> Z.pos k * n <= 2 * total).
Proof.
  intro Hn. rewrite Qgeb_true.
  destruct n as [|p|p]; try lia.
  unfold Qle, Qdiv, Qmult, Qinv, inject_Z. cbn [Qnum Qden Pos.mul]. lia.
Qed.

Lemma confidence_sum_fold (results : list MatchValidationResult) (a : Z) :
  fold_left (fun sum r => sum + Hook.confidenceMap (mConfidence r)) results a
  = a + fold_right Z.add 0
          (map (fun r => Hook.confidenceMap (mConfidence r)) results).
Proof.
  revert a. induction results as [|r rs IH]; intro a; cbn.
  - lia.
  - rewrite IH. lia.
Qed.

(** X29.  The summary's average confidence scores high as 3, medium as 2
    and low as 1: it is 'high' exactly when there are results and their
    mean score is at least 2.5, 'medium' for a mean from 1.5 up to 2.5, and
    'low' otherwise, in particular for an empty result list. *)
Theorem average_confidence_spec (results : list MatchValidationResult)
                                (eventKey : string) :
  let sm := Hook.calculateSummary results eventKey in
  let n := Z.of_nat (List.length results) in
  let score :=
    fold_right Z.add 0 (map (fun r => Hook.confidenceMap (mConfidence r)) results) in
  (Hook.averageConfidence sm = high <-> 0 < n /\ 5 * n <= 2 * score)
  /\ (Hook.averageConfidence sm = medium
      <-> 0 < n /\ 3 * n <= 2 * score /\ 2 * score < 5 * n)
  /\ (Hook.averageConfidence sm = low <-> n = 0 \/ 2 * score < 3 * n)
  /\ n <= score <= 3 * n.
Proof.
  intros sm n score.
  assert (Hbound : n <= score <= 3 * n).
  { subst n score. clear sm. induction results as [|r rs IH]; [cbn; lia|].
    cbn [map fold_right List.length]. rewrite Nat2Z.inj_succ.
    destruct (mConfidence r); cbn [Hook.confidenceMap]; lia. }
  assert (Havg : Hook.averageConfidence sm
                 = if Qgeb (if n >? 0 then (inject_Z (0 + score) / inject_Z n)%Q
                            else 0%Q) (5 # 2) then high
                   else if Qgeb (if n >? 0 then (inject_Z (0 + score) / inject_Z n)%Q
                                 else 0%Q) (3 # 2) then medium
                   else low).
  { subst sm n score. cbn [Hook.calculateSummary Hook.averageConfidence].
    rewrite confidence_sum_fold. reflexivity. }
  rewrite Havg. clear Havg. clearbody n score. clear sm.
  destruct (Z.gtb_spec n 0) as [Hn|Hn].
  - pose proof (Qgeb_ratio (0 + score) n 5 Hn) as H5.
    pose proof (Qgeb_ratio (0 + score) n 3 Hn) as H3.
    destruct (Qgeb (inject_Z (0 + score) / inject_Z n) (5 # 2)) eqn:E5;
      destruct (Qgeb (inject_Z (0 + score) / inject_Z n) (3 # 2)) eqn:E3;
      repeat split; intros; try congruence; try lia;
      try (assert (5 * n <= 2 * (0 + score)) by (apply H5; reflexivity); lia);
      try (assert (3 * n <= 2 * (0 + score)) by (apply H3; reflexivity); lia);
      try (assert (true = true -> False) as Hf
             by (intro; assert (false = true) by (first [apply H5 | apply H3]; lia);
                 discriminate); exfalso; apply Hf; reflexivity).
  - assert (n = 0) by lia. subst n. cbn.
    repeat split; intros; try congruence; try lia.
Qed.
